(** * Stock dashboard: a shallow embedding of the data handler, the chart
      builder and the orchestrator, with the properties of the specification.

    Source files embedded here:
    - [modules/data_handler.py]: [get_current_info], [get_live_price],
      [get_market_status], [get_stock_metrics], [format_market_cap],
      [format_volume];
    - [modules/charts.py]: [create_price_chart], [create_live_chart],
      [create_comparison_chart];
    - [main.py]: the watch-list assembly, [update_live_data], the live cards
      and [display_main_content].

    Python values are modelled as they are at run time: [int] as [Z], [float]
    as an IEEE-754 binary64 number ([spec_float] with precision 53 and maximal
    exponent 1024), [str] as the [string] of its UTF-8 bytes, [dict] as
    [gmap], [datetime] as its fields.  A Python call that can raise is a
    value of [outcome].  What the program takes from outside its own
    sources is a parameter: the answers of the data provider, the Unicode
    case tables of [str.upper], pandas' window kernels, the default
    tickers and [display_metrics]. *)

From Stdlib Require Import ZArith List Bool Ascii String Lia SpecFloat DecimalString.
From stdpp Require Import base option numbers list strings gmap.

Local Open Scope string_scope.
Local Open Scope list_scope.
Local Open Scope Z_scope.

(** ** Python run-time model *)

Module Py.

(** *** Exceptions and outcomes *)

Inductive exn :=
| TypeError
| ValueError
| OverflowError
| ZeroDivisionError
| IndexError
| ProviderError.

Inductive outcome (A : Type) :=
| Returns (a : A)
| Raises (e : exn).
Arguments Returns {A} a.
Arguments Raises {A} e.

Definition bind {A B} (c : outcome A) (k : A -> outcome B) : outcome B :=
  match c with
  | Returns a => k a
  | Raises e => Raises e
  end.

Notation "x <- c ;; k" := (bind c (fun x => k))
  (at level 100, c at next level, right associativity).

(** [try: body / except Exception: handler] *)
Definition try_except {A} (body : outcome A) (handler : exn -> outcome A) : outcome A :=
  match body with
  | Returns a => Returns a
  | Raises e => handler e
  end.

(** *** Floats: binary64 *)

Definition float := spec_float.
Definition prec : Z := 53.
Definition emax : Z := 1024.

Definition fadd : float -> float -> float := SFadd prec emax.
Definition fsub : float -> float -> float := SFsub prec emax.
Definition fmul : float -> float -> float := SFmul prec emax.
Definition fdiv : float -> float -> float := SFdiv prec emax.

(** [float(n)] for an [int]: rounded to nearest-even; [OverflowError] when
    the integer is too large for a double. *)
Definition float_of_Z (z : Z) : float := binary_normalize prec emax z 0 false.

Definition float_of_int (z : Z) : outcome float :=
  match float_of_Z z with
  | S754_infinity _ => Raises OverflowError
  | f => Returns f
  end.

Definition is_nan (f : float) : bool :=
  match f with S754_nan => true | _ => false end.

Definition fle (x y : float) : bool := SFleb x y.
Definition flt (x y : float) : bool := SFltb x y.
Definition fge (x y : float) : bool := SFleb y x.
Definition fgt (x y : float) : bool := SFltb y x.

(** Exact comparison of an [int] with a [float], as Python does it:
    the sign of [z - f] when [f] is a number. *)
Definition Z_compare_float (z : Z) (f : float) : option comparison :=
  match f with
  | S754_nan => None
  | S754_infinity s => Some (if s then Gt else Lt)
  | S754_zero _ => Some (z ?= 0)%Z
  | S754_finite s m e =>
      let v := if s then Z.neg m else Z.pos m in
      Some (if 0 <=? e then (z ?= v * 2 ^ e)%Z else (z * 2 ^ (- e) ?= v)%Z)
  end.

Definition int_ge_float (z : Z) (f : float) : bool :=
  match Z_compare_float z f with
  | Some (Gt | Eq) => true
  | _ => false
  end.

(** The literals of the source. *)
Definition f_1e12 : float := float_of_Z 1000000000000.
Definition f_1e9 : float := float_of_Z 1000000000.
Definition f_1e6 : float := float_of_Z 1000000.
Definition f_100 : float := float_of_Z 100.
Definition f_1 : float := float_of_Z 1.
Definition f_0 : float := S754_zero false.

(** *** Values *)

Inductive val :=
| VNone
| VBool (b : bool)
| VInt (z : Z)
| VFloat (f : float)
| VStr (s : string).

(** [bool(v)] *)
Definition truthy (v : val) : bool :=
  match v with
  | VNone => false
  | VBool b => b
  | VInt z => negb (z =? 0)
  | VFloat (S754_zero _) => false
  | VFloat _ => true
  | VStr s => negb (String.eqb s "")
  end.

(** [v == s] for a [str] literal [s] *)
Definition eq_str (v : val) (s : string) : bool :=
  match v with
  | VStr t => String.eqb t s
  | _ => false
  end.

(** [a or b] *)
Definition or_else (a b : val) : val := if truthy a then a else b.

(** [v >= f] for a [float] literal [f] *)
Definition ge_float (v : val) (f : float) : outcome bool :=
  match v with
  | VBool b => Returns (int_ge_float (if b then 1 else 0) f)
  | VInt z => Returns (int_ge_float z f)
  | VFloat x => Returns (fge x f)
  | VNone | VStr _ => Raises TypeError
  end.

(** [v / f] for a [float] literal [f] *)
Definition div_float (v : val) (f : float) : outcome float :=
  match v with
  | VBool b =>
      match f with
      | S754_zero _ => Raises ZeroDivisionError
      | _ => bind (float_of_int (if b then 1 else 0)) (fun x => Returns (fdiv x f))
      end
  | VInt z =>
      match f with
      | S754_zero _ => Raises ZeroDivisionError
      | _ => bind (float_of_int z) (fun x => Returns (fdiv x f))
      end
  | VFloat x =>
      match f with
      | S754_zero _ => Raises ZeroDivisionError
      | _ => Returns (fdiv x f)
      end
  | VNone | VStr _ => Raises TypeError
  end.

(** *** Text *)

Definition dec_of_N (n : N) : string := NilZero.string_of_uint (N.to_uint n).

Definition dec_of_Z (z : Z) : string :=
  match z with
  | Z0 => "0"
  | Zpos p => dec_of_N (Npos p)
  | Zneg p => "-" +:+ dec_of_N (Npos p)
  end.

(** Thousands separators: the digits are walked from the right, [k] counts
    the digits already put in the current group. *)
Fixpoint group3_rev (ds : list ascii) (k : nat) : list ascii :=
  match ds with
  | [] => []
  | d :: rest =>
      match k with
      | 3%nat => ","%char :: d :: group3_rev rest 1
      | _ => d :: group3_rev rest (S k)
      end
  end.

Definition group3 (s : string) : string :=
  string_of_list_ascii (rev (group3_rev (rev (list_ascii_of_string s)) 0)).

Fixpoint zeros (n : nat) : string :=
  match n with
  | O => ""
  | S k => "0" +:+ zeros k
  end.

(** Left padding with zeros up to [d] characters. *)
Definition pad_left (d : nat) (s : string) : string :=
  zeros (d - String.length s) +:+ s.

(** Round the rational [num / den] ([den > 0]) to the nearest integer,
    ties to even. *)
Definition round_half_even (num den : Z) : Z :=
  let q := num / den in
  let r := num mod den in
  match (2 * r ?= den)%Z with
  | Lt => q
  | Gt => q + 1
  | Eq => if Z.even q then q else q + 1
  end.

(** The magnitude of a finite float times [10^d], correctly rounded to an
    integer. *)
Definition scaled_magnitude (d : nat) (m : positive) (e : Z) : Z :=
  let scale := 10 ^ Z.of_nat d in
  if 0 <=? e then Z.pos m * scale * 2 ^ e
  else round_half_even (Z.pos m * scale) (2 ^ (- e)).

Definition fixed_digits (d : nat) (comma : bool) (n : Z) : string :=
  let scale := 10 ^ Z.of_nat d in
  let ip := dec_of_Z (n / scale) in
  let ip := if comma then group3 ip else ip in
  match d with
  | O => ip
  | _ => ip +:+ "." +:+ pad_left d (dec_of_Z (n mod scale))
  end.

(** [format(f, ".{d}f")] and [format(f, ",.{d}f")] for a float. *)
Definition format_fixed (d : nat) (comma : bool) (f : float) : string :=
  match f with
  | S754_nan => "nan"
  | S754_infinity s => if s then "-inf" else "inf"
  | S754_zero s => (if s then "-" else "") +:+ fixed_digits d comma 0
  | S754_finite s m e =>
      (if s then "-" else "") +:+ fixed_digits d comma (scaled_magnitude d m e)
  end.

(** [format(v, ",.0f")] and the like for a value: an [int] (and a [bool],
    which is one) is converted to a float first, a [str] or [None] refuses
    the format code. *)
Definition format_val_fixed (d : nat) (comma : bool) (v : val) : outcome string :=
  match v with
  | VBool b => bind (float_of_int (if b then 1 else 0)) (fun x => Returns (format_fixed d comma x))
  | VInt z => bind (float_of_int z) (fun x => Returns (format_fixed d comma x))
  | VFloat x => Returns (format_fixed d comma x)
  | VStr _ => Raises ValueError
  | VNone => Raises TypeError
  end.

(** [s * n] for a [str] *)
Fixpoint str_repeat (s : string) (n : nat) : string :=
  match n with
  | O => ""
  | S k => s +:+ str_repeat s k
  end.

(** [v * 100] *)
Definition mul_100 (v : val) : outcome val :=
  match v with
  | VBool b => Returns (VInt ((if b then 1 else 0) * 100))
  | VInt z => Returns (VInt (z * 100))
  | VFloat x => Returns (VFloat (fmul x f_100))
  | VStr s => Returns (VStr (str_repeat s 100))
  | VNone => Raises TypeError
  end.

(** A [str] is held as its UTF-8 bytes. [str.isspace] of a character is
    read on its encoding; the white-space characters are the 29 code points
    below (Unicode 6.3 and later).

    One byte: tab, line feed, vertical tab, form feed, carriage return, the
    four separators U+001C-U+001F and the space. *)
Definition byte_in (c : ascii) (lo hi : nat) : bool :=
  let n := nat_of_ascii c in (lo <=? n)%nat && (n <=? hi)%nat.

Definition is_space (c : ascii) : bool := byte_in c 9 13 || byte_in c 28 32.

(** Two bytes: U+0085 (C2 85) and U+00A0 (C2 A0). *)
Definition is_space2 (c1 c2 : ascii) : bool :=
  byte_in c1 194 194 && (byte_in c2 133 133 || byte_in c2 160 160).

(** Three bytes: U+1680 (E1 9A 80), U+2000-U+200A (E2 80 80 to E2 80 8A),
    U+2028 and U+2029 (E2 80 A8, E2 80 A9), U+202F (E2 80 AF), U+205F
    (E2 81 9F) and U+3000 (E3 80 80). *)
Definition is_space3 (c1 c2 c3 : ascii) : bool :=
  (byte_in c1 225 225 && byte_in c2 154 154 && byte_in c3 128 128)
  || (byte_in c1 226 226 && byte_in c2 128 128
      && (byte_in c3 128 138 || byte_in c3 168 169 || byte_in c3 175 175))
  || (byte_in c1 226 226 && byte_in c2 129 129 && byte_in c3 159 159)
  || (byte_in c1 227 227 && byte_in c2 128 128 && byte_in c3 128 128).

(** The text behind a leading white-space character, if there is one. *)
Definition space_prefix (s : string) : option string :=
  match s with
  | String c1 r1 =>
      if is_space c1 then Some r1
      else
        match r1 with
        | String c2 r2 =>
            if is_space2 c1 c2 then Some r2
            else
              match r2 with
              | String c3 r3 => if is_space3 c1 c2 c3 then Some r3 else None
              | EmptyString => None
              end
        | EmptyString => None
        end
  | EmptyString => None
  end.

(** [s.lstrip()] *)
Fixpoint lstrip (s : string) : string :=
  match s with
  | EmptyString => EmptyString
  | String c1 r1 =>
      if is_space c1 then lstrip r1
      else
        match r1 with
        | String c2 r2 =>
            if is_space2 c1 c2 then lstrip r2
            else
              match r2 with
              | String c3 r3 => if is_space3 c1 c2 c3 then lstrip r3 else s
              | EmptyString => s
              end
        | EmptyString => s
        end
  end.

(** The text is made of white space only. *)
Definition blank (s : string) : bool :=
  match lstrip s with
  | EmptyString => true
  | String _ _ => false
  end.

(** [s.rstrip()]: the longest white-space end of the text is removed. In
    UTF-8 a white-space character starts with a byte that only starts a
    character, so an end of the bytes that is white space is an end of the
    characters. *)
Fixpoint rstrip (s : string) : string :=
  match s with
  | EmptyString => EmptyString
  | String c r => if blank s then EmptyString else String c (rstrip r)
  end.

(** [s.strip()] *)
Definition strip (s : string) : string := rstrip (lstrip s).

Definition is_lower (c : ascii) : bool := byte_in c 97 122.

Definition upper_char (c : ascii) : ascii :=
  if is_lower c then ascii_of_nat (nat_of_ascii c - 32) else c.

Fixpoint ascii_upper (s : string) : string :=
  match s with
  | EmptyString => EmptyString
  | String c r => String (upper_char c) (ascii_upper r)
  end.

(** Every byte is below 128: the text is ASCII. *)
Fixpoint is_ascii (s : string) : bool :=
  match s with
  | EmptyString => true
  | String c r => byte_in c 0 127 && is_ascii r
  end.

(** [s.upper()]. On ASCII text the letters a-z move to A-Z and every other
    character is kept. On any other text the result comes from the Unicode
    case tables of the interpreter, which are not part of the program:
    [unicode_upper] is what [str.upper] returns there. *)
Definition upper (unicode_upper : string -> string) (s : string) : string :=
  if is_ascii s then ascii_upper s else unicode_upper s.

(** [s.split(sep)] for a one-character separator: always at least one
    piece, empty pieces kept. *)
Fixpoint split (sep : ascii) (s : string) : list string :=
  match s with
  | EmptyString => [EmptyString]
  | String c r =>
      if Ascii.eqb c sep then EmptyString :: split sep r
      else
        match split sep r with
        | h :: t => String c h :: t
        | [] => [String c EmptyString]
        end
  end.

(** *** Dates and times *)

(** A [datetime]: the date as its proleptic Gregorian ordinal
    ([date.toordinal()], day 1 is Monday 0001-01-01) and the time fields. *)
Record datetime := mk_datetime {
  ordinal : Z;
  hour : Z;
  minute : Z;
  second : Z;
  microsecond : Z
}.

Definition wf_datetime (d : datetime) : Prop :=
  1 <= ordinal d /\ 0 <= hour d < 24 /\ 0 <= minute d < 60 /\
  0 <= second d < 60 /\ 0 <= microsecond d < 1000000.

(** [d.weekday()]: Monday is 0, Sunday is 6. *)
Definition weekday (d : datetime) : Z := (ordinal d + 6) mod 7.

(** [d.replace(hour=h, minute=m, second=s, microsecond=us)] *)
Definition replace (d : datetime) (h m s us : Z) : datetime :=
  {| ordinal := ordinal d; hour := h; minute := m; second := s; microsecond := us |}.

(** Comparison of two datetimes of one timezone: field by field. *)
Definition dt_compare (a b : datetime) : comparison :=
  match (ordinal a ?= ordinal b)%Z with
  | Eq =>
      match (hour a ?= hour b)%Z with
      | Eq =>
          match (minute a ?= minute b)%Z with
          | Eq =>
              match (second a ?= second b)%Z with
              | Eq => (microsecond a ?= microsecond b)%Z
              | c => c
              end
          | c => c
          end
      | c => c
      end
  | c => c
  end.

Definition dt_lt (a b : datetime) : bool :=
  match dt_compare a b with Lt => true | _ => false end.
Definition dt_gt (a b : datetime) : bool :=
  match dt_compare a b with Gt => true | _ => false end.

(** A [timedelta], normalised: [0 <= seconds < 86400] and
    [0 <= microseconds < 10^6]. *)
Record timedelta := mk_timedelta {
  days : Z;
  seconds : Z;
  microseconds : Z
}.

(** [timedelta(days=d, seconds=s, microseconds=us)] *)
Definition timedelta_of (d s us : Z) : timedelta :=
  let s1 := s + us / 1000000 in
  {| days := d + s1 / 86400; seconds := s1 mod 86400; microseconds := us mod 1000000 |}.

(** [a - b] for two datetimes of one timezone. *)
Definition dt_sub (a b : datetime) : timedelta :=
  let secs1 := second a + minute a * 60 + hour a * 3600 in
  let secs2 := second b + minute b * 60 + hour b * 3600 in
  timedelta_of (ordinal a - ordinal b) (secs1 - secs2) (microsecond a - microsecond b).

(** *** pandas: positional access and reductions *)

(** [s.iloc[i]]: a negative position counts from the end; out of range
    raises. *)
Definition iloc {A} (l : list A) (i : Z) : outcome A :=
  let n := Z.of_nat (length l) in
  let j := if i <? 0 then n + i else i in
  if (0 <=? j) && (j <? n) then
    match nth_error l (Z.to_nat j) with
    | Some a => Returns a
    | None => Raises IndexError
    end
  else Raises IndexError.

(** [Series.max()]: missing values (NaN) are skipped; NaN when nothing is
    left. *)
Definition series_max (l : list float) : float :=
  fold_left
    (fun acc x =>
       if is_nan x then acc
       else if is_nan acc then x
       else if flt acc x then x else acc)
    l S754_nan.

(** [Series.min()] *)
Definition series_min (l : list float) : float :=
  fold_left
    (fun acc x =>
       if is_nan x then acc
       else if is_nan acc then x
       else if flt x acc then x else acc)
    l S754_nan.

End Py.

(** ** modules/data_handler.py *)

Module DataHandler.
Import Py.

(** One row of a price history returned by the market-data provider. *)
Record bar := mk_bar {
  stamp : datetime;
  Open : float;
  High : float;
  Low : float;
  Close : float;
  Volume : Z
}.

(** The market-data provider ([yfinance]) as the handler uses it: each
    request either returns or raises. *)
Record provider := mk_provider {
  (** [Ticker(t).history(period='1d', interval='1m', prepost=True)] *)
  history_live : string -> outcome (list bar);
  (** [Ticker(t).history(period='1y')] *)
  history_1y : string -> outcome (list bar);
  (** [Ticker(t).info] *)
  info : string -> outcome (gmap string val)
}.

(** [d.get(k, default)] *)
Definition dict_get (d : gmap string val) (k : string) (default : val) : val :=
  match d !! k with
  | Some v => v
  | None => default
  end.

(** The snapshot dictionary built by [get_live_price]. *)
Record live_price := mk_live_price {
  lp_price : float;
  lp_time : datetime;
  lp_change : val;
  lp_pct_change : val;
  lp_volume : Z
}.

Definition get_live_price (yf : provider) (ticker : string) : outcome (option live_price) :=
  try_except
    (hist <- history_live yf ticker ;;
     if negb (length hist =? 0)%nat then
       last <- iloc hist (-1) ;;
       change <-
         (if (1 <? length hist)%nat then
            prev <- iloc hist (-2) ;;
            Returns (VFloat (fsub (Close last) (Close prev)))
          else Returns (VInt 0)) ;;
       pct_change <-
         (if (1 <? length hist)%nat then
            prev <- iloc hist (-2) ;;
            Returns (VFloat (fmul (fdiv (fsub (Close last) (Close prev)) (Close prev)) f_100))
          else Returns (VInt 0)) ;;
       Returns (Some {| lp_price := Close last;
                        lp_time := stamp last;
                        lp_change := change;
                        lp_pct_change := pct_change;
                        lp_volume := Volume last |})
     else Returns None)
    (fun _ => Returns None).

Record market_status := mk_market_status {
  is_open : bool;
  status : string
}.

(** [now] is the clock reading [datetime.now(ist)]. *)
Definition get_market_status (now : datetime) : market_status :=
  let opening_time := replace now 9 15 0 0 in
  let closing_time := replace now 15 30 0 0 in
  if 5 <=? weekday now then
    {| is_open := false; status := "Closed (Weekend)" |}
  else if dt_lt now opening_time then
    let time_left := dt_sub opening_time now in
    {| is_open := false;
       status := "Opens in " +:+ dec_of_Z (seconds time_left / 3600) +:+ "h "
                 +:+ dec_of_Z ((seconds time_left / 60) mod 60) +:+ "m" |}
  else if dt_gt now closing_time then
    {| is_open := false; status := "Closed" |}
  else
    let time_left := dt_sub closing_time now in
    {| is_open := true;
       status := "Open (" +:+ dec_of_Z (seconds time_left / 3600) +:+ "h "
                 +:+ dec_of_Z ((seconds time_left / 60) mod 60) +:+ "m left)" |}.

Definition format_market_cap (market_cap : val) : outcome string :=
  if negb (truthy market_cap) || eq_str market_cap "N/A" then Returns "N/A"
  else
    t <- ge_float market_cap f_1e12 ;;
    if t then
      q <- div_float market_cap f_1e12 ;;
      Returns ("₹" +:+ format_fixed 2 false q +:+ "T")
    else
      b <- ge_float market_cap f_1e9 ;;
      if b then
        q <- div_float market_cap f_1e9 ;;
        Returns ("₹" +:+ format_fixed 2 false q +:+ "B")
      else
        m <- ge_float market_cap f_1e6 ;;
        if m then
          q <- div_float market_cap f_1e6 ;;
          Returns ("₹" +:+ format_fixed 2 false q +:+ "M")
        else
          r <- format_val_fixed 0 true market_cap ;;
          Returns ("₹" +:+ r).

Definition format_volume (volume : val) : outcome string :=
  if negb (truthy volume) || eq_str volume "N/A" then Returns "N/A"
  else format_val_fixed 0 true volume.

(** The dictionary built by [get_stock_metrics], one field per key. *)
Record metrics := mk_metrics {
  current_price : val;
  week52_high : val;
  week52_low : val;
  pe_ratio : val;
  market_cap : string;
  volume : string;
  beta : val;
  dividend_yield : string;
  sector : val;
  industry : val
}.

Definition NA : val := VStr "N/A".

Definition get_stock_metrics (yf : provider) (ticker : string) : outcome (option metrics) :=
  try_except
    (info <- info yf ticker ;;
     hist <- history_1y yf ticker ;;
     let fifty_two_week_high :=
       if negb (length hist =? 0)%nat then VFloat (series_max (map High hist)) else VNone in
     let fifty_two_week_low :=
       if negb (length hist =? 0)%nat then VFloat (series_min (map Low hist)) else VNone in
     cap <- format_market_cap (dict_get info "marketCap" VNone) ;;
     vol <- format_volume (dict_get info "volume" (dict_get info "averageVolume" NA)) ;;
     dy <-
       (if truthy (dict_get info "dividendYield" VNone) then
          y <- mul_100 (dict_get info "dividendYield" (VInt 0)) ;;
          r <- format_val_fixed 2 false y ;;
          Returns (r +:+ "%")
        else Returns "N/A") ;;
     Returns (Some {|
       current_price := dict_get info "currentPrice" (dict_get info "regularMarketPrice" NA);
       week52_high := or_else fifty_two_week_high (dict_get info "fiftyTwoWeekHigh" NA);
       week52_low := or_else fifty_two_week_low (dict_get info "fiftyTwoWeekLow" NA);
       pe_ratio := dict_get info "trailingPE" (dict_get info "forwardPE" NA);
       market_cap := cap;
       volume := vol;
       beta := dict_get info "beta" NA;
       dividend_yield := dy;
       sector := dict_get info "sector" NA;
       industry := dict_get info "industry" NA |}))
    (fun _ => Returns None).

End DataHandler.

(** ** modules/charts.py *)

Module Charts.
Import Py.

(** *** The live chart

    The prices are binary64 numbers. The moving averages are computed by
    pandas' window kernels, compiled code that is not part of the program:
    what they return, row by row, is a parameter of the chart. *)

Record window_kernels := mk_window_kernels {
  (** [column.rolling(window=w).mean()] at row [i] *)
  rolling_mean_at : nat -> list float -> nat -> float;
  (** [column.ewm(span=s, adjust=a).mean()] at row [i] *)
  ewm_mean_at : nat -> bool -> list float -> nat -> float
}.

(** The series a kernel returns has the index of the column: one value
    per row. *)
Definition rolling_mean (pandas : window_kernels) (window : nat) (values : list float)
  : list float :=
  map (rolling_mean_at pandas window values) (seq 0 (length values)).

Definition ewm_mean (pandas : window_kernels) (span : nat) (adjust : bool)
  (values : list float) : list float :=
  map (ewm_mean_at pandas span adjust values) (seq 0 (length values)).

(** One row of the live data frame: the columns [time] and [price]. *)
Record live_row := mk_live_row {
  time : datetime;
  price : float
}.

(** A [go.Scatter] trace. *)
Record scatter := mk_scatter {
  name : string;
  x : list datetime;
  y : list float;
  line_color : string
}.

(** ['k' in indicators] *)
Definition contains (indicators : list string) (k : string) : bool :=
  existsb (String.eqb k) indicators.

(** The traces of the figure, in the order they are added. [None] for
    [indicators] is the empty list. *)
Definition create_live_chart (pandas : window_kernels) (data : list live_row)
  (indicators : option (list string)) : list scatter :=
  let indicators := match indicators with None => [] | Some l => l end in
  let times := map time data in
  let prices := map price data in
  [ {| name := "Price"; x := times; y := prices; line_color := "#4CAF50" |} ]
  ++ (if contains indicators "sma" && (20 <? length data)%nat then
        [ {| name := "SMA 20"; x := times; y := rolling_mean pandas 20 prices;
             line_color := "#FFA500" |} ]
      else [])
  ++ (if contains indicators "ema" && (50 <? length data)%nat then
        [ {| name := "EMA 50"; x := times; y := ewm_mean pandas 50 false prices;
             line_color := "#00BFFF" |} ]
      else []).

(** *** The comparison chart *)

(** The literal [0.3]: the double nearest to 3/10. *)
Definition f_0_3 : float := fdiv (float_of_Z 3) (float_of_Z 10).

Definition fabs (v : float) : float := SFabs v.

(** The builtin [max(a, b)]: the first of the largest. *)
Definition py_max (a b : float) : float := if fgt b a then b else a.

(** The [go.Bar] trace and the y-axis range of the figure. *)
Record bar_chart := mk_bar_chart {
  bar_x : list string;
  bar_y : list float;
  marker_color : list string;
  text : list string;
  y_range : float * float
}.

(** The value column after the conversion step. *)
Definition to_percentages (ys : list float) : list float :=
  if fle (series_max ys) f_1 then map (fun v => fmul v f_100) ys else ys.

(** [df[x_col]] is [xs] and [df[y_col]] is [ys]. *)
Definition create_comparison_chart (xs : list string) (ys : list float) : bar_chart :=
  let ys := to_percentages ys in
  let y_pad := py_max f_1 (fmul f_0_3 (py_max (fabs (series_max ys)) (fabs (series_min ys)))) in
  {| bar_x := xs;
     bar_y := ys;
     marker_color := map (fun v => if fge v f_0 then "#4CAF50" else "#F44336") ys;
     text := map (fun v => (if fge v f_0 then "+" else "") +:+ format_fixed 2 false v +:+ "%") ys;
     y_range := (fsub (series_min ys) y_pad, fadd (series_max ys) y_pad) |}.

End Charts.

(** ** main.py *)

Module Main.
Import Py DataHandler.

Definition ALL_TICKERS : list string :=
  [ "RELIANCE.NS"; "TCS.NS"; "HDFCBANK.NS"; "INFY.NS"; "ICICIBANK.NS"; "LT.NS"; "SBIN.NS";
    "ITC.NS"; "AXISBANK.NS"; "KOTAKBANK.NS"; "WIPRO.NS"; "ONGC.NS"; "BHARTIARTL.NS";
    "BAJFINANCE.NS" ].

(** The options of the multi-select. *)
Definition popular_options (DEFAULT_TICKERS : list string) : list string :=
  List.filter (fun t => negb (existsb (String.eqb t) DEFAULT_TICKERS)) ALL_TICKERS.

(** A non-empty [str] is true. *)
Definition nonempty (s : string) : bool := negb (String.eqb s "").

(** The watch-list of the sidebar. [unicode_upper] is [str.upper] outside
    ASCII, see [Py.upper]. *)
Section WatchList.
Variable unicode_upper : string -> string.

Definition custom_tickers (manual_input : string) : list string :=
  map (fun t => upper unicode_upper (strip t))
      (List.filter (fun t => nonempty (strip t)) (split "," manual_input)).

Definition ticker_list (DEFAULT_TICKERS additional_tickers : list string)
  (manual_input : string) : list string :=
  DEFAULT_TICKERS ++ additional_tickers ++ custom_tickers manual_input.

End WatchList.

(** The value kept per symbol in [st.session_state.price_data]. *)
Record cached_price := mk_cached_price {
  cp_price : float;
  cp_change : val;
  cp_pct_change : val;
  cp_time : datetime
}.

(** [st.session_state] *)
Record session_state := mk_session_state {
  price_data : gmap string cached_price;
  last_update : datetime
}.

(** The body of the loop over [ticker_list]: one provider fetch per
    symbol, the symbols that returned a snapshot are recorded. *)
Fixpoint collect (yf : provider) (tickers : list string) (new_data : gmap string cached_price)
  : outcome (gmap string cached_price) :=
  match tickers with
  | [] => Returns new_data
  | ticker :: rest =>
      live_data <- get_live_price yf ticker ;;
      match live_data with
      | Some d =>
          collect yf rest
            (<[ ticker := {| cp_price := lp_price d;
                             cp_change := lp_change d;
                             cp_pct_change := lp_pct_change d;
                             cp_time := lp_time d |} ]> new_data)
      | None => collect yf rest new_data
      end
  end.

(** One call of [update_live_data]. [current_time] is the clock reading
    [datetime.now()], [yf] the provider as it answers during this call.
    The result is the session state after the call and the symbols whose
    fetch was issued. *)
Definition update_live_data (yf : provider) (tickers : list string) (refresh_rate : Z)
  (current_time : datetime) (st : session_state) : outcome (session_state * list string) :=
  if refresh_rate <=? seconds (dt_sub current_time (last_update st)) then
    new_data <- collect yf tickers ∅ ;;
    if negb (size new_data =? 0)%nat then
      Returns ({| price_data := new_data; last_update := current_time |}, tickers)
    else Returns (st, tickers)
  else Returns (st, []).

(** A refresh attempt of the main loop: the clock reading and the
    provider at that moment. *)
Record attempt := mk_attempt {
  at_time : datetime;
  at_provider : provider
}.

(** What one attempt did. *)
Record step := mk_step {
  step_of : attempt;
  before : session_state;
  after : session_state;
  fetched : list string
}.

(** A sequence of refresh attempts, each on the state the previous one
    left. *)
Fixpoint run (tickers : list string) (refresh_rate : Z) (attempts : list attempt)
  (st : session_state) : outcome (list step) :=
  match attempts with
  | [] => Returns []
  | a :: rest =>
      r <- update_live_data (at_provider a) tickers refresh_rate (at_time a) st ;;
      steps <- run tickers refresh_rate rest (fst r) ;;
      Returns ({| step_of := a; before := st; after := fst r; fetched := snd r |}
               :: steps)
  end.

End Main.

(** * Vocabulary of the specification *)

Module Spec.
Import Py DataHandler Charts Main.

(** C3 as the specification words it: 750_000 rendered with the [M]
    suffix. *)
Definition market_cap_examples_as_specified : Prop :=
  format_market_cap (VInt 2500000000000) = Returns "₹2.50T"
  /\ format_market_cap (VInt 3200000000) = Returns "₹3.20B"
  /\ format_market_cap (VInt 750000) = Returns "₹0.75M"
  /\ format_market_cap (VInt 4321) = Returns "₹4,321"
  /\ format_market_cap VNone = Returns "N/A"
  /\ format_market_cap (VStr "N/A") = Returns "N/A".

(** The live snapshot of a minute-bar series, in the words of the
    specification: nothing for an empty series; the last close, with
    change and percent change 0, for a single observation; otherwise the
    change is the last close minus the one before it, and the percent
    change that difference divided by the close before, times 100. *)
Definition snapshot_of (hist : list bar) : option live_price :=
  match rev hist with
  | [] => None
  | [c] =>
      Some {| lp_price := Close c; lp_time := stamp c;
              lp_change := VInt 0; lp_pct_change := VInt 0;
              lp_volume := Volume c |}
  | c :: p :: _ =>
      Some {| lp_price := Close c; lp_time := stamp c;
              lp_change := VFloat (fsub (Close c) (Close p));
              lp_pct_change :=
                VFloat (fmul (fdiv (fsub (Close c) (Close p)) (Close p)) f_100);
              lp_volume := Volume c |}
  end.

(** A bar that closes at the integer price [c]. *)
Definition bar_at (c : Z) : bar :=
  {| stamp := mk_datetime 739000 10 0 0 0;
     Open := float_of_Z c; High := float_of_Z c; Low := float_of_Z c;
     Close := float_of_Z c; Volume := 1000 |}.

(** A token of the custom text as it is kept: not empty and trimmed. *)
Definition trimmed_token (t : string) : Prop :=
  t <> "" /\ strip t = t.

(** Microseconds since midnight. *)
Definition tod_us (d : datetime) : Z :=
  ((hour d * 60 + minute d) * 60 + second d) * 1000000 + microsecond d.

(** 09:15:00 and 15:30:00 in microseconds since midnight. *)
Definition open_us : Z := (9 * 60 + 15) * 60 * 1000000.
Definition close_us : Z := (15 * 60 + 30) * 60 * 1000000.

(** Whole hours, and the whole minutes left over, of a duration given in
    microseconds. *)
Definition hours_of (us : Z) : Z := us / 1000000 / 3600.
Definition minutes_of (us : Z) : Z := (us / 1000000 / 60) mod 60.

(** C1 as the specification words it, at the closing boundary: on a
    weekday, from 15:30:00 on, the market is closed with status "Closed". *)
Definition closed_from_1530 : Prop :=
  forall now, wf_datetime now -> weekday now < 5 -> close_us <= tod_us now ->
    get_market_status now = {| is_open := false; status := "Closed" |}.

(** The snapshot the provider's answer yields for a symbol, if any. *)
Definition live_snapshot (yf : provider) (ticker : string) : option live_price :=
  match history_live yf ticker with
  | Returns hist => snapshot_of hist
  | Raises _ => None
  end.

(** The entry [update_live_data] records for a snapshot. *)
Definition cache_entry (d : live_price) : cached_price :=
  {| cp_price := lp_price d; cp_change := lp_change d;
     cp_pct_change := lp_pct_change d; cp_time := lp_time d |}.

(** At least one symbol of the watch-list returned live data. *)
Definition has_live_data (yf : provider) (tickers : list string) : Prop :=
  exists t d, In t tickers /\ live_snapshot yf t = Some d.

(** C2 as the specification words it: a symbol whose fetch returned no
    snapshot, in a refresh where another symbol's fetch succeeded, keeps
    its cached value. *)
Definition failed_symbols_keep_cache : Prop :=
  forall yf tickers refresh_rate now st st' log t c,
    update_live_data yf tickers refresh_rate now st = Returns (st', log) ->
    refresh_rate <= seconds (dt_sub now (last_update st)) ->
    In t tickers -> live_snapshot yf t = None ->
    (exists t' d, In t' tickers /\ t' <> t /\ live_snapshot yf t' = Some d) ->
    price_data st !! t = Some c ->
    price_data st' !! t = Some c.

(** Microseconds since the start of day 0. *)
Definition to_us (d : datetime) : Z :=
  (ordinal d * 86400 + hour d * 3600 + minute d * 60 + second d) * 1000000
  + microsecond d.

(** The clock readings of the attempts never go back, starting from the
    instant [t0]. *)
Fixpoint clock_from (t0 : Z) (attempts : list attempt) : Prop :=
  match attempts with
  | [] => True
  | a :: rest => t0 <= to_us (at_time a) /\ clock_from (to_us (at_time a)) rest
  end.

(** Microseconds between [last_update] before the step and the step. *)
Definition elapsed_us (s : step) : Z :=
  to_us (at_time (step_of s)) - to_us (last_update (before s)).

(** The step changed the session cache. *)
Definition refreshed (s : step) : Prop := after s <> before s.

(** What a single step obeys: provider fetches are issued only once
    [refresh_rate] seconds have elapsed since [last_update]; the session
    cache changes only in a step that issued the fetches, got live data for
    at least one symbol and stamps [last_update] with the time of the
    step; otherwise the state is left as it was. *)
Definition step_ok (tickers : list string) (refresh_rate : Z) (s : step) : Prop :=
  (fetched s <> [] -> refresh_rate * 1000000 <= elapsed_us s)
  /\ (refreshed s ->
        refresh_rate * 1000000 <= elapsed_us s
        /\ fetched s = tickers
        /\ has_live_data (at_provider (step_of s)) tickers
        /\ last_update (after s) = at_time (step_of s))
  /\ (last_update (after s) <> last_update (before s) -> refreshed s).




(** A provider with live data for "B.NS" only, a session whose cache holds
    "A.NS" and was last updated at 10:00:00, and the watch-list of both. *)
Definition only_B : provider :=
  {| history_live := fun t =>
       if String.eqb t "B.NS" then Returns [bar_at 100; bar_at 105] else Returns [];
     history_1y := fun _ => Returns [];
     info := fun _ => Returns ∅ |}.

Definition cached_A : cached_price :=
  {| cp_price := float_of_Z 50; cp_change := VInt 0; cp_pct_change := VInt 0;
     cp_time := mk_datetime 738998 9 59 0 0 |}.

Definition session_A : session_state :=
  {| price_data := {[ "A.NS" := cached_A ]};
     last_update := mk_datetime 738998 10 0 0 0 |}.

Definition watch_AB : list string := ["A.NS"; "B.NS"].

(** Attempts 2, 6 and 8 seconds after 10:00:00. *)
Definition attempts_2_6_8 : list attempt :=
  [ {| at_time := mk_datetime 738998 10 0 2 0; at_provider := only_B |};
    {| at_time := mk_datetime 738998 10 0 6 0; at_provider := only_B |};
    {| at_time := mk_datetime 738998 10 0 8 0; at_provider := only_B |} ].


Definition is_zero (f : float) : bool :=
  match f with S754_zero _ => true | _ => false end.




(** A value at most 1 in magnitude. *)
Definition within_unit (v : float) : bool := fle (fabs v) f_1.

(** C4 as the specification words it: the value column is multiplied by
    100 when every value is at most 1 in magnitude, and left alone when
    some value exceeds 1 in magnitude. *)
Definition scaling_by_magnitude : Prop :=
  forall xs ys,
    (forallb within_unit ys = true ->
       bar_y (create_comparison_chart xs ys) = map (fun v => fmul v f_100) ys)
    /\ (forallb within_unit ys = false ->
          bar_y (create_comparison_chart xs ys) = ys).

(** The column -5.0, 0.5. *)
Definition minus5_half : list float :=
  [float_of_Z (-5); fdiv (float_of_Z 1) (float_of_Z 2)].

(** What the running maximum is after the values [seen]: NaN while every
    value seen is NaN, otherwise a value seen that is not NaN and that no
    other such value exceeds. *)
Definition running_max (acc : float) (seen : list float) : Prop :=
  (is_nan acc = true /\ Forall (fun v => is_nan v = true) seen)
  \/ (is_nan acc = false /\ In acc seen
      /\ forall v, In v seen -> is_nan v = false -> fle v acc = true).

(** The traces of a figure that carry the name [nm]. *)
Definition traces_named (nm : string) (fig : list scatter) : list scatter :=
  List.filter (fun t => String.eqb (name t) nm) fig.

(** A live data frame of [n] rows, the prices 1, 2, ..., n. *)
Definition ramp (n : nat) : list live_row :=
  map (fun k => {| time := mk_datetime 738998 10 0 (Z.of_nat k) 0;
                   price := float_of_Z (Z.of_nat (S k)) |}) (seq 0 n).

End Spec.

(** * The rest of the code *)

(** ** modules/data_handler.py: the current quote *)

Module DataHandlerRest.
Import Py DataHandler.

(** The two requests of [get_current_info], each returning or raising. *)
Record quotes := mk_quotes {
  (** [Ticker(t).history(period='1d', interval='1m')] *)
  history_1m : string -> outcome (list bar);
  (** [Ticker(t).history(period='2d')] *)
  history_2d : string -> outcome (list bar)
}.

(** [None, None, None] *)
Definition no_info : val * val * val := (VNone, VNone, VNone).

Definition get_current_info (yf : quotes) (ticker : string) : outcome (val * val * val) :=
  try_except
    (hist <- history_1m yf ticker ;;
     if negb (length hist =? 0)%nat && (1 <? length hist)%nat then
       current <- iloc (map Close hist) (-1) ;;
       prev <- iloc (map Close hist) (-2) ;;
       let change := fsub current prev in
       let pct_change := fmul (fdiv change prev) f_100 in
       Returns (VFloat current, VFloat change, VFloat pct_change)
     else
       hist <- history_2d yf ticker ;;
       if negb (length hist =? 0)%nat then
         current <- iloc (map Close hist) (-1) ;;
         prev <- (if (1 <? length hist)%nat then iloc (map Close hist) (-2)
                  else iloc (map Open hist) (-1)) ;;
         let change := fsub current prev in
         let pct_change := fmul (fdiv change prev) f_100 in
         Returns (VFloat current, VFloat change, VFloat pct_change)
       else Returns no_info)
    (fun _ => Returns no_info).

End DataHandlerRest.

(** ** modules/charts.py: the price history chart *)

Module ChartsRest.
Import Py Charts.

(** A data frame as the chart reads it: its columns by name. The cells are
    not inspected. *)
Section PriceChart.
Context {cell : Type}.

(** [data[column]] either gives the column or raises [KeyError]. *)
Inductive lookup_result (A : Type) :=
| Found (a : A)
| KeyError (column : string).
Arguments Found {A} a.
Arguments KeyError {A} column.

Definition lookup_bind {A B} (c : lookup_result A) (k : A -> lookup_result B)
  : lookup_result B :=
  match c with
  | Found a => k a
  | KeyError column => KeyError column
  end.

Definition getitem (data : gmap string (list cell)) (column : string)
  : lookup_result (list cell) :=
  match data !! column with
  | Some values => Found values
  | None => KeyError column
  end.

(** [column in data.columns] *)
Definition has_column (data : gmap string (list cell)) (column : string) : bool :=
  match data !! column with
  | Some _ => true
  | None => false
  end.

(** The trace of the figure: a [go.Candlestick] or a [go.Scatter]. *)
Inductive price_trace :=
| Candlestick (x open high low close : list cell)
| Scatter (x y : list cell) (fill : option string) (line_width : option Z).

(** The figure: its trace and the layout entries that depend on the
    arguments. *)
Record price_figure := mk_price_figure {
  traces : list price_trace;
  title_text : string;
  height : Z;
  transition_duration : option Z;
  rangeslider_visible : option bool
}.

Definition create_price_chart (data : gmap string (list cell)) (title : string)
  (chart_type : string) (live : bool) : lookup_result price_figure :=
  lookup_bind
    (if String.eqb chart_type "candlestick"
        && forallb (has_column data) ["Open"; "High"; "Low"; "Close"]
     then
       lookup_bind (getitem data "Date") (fun x =>
       lookup_bind (getitem data "Open") (fun o =>
       lookup_bind (getitem data "High") (fun h =>
       lookup_bind (getitem data "Low") (fun l =>
       lookup_bind (getitem data "Close") (fun c =>
       Found (Candlestick x o h l c))))))
     else if String.eqb chart_type "area" then
       lookup_bind (getitem data "Date") (fun x =>
       lookup_bind (getitem data "Price") (fun y =>
       Found (Scatter x y (Some "tozeroy") None)))
     else
       lookup_bind (getitem data "Date") (fun x =>
       lookup_bind (getitem data "Price") (fun y =>
       Found (Scatter x y None (Some 2)))))
    (fun trace =>
       Found {| traces := [trace];
                title_text := title;
                height := 350;
                transition_duration := if live then Some 300 else None;
                rangeslider_visible := if live then Some false else None |}).

End PriceChart.

Arguments Found {A} a.
Arguments KeyError {A} column.

(** The height of the table of [display_comparison_table], for a frame of
    [n] rows. *)
Definition comparison_table_height (n : nat) : Z := Z.min 300 (35 * Z.of_nat n).

End ChartsRest.

(** ** main.py: the live cards and the main content *)

Module MainRest.
Import Py DataHandler Charts ChartsRest Main.

(** The cards of the live summary: [(i, ticker, entry)] for every position
    [i] of the watch-list whose symbol has a cached snapshot; the card is
    drawn in column [i]. [i0] is the position of the first symbol. *)
Fixpoint live_cards_from (i0 : nat) (tickers : list string)
  (price_data : gmap string cached_price) : list (nat * string * cached_price) :=
  match tickers with
  | [] => []
  | ticker :: rest =>
      match price_data !! ticker with
      | Some entry => (i0, ticker, entry) :: live_cards_from (S i0) rest price_data
      | None => live_cards_from (S i0) rest price_data
      end
  end.

Definition live_cards (tickers : list string) (price_data : gmap string cached_price)
  : list (nat * string * cached_price) :=
  live_cards_from 0 tickers price_data.

(** One entry of [comparison_data]. *)
Record comparison_row := mk_comparison_row {
  row_symbol : string;
  row_price : float;
  row_change : val;
  row_market_cap : string;
  row_pe_ratio : val;
  row_volume : string
}.

(** The loop that builds [comparison_data]: each turn runs inside its own
    [try], a failure leaves the list as it is. *)
Fixpoint comparison_data (yf : provider) (price_data : gmap string cached_price)
  (tickers : list string) (rows : list comparison_row) : outcome (list comparison_row) :=
  match tickers with
  | [] => Returns rows
  | ticker :: rest =>
      rows' <-
        try_except
          (metrics <- get_stock_metrics yf ticker ;;
           match price_data !! ticker, metrics with
           | Some p, Some m =>
               Returns (rows ++ [ {| row_symbol := ticker;
                                     row_price := cp_price p;
                                     row_change := cp_pct_change p;
                                     row_market_cap := market_cap m;
                                     row_pe_ratio := pe_ratio m;
                                     row_volume := volume m |} ])
           | _, _ => Returns rows
           end)
          (fun _ => Returns rows) ;;
      comparison_data yf price_data rest rows'
  end.

(** A cell of the column "Change (%)" as a number of the data frame: the
    cache holds floats and the integer 0. *)
Definition as_float (v : val) : float :=
  match v with
  | VFloat f => f
  | VInt z => float_of_Z z
  | VBool b => float_of_Z (if b then 1 else 0)
  | VNone | VStr _ => S754_nan
  end.

(** The height of the comparison table, for [n] rows. *)
Definition table_height (n : nat) : Z := Z.min (40 + 30 * Z.of_nat n) 500.

(** What the comparison section shows. *)
Inductive comparison_view :=
| NoComparisonData
| ComparisonShown (rows : list comparison_row) (height : Z) (chart : bar_chart).

Definition comparison_section (yf : provider) (tickers : list string)
  (price_data : gmap string cached_price) : outcome comparison_view :=
  rows <- comparison_data yf price_data tickers [] ;;
  if negb (length rows =? 0)%nat then
    Returns (ComparisonShown rows (table_height (length rows))
               (create_comparison_chart (map row_symbol rows)
                  (map (fun r => as_float (row_change r)) rows)))
  else Returns NoComparisonData.

(** What the chart column shows: the figure, or the error notice. *)
Inductive chart_view {cell : Type} :=
| ChartShown (fig : @price_figure cell)
| ChartError.

(** What the metrics column shows: the panel, the notice "No metrics
    available.", or the notice "Error loading metrics". *)
Inductive metrics_view :=
| MetricsShown (m : metrics)
| NoMetrics
| MetricsError.

Record main_content {cell : Type} := mk_main_content {
  chart : @chart_view cell;
  panel : metrics_view;
  comparison : comparison_view
}.

(** [display_main_content]. [stock_data] is [None] when [get_stock_data]
    returned [None]; otherwise it holds what the selection of the columns
    Date and Close (renamed Price) of the selected symbol gave: the frame,
    or [None] when the selection raised. [display_metrics] is the function
    of [modules/ui_components.py], which is not part of the sources at hand:
    it returns or raises. Streamlit's own calls are taken to return. The
    result is [None] when nothing is drawn. *)
Definition display_main_content {cell : Type}
  (display_metrics : metrics -> outcome unit)
  (stock_data : option (option (gmap string (list cell))))
  (yf : provider) (tickers : list string) (selected_ticker : string)
  (price_data : gmap string cached_price) : outcome (option (@main_content cell)) :=
  try_except
    (match stock_data with
     | None => Returns None
     | Some selection =>
         let chart :=
           match selection with
           | Some df =>
               match create_price_chart df (selected_ticker +:+ " Price History")
                       "line" true with
               | Found fig => ChartShown fig
               | KeyError _ => ChartError
               end
           | None => ChartError
           end in
         panel <-
           try_except
             (metrics <- get_stock_metrics yf selected_ticker ;;
              match metrics with
              | Some m => _ <- display_metrics m ;; Returns (MetricsShown m)
              | None => Returns NoMetrics
              end)
             (fun _ => Returns MetricsError) ;;
         comparison <- comparison_section yf tickers price_data ;;
         Returns (Some {| chart := chart; panel := panel; comparison := comparison |})
     end)
    (fun _ => Returns None).

End MainRest.

(** ** Vocabulary of the further properties *)

Module SpecRest.
Import Py DataHandler Charts Main Spec DataHandlerRest ChartsRest MainRest.

(** Minute bars at 100 and 105, no daily bars to be had. *)
Definition minute_100_105 : quotes :=
  {| history_1m := fun _ => Returns [bar_at 100; bar_at 105];
     history_2d := fun _ => Raises ProviderError |}.

(** A daily bar that opens at 80 and closes at 100. *)
Definition day_80_100 : bar :=
  {| stamp := mk_datetime 738998 0 0 0 0;
     Open := float_of_Z 80; High := float_of_Z 110;
     Low := float_of_Z 70; Close := float_of_Z 100; Volume := 10 |}.

(** A single minute bar and a single daily bar. *)
Definition single_day : quotes :=
  {| history_1m := fun _ => Returns [bar_at 100];
     history_2d := fun _ => Returns [day_80_100] |}.

(** The minute request fails, the daily bars are there. *)
Definition minute_fails : quotes :=
  {| history_1m := fun _ => Raises ProviderError;
     history_2d := fun _ => Returns [bar_at 100; bar_at 105] |}.

(** The minute request answers as the live request of [only_B]. *)
Definition minute_as_only_B : quotes :=
  {| history_1m := history_live only_B;
     history_2d := fun _ => Returns [] |}.

(** The keys of the provider's info record that [get_stock_metrics]
    reads. *)
Definition metric_keys : list string :=
  [ "currentPrice"; "regularMarketPrice"; "fiftyTwoWeekHigh"; "fiftyTwoWeekLow";
    "trailingPE"; "forwardPE"; "marketCap"; "volume"; "averageVolume"; "beta";
    "dividendYield"; "sector"; "industry" ].

(** The record in which every field is the placeholder. *)
Definition all_NA : metrics :=
  {| current_price := NA; week52_high := NA; week52_low := NA; pe_ratio := NA;
     market_cap := "N/A"; volume := "N/A"; beta := NA; dividend_yield := "N/A";
     sector := NA; industry := NA |}.

(** A provider that knows nothing about a symbol: an info record with an
    unrelated key and no history. *)
Definition knows_nothing : provider :=
  {| history_live := fun _ => Returns [];
     history_1y := fun _ => Returns [];
     info := fun _ => Returns (<[ "shortName" := VStr "X" ]> ∅) |}.

(** A provider that reports the market capitalisation as text. *)
Definition cap_as_text : provider :=
  {| history_live := fun _ => Returns [];
     history_1y := fun _ => Returns [bar_at 90; bar_at 110];
     info := fun _ => Returns (<[ "marketCap" := VStr "2.5T" ]> ∅) |}.

(** A provider with a trailing P/E of [None], a forward P/E, a volume of 0,
    an average volume and a dividend yield of 1.5 percent. *)
Definition none_pe : provider :=
  {| history_live := fun _ => Returns [];
     history_1y := fun _ => Returns [];
     info := fun _ =>
       Returns (<[ "trailingPE" := VNone ]>
               (<[ "forwardPE" := VInt 20 ]>
               (<[ "volume" := VInt 0 ]>
               (<[ "averageVolume" := VInt 5000 ]>
               (<[ "dividendYield" := VFloat (fdiv (float_of_Z 3) (float_of_Z 200)) ]> ∅))))) |}.

(** The price trace of the live chart. *)
Definition price_line (data : list live_row) : scatter :=
  {| name := "Price"; x := map time data; y := map price data;
     line_color := "#4CAF50" |}.

(** The overlay of the simple moving average: the 20-row rolling mean of
    the price column, in orange. *)
Definition sma_line (pandas : window_kernels) (data : list live_row) : scatter :=
  {| name := "SMA 20"; x := map time data;
     y := map (rolling_mean_at pandas 20 (map price data)) (seq 0 (length data));
     line_color := "#FFA500" |}.

(** The overlay of the exponential moving average: span 50, no adjustment,
    in blue. *)
Definition ema_line (pandas : window_kernels) (data : list live_row) : scatter :=
  {| name := "EMA 50"; x := map time data;
     y := map (ewm_mean_at pandas 50 false (map price data)) (seq 0 (length data));
     line_color := "#00BFFF" |}.

(** Kernels for the examples: the mean of the window added up from the
    left, missing before the window is full, and the recurrence of the
    exponential average started at the first value. *)
Definition sum_kernels : window_kernels :=
  {| rolling_mean_at := fun window values i =>
       if (i + 1 <? window)%nat then S754_nan
       else fdiv (fold_left fadd (firstn window (skipn (i + 1 - window) values)) f_0)
                 (float_of_Z (Z.of_nat window));
     ewm_mean_at := fun span adjust values i =>
       let alpha := fdiv (float_of_Z 2) (float_of_Z (Z.of_nat span + 1)) in
       match firstn (S i) values with
       | [] => S754_nan
       | first :: rest =>
           fold_left (fun prev v => fadd (fmul (fsub f_1 alpha) prev) (fmul alpha v))
                     rest first
       end |}.

(** The four columns a candlestick needs. *)
Definition ohlc : list string := ["Open"; "High"; "Low"; "Close"].

(** A frame with the columns Date and Price only, as the page builds it. *)
Definition date_price_frame : gmap string (list Z) :=
  <[ "Date" := [1; 2; 3] ]> (<[ "Price" := [10; 11; 12] ]> ∅).

(** The UTF-8 encoding of a code point. *)
Definition utf8 (cp : N) : string :=
  let byte (n : N) := ascii_of_N n in
  let cont (n : N) := byte (128 + n mod 64)%N in
  if (cp <? 128)%N then String (byte cp) ""
  else if (cp <? 2048)%N then String (byte (192 + cp / 64)%N) (String (cont cp) "")
  else if (cp <? 65536)%N then
    String (byte (224 + cp / 4096)%N) (String (cont (cp / 64)%N) (String (cont cp) ""))
  else
    String (byte (240 + cp / 262144)%N)
      (String (cont (cp / 4096)%N) (String (cont (cp / 64)%N) (String (cont cp) ""))).

(** The text made of the given code points. *)
Fixpoint utf8_text (cps : list N) : string :=
  match cps with
  | [] => ""
  | cp :: rest => utf8 cp +:+ utf8_text rest
  end.

(** The code points for which [str.isspace] holds. *)
Definition White_Space : list N :=
  [ 9; 10; 11; 12; 13; 28; 29; 30; 31; 32; 133; 160; 5760;
    8192; 8193; 8194; 8195; 8196; 8197; 8198; 8199; 8200; 8201; 8202;
    8232; 8233; 8239; 8287; 12288 ]%N.

(** The code point of the comma. *)
Definition comma : N := 44%N.

(** A custom ticker that the parser leaves as it is: not empty, trimmed
    and upper-cased. *)
Definition clean_ticker (unicode_upper : string -> string) (t : string) : Prop :=
  t <> "" /\ strip t = t /\ upper unicode_upper t = t.

(** Every byte of the text satisfies [p]. *)
Fixpoint all_chars (p : ascii -> bool) (s : string) : bool :=
  match s with
  | EmptyString => true
  | String c r => p c && all_chars p r
  end.

Definition not_comma (c : ascii) : bool := negb (Ascii.eqb c ",").

(** The texts joined by the separator, as [sep.join(l)]. *)
Fixpoint join (sep : string) (l : list string) : string :=
  match l with
  | [] => ""
  | [t] => t
  | t :: rest => t +:+ sep +:+ join sep rest
  end.

(** The change and the percent change of a cache entry are both the
    integer 0 or both floats. *)
Definition numeric_entry (e : cached_price) : Prop :=
  (cp_change e = VInt 0 /\ cp_pct_change e = VInt 0)
  \/ (exists c p, cp_change e = VFloat c /\ cp_pct_change e = VFloat p).

(** The price map holds symbols of the watch-list only, with numeric
    entries. *)
Definition cache_ok (tickers : list string) (price_data : gmap string cached_price) : Prop :=
  forall t e, price_data !! t = Some e -> In t tickers /\ numeric_entry e.

(** The session as the page initialises it: an empty price map. *)
Definition fresh_session (t0 : datetime) : session_state :=
  {| price_data := ∅; last_update := t0 |}.

(** Whole seconds between [last_update] and [now], within the day: what the
    [seconds] field of their difference holds. *)
Definition seconds_in_day (now last : datetime) : Z :=
  ((to_us now - to_us last) / 1000000) mod 86400.

(** A symbol gets a comparison row: it has a cached snapshot and its
    metrics are available. *)
Definition eligible (yf : provider) (price_data : gmap string cached_price)
  (ticker : string) : bool :=
  match price_data !! ticker, get_stock_metrics yf ticker with
  | Some _, Returns (Some _) => true
  | _, _ => false
  end.

(** The row is made of the cached snapshot and of the metrics of its
    symbol. *)
Definition row_from (yf : provider) (price_data : gmap string cached_price)
  (r : comparison_row) : Prop :=
  exists p m,
    price_data !! row_symbol r = Some p
    /\ get_stock_metrics yf (row_symbol r) = Returns (Some m)
    /\ row_price r = cp_price p
    /\ row_change r = cp_pct_change p
    /\ row_market_cap r = market_cap m
    /\ row_pe_ratio r = pe_ratio m
    /\ row_volume r = volume m.

(** The cards of the symbols with a live snapshot, [(i, ticker, entry)] with
    [i] the position in the watch-list, from position [i0] on. *)
Fixpoint snapshot_cards_from (i0 : nat) (yf : provider) (tickers : list string)
  : list (nat * string * cached_price) :=
  match tickers with
  | [] => []
  | ticker :: rest =>
      match live_snapshot yf ticker with
      | Some d => (i0, ticker, cache_entry d) :: snapshot_cards_from (S i0) yf rest
      | None => snapshot_cards_from (S i0) yf rest
      end
  end.

(** The percent change of a row, as the chart reads it. *)
Definition change_of (r : comparison_row) : float := as_float (row_change r).

(** A quiet day: some row has a percent change that is a number, and no
    such change is above 1. *)
Definition quiet_day (rows : list comparison_row) : Prop :=
  (exists r, In r rows /\ is_nan (change_of r) = false)
  /\ (forall r, In r rows -> is_nan (change_of r) = false -> fle (change_of r) f_1 = true).

(** The label of a bar: "+" in front of a value that is at least 0, two
    decimals and the percent sign. *)
Definition percent_label (v : float) : string :=
  (if fge v f_0 then "+" else "") +:+ format_fixed 2 false v +:+ "%".

(** A metrics panel that is drawn, and one that fails. *)
Definition panel_drawn (m : metrics) : outcome unit := Returns tt.

Definition panel_fails (m : metrics) : outcome unit := Raises ValueError.

(** A provider for a quiet day: "B.NS" moves from 200 to 201, half a
    percent; nothing else is known. *)
Definition quiet_B : provider :=
  {| history_live := fun t =>
       if String.eqb t "B.NS" then Returns [bar_at 200; bar_at 201] else Returns [];
     history_1y := fun _ => Returns [];
     info := fun _ => Returns ∅ |}.

(** The cache entry of "B.NS" on that day. *)
Definition quiet_cache : gmap string cached_price :=
  {[ "B.NS" := {| cp_price := float_of_Z 201;
                  cp_change := VFloat (float_of_Z 1);
                  cp_pct_change :=
                    VFloat (fmul (fdiv (float_of_Z 1) (float_of_Z 200)) f_100);
                  cp_time := mk_datetime 739000 10 0 0 0 |} ]}.

End SpecRest.

(** * Properties *)

Import Py DataHandler Charts Main Spec.

(** ** Proof automation *)

Ltac float_cases :=
  repeat match goal with
         | s : bool |- _ => destruct s
         end;
  simpl; try reflexivity; try discriminate; try congruence.

(** Case analysis on the comparisons of exponents and mantissas. *)
Ltac compare_cases :=
  repeat match goal with
         | |- context [(?a ?= ?b)%Z] => destruct (Z.compare_spec a b)
         | H : context [(?a ?= ?b)%Z] |- _ => destruct (Z.compare_spec a b)
         | |- context [Pos.compare_cont Eq ?a ?b] =>
             change (Pos.compare_cont Eq a b) with (Pos.compare a b);
             destruct (Pos.compare_spec a b)
         | H : context [Pos.compare_cont Eq ?a ?b] |- _ =>
             change (Pos.compare_cont Eq a b) with (Pos.compare a b) in H;
             destruct (Pos.compare_spec a b)
         end;
  simpl in *; try reflexivity; try discriminate; try (exfalso; lia).

(** ** Number formatting *)

(** C3, counterexample: 750_000 is below the 1e6 threshold of the [M]
    suffix, so the examples of the specification do not all hold. *)
Lemma format_market_cap_750000_not_M :
  format_market_cap (VInt 750000) = Returns "₹750,000"
  /\ format_market_cap (VInt 750000) <> Returns "₹0.75M"
  /\ ~ market_cap_examples_as_specified.
Proof.
  split; [vm_compute; reflexivity |].
  split; [vm_compute; discriminate |].
  unfold market_cap_examples_as_specified.
  intros (_ & _ & H & _).
  vm_compute in H. discriminate H.
Qed.

(** C3, amended: [format_market_cap] maps 2_500_000_000_000 to "₹2.50T",
    3_200_000_000 to "₹3.20B", 750_000 to "₹750,000" (the [M] suffix starts
    at 1_000_000, which gives "₹1.00M"), 4_321 to "₹4,321", and an absent
    ([None]) or unknown ("N/A") input to "N/A". *)
Theorem format_market_cap_examples :
  format_market_cap (VInt 2500000000000) = Returns "₹2.50T"
  /\ format_market_cap (VInt 3200000000) = Returns "₹3.20B"
  /\ format_market_cap (VInt 750000) = Returns "₹750,000"
  /\ format_market_cap (VInt 1000000) = Returns "₹1.00M"
  /\ format_market_cap (VInt 4321) = Returns "₹4,321"
  /\ format_market_cap VNone = Returns "N/A"
  /\ format_market_cap (VStr "N/A") = Returns "N/A".
Proof. repeat split; vm_compute; reflexivity. Qed.

Example format_volume_examples :
  format_volume (VInt 1234567) = Returns "1,234,567"
  /\ format_volume VNone = Returns "N/A".
Proof. split; vm_compute; reflexivity. Qed.

(** C10: a falsy input (0, 0.0, [False], the empty string, [None]) is
    rendered as "N/A" by [format_market_cap] and by [format_volume]. *)
Theorem format_falsy_is_NA (v : val) :
  truthy v = false ->
  format_market_cap v = Returns "N/A" /\ format_volume v = Returns "N/A".
Proof.
  intros Hv. unfold format_market_cap, format_volume.
  rewrite Hv. simpl. split; reflexivity.
Qed.

Lemma format_falsy_is_NA_zero :
  truthy (VInt 0) = false
  /\ (format_market_cap (VInt 0) = Returns "N/A" /\ format_volume (VInt 0) = Returns "N/A").
Proof.
  split; [reflexivity | apply (format_falsy_is_NA (VInt 0)); reflexivity].
Defined.

Example format_zero_is_not_a_formatted_zero :
  format_market_cap (VInt 0) <> Returns "₹0"
  /\ format_volume (VInt 0) <> Returns "0"
  /\ format_market_cap (VFloat (S754_zero false)) = Returns "N/A"
  /\ format_volume (VFloat (S754_zero true)) = Returns "N/A".
Proof. repeat split; vm_compute; congruence. Qed.

(** ** Live price snapshots *)

Lemma iloc_from_end {A} (l : list A) (k : nat) (a : A) :
  (0 < k <= length l)%nat ->
  nth_error l (length l - k) = Some a ->
  iloc l (- Z.of_nat k) = Returns a.
Proof.
  intros Hk Hnth. unfold iloc.
  destruct (Z.ltb_spec (- Z.of_nat k) 0) as [_ | Hge]; [| lia].
  destruct (Z.leb_spec 0 (Z.of_nat (length l) + - Z.of_nat k)) as [_ | Hlt]; [| lia].
  destruct (Z.ltb_spec (Z.of_nat (length l) + - Z.of_nat k) (Z.of_nat (length l)))
    as [_ | Hge]; [| lia].
  simpl andb. cbv iota.
  replace (Z.to_nat (Z.of_nat (length l) + - Z.of_nat k)) with (length l - k)%nat by lia.
  rewrite Hnth. reflexivity.
Qed.

Lemma iloc_last {A} (l : list A) (a : A) : iloc (l ++ [a]) (-1) = Returns a.
Proof.
  apply (iloc_from_end (l ++ [a]) 1 a).
  - rewrite length_app. simpl. lia.
  - rewrite length_app. simpl length.
    rewrite nth_error_app2 by lia.
    replace (length l + 1 - 1 - length l)%nat with 0%nat by lia. reflexivity.
Qed.

Lemma iloc_before_last {A} (l : list A) (a b : A) : iloc (l ++ [a; b]) (-2) = Returns a.
Proof.
  apply (iloc_from_end (l ++ [a; b]) 2 a).
  - rewrite length_app. simpl. lia.
  - rewrite length_app. simpl length.
    rewrite nth_error_app2 by lia.
    replace (length l + 2 - 2 - length l)%nat with 0%nat by lia. reflexivity.
Qed.

(** The body of [get_live_price] on a series the provider returned. *)
Lemma live_price_of_series (hist : list bar) :
  (if negb (length hist =? 0)%nat then
     last <- iloc hist (-1) ;;
     change <-
       (if (1 <? length hist)%nat then
          prev <- iloc hist (-2) ;;
          Returns (VFloat (fsub (Close last) (Close prev)))
        else Returns (VInt 0)) ;;
     pct_change <-
       (if (1 <? length hist)%nat then
          prev <- iloc hist (-2) ;;
          Returns (VFloat (fmul (fdiv (fsub (Close last) (Close prev)) (Close prev)) f_100))
        else Returns (VInt 0)) ;;
     Returns (Some {| lp_price := Close last;
                      lp_time := stamp last;
                      lp_change := change;
                      lp_pct_change := pct_change;
                      lp_volume := Volume last |})
   else Returns None) = Returns (snapshot_of hist).
Proof.
  unfold snapshot_of.
  destruct (rev hist) as [|c [|p r]] eqn:E.
  - apply (f_equal (@rev bar)) in E. rewrite rev_involutive in E. subst hist. reflexivity.
  - apply (f_equal (@rev bar)) in E. rewrite rev_involutive in E. subst hist. reflexivity.
  - apply (f_equal (@rev bar)) in E. rewrite rev_involutive in E. simpl in E.
    rewrite <- app_assoc in E. simpl in E. subst hist.
    rewrite length_app. simpl length.
    replace (length (rev r) + 2 =? 0)%nat with false by (symmetry; apply Nat.eqb_neq; lia).
    replace (1 <? length (rev r) + 2)%nat with true by (symmetry; apply Nat.ltb_lt; lia).
    simpl negb. cbv iota.
    replace (rev r ++ [p; c]) with ((rev r ++ [p]) ++ [c]) at 1
      by (rewrite <- app_assoc; reflexivity).
    rewrite iloc_last. simpl bind.
    rewrite iloc_before_last. reflexivity.
Qed.

(** [get_live_price] never raises: its result is the snapshot of the series
    the provider returned, and [None] when the provider failed. *)
Lemma get_live_price_returns (yf : provider) (ticker : string) :
  get_live_price yf ticker =
    Returns (match history_live yf ticker with
             | Returns hist => snapshot_of hist
             | Raises _ => None
             end).
Proof.
  unfold get_live_price.
  destruct (history_live yf ticker) as [hist | e]; simpl bind.
  - rewrite live_price_of_series. reflexivity.
  - reflexivity.
Qed.

(** C8: [get_live_price] always returns; on a non-empty minute-bar series
    the snapshot has change = last close - previous close and percent change
    = that difference / previous close * 100 (previous 100.0 and last 105.0
    give 5.0, printed "5.00"; previous 100.0 and last 95.0 give -5.0), both
    are 0 on a single observation; on an empty series, and when the provider
    fails, the result is [None]. *)
Theorem get_live_price_snapshot (yf : provider) (ticker : string) :
  get_live_price yf ticker =
    Returns (match history_live yf ticker with
             | Returns hist => snapshot_of hist
             | Raises _ => None
             end)
  /\ (forall c, snapshot_of [c] =
        Some {| lp_price := Close c; lp_time := stamp c; lp_change := VInt 0;
                lp_pct_change := VInt 0; lp_volume := Volume c |})
  /\ (forall pre p c, snapshot_of (pre ++ [p; c]) =
        Some {| lp_price := Close c; lp_time := stamp c;
                lp_change := VFloat (fsub (Close c) (Close p));
                lp_pct_change :=
                  VFloat (fmul (fdiv (fsub (Close c) (Close p)) (Close p)) f_100);
                lp_volume := Volume c |})
  /\ snapshot_of [] = None
  /\ (lp_pct_change <$> snapshot_of [bar_at 100; bar_at 105]) = Some (VFloat (float_of_Z 5))
  /\ format_fixed 2 false (float_of_Z 5) = "5.00"
  /\ (lp_pct_change <$> snapshot_of [bar_at 100; bar_at 95]) = Some (VFloat (float_of_Z (-5))).
Proof.
  split; [| split; [| split; [| split; [| split; [| split]]]]].
  - apply get_live_price_returns.
  - intros c. reflexivity.
  - intros pre p c. unfold snapshot_of.
    rewrite rev_app_distr. reflexivity.
  - reflexivity.
  - vm_compute. reflexivity.
  - vm_compute. reflexivity.
  - vm_compute. reflexivity.
Qed.

(** ** The watch-list *)

Lemma filter_map_swap {A B} (f : A -> B) (p : B -> bool) (l : list A) :
  List.filter p (map f l) = map f (List.filter (fun a => p (f a)) l).
Proof.
  induction l as [|a l IH]; simpl; [reflexivity |].
  destruct (p (f a)); simpl; rewrite IH; reflexivity.
Qed.

Lemma append_cons (x : ascii) (a b : string) : String x a +:+ b = String x (a +:+ b).
Proof. reflexivity. Qed.

Lemma string_app_assoc (a b c : string) : (a +:+ b) +:+ c = a +:+ (b +:+ c).
Proof.
  induction a as [|x a IH]; [reflexivity |].
  rewrite !append_cons, IH. reflexivity.
Qed.

Lemma string_app_nil (a : string) : a +:+ "" = a.
Proof.
  induction a as [|x a IH]; [reflexivity |].
  rewrite append_cons, IH. reflexivity.
Qed.

(** [lstrip] removes one leading white-space character after the other. *)
Lemma lstrip_unfold (s : string) :
  lstrip s = match space_prefix s with Some r => lstrip r | None => s end.
Proof.
  destruct s as [|c1 [|c2 [|c3 r]]]; cbn [lstrip space_prefix]; [reflexivity | | |].
  - destruct (is_space c1); reflexivity.
  - destruct (is_space c1); [reflexivity |]. destruct (is_space2 c1 c2); reflexivity.
  - destruct (is_space c1); [reflexivity |]. destruct (is_space2 c1 c2); [reflexivity |].
    destruct (is_space3 c1 c2 c3); reflexivity.
Qed.

Lemma space_prefix_length (s r : string) :
  space_prefix s = Some r -> (String.length r < String.length s)%nat.
Proof.
  destruct s as [|c1 [|c2 [|c3 r3]]]; cbn [space_prefix]; [discriminate | | |].
  - destruct (is_space c1); [| discriminate]. intros [= <-]. simpl. lia.
  - destruct (is_space c1); [intros [= <-]; simpl; lia |].
    destruct (is_space2 c1 c2); [| discriminate]. intros [= <-]. simpl. lia.
  - destruct (is_space c1); [intros [= <-]; simpl; lia |].
    destruct (is_space2 c1 c2); [intros [= <-]; simpl; lia |].
    destruct (is_space3 c1 c2 c3); [| discriminate]. intros [= <-]. simpl. lia.
Qed.

(** What follows a text does not change its leading white-space
    character. *)
Lemma space_prefix_app (s r t : string) :
  space_prefix s = Some r -> space_prefix (s +:+ t) = Some (r +:+ t).
Proof.
  destruct s as [|c1 [|c2 [|c3 r3]]]; cbn [space_prefix]; [discriminate | | |].
  - destruct (is_space c1) eqn:E1; [| discriminate]. intros [= <-].
    rewrite append_cons. cbn [space_prefix]. rewrite E1. reflexivity.
  - destruct (is_space c1) eqn:E1.
    + intros [= <-]. rewrite append_cons. cbn [space_prefix]. rewrite E1. reflexivity.
    + destruct (is_space2 c1 c2) eqn:E2; [| discriminate]. intros [= <-].
      rewrite !append_cons. cbn [space_prefix]. rewrite E1, E2. reflexivity.
  - destruct (is_space c1) eqn:E1.
    + intros [= <-]. rewrite append_cons. cbn [space_prefix]. rewrite E1. reflexivity.
    + destruct (is_space2 c1 c2) eqn:E2.
      * intros [= <-]. rewrite !append_cons. cbn [space_prefix]. rewrite E1, E2.
        reflexivity.
      * destruct (is_space3 c1 c2 c3) eqn:E3; [| discriminate]. intros [= <-].
        rewrite !append_cons. cbn [space_prefix]. rewrite E1, E2, E3. reflexivity.
Qed.

(** Induction on the length of a text. *)
Lemma string_length_ind (P : string -> Prop) :
  (forall s, (forall r, (String.length r < String.length s)%nat -> P r) -> P s) ->
  forall s, P s.
Proof.
  intros Hstep s.
  assert (H : forall n r, (String.length r < n)%nat -> P r).
  { induction n as [|n IH]; intros r Hr; [lia |].
    apply Hstep. intros r' Hr'. apply IH. lia. }
  apply (H (S (String.length s))). lia.
Qed.

(** A left-stripped text does not start with white space. *)
Lemma lstrip_head (s : string) : space_prefix (lstrip s) = None.
Proof.
  induction s as [s IH] using string_length_ind.
  rewrite lstrip_unfold. destruct (space_prefix s) as [r |] eqn:E; [| exact E].
  apply IH. exact (space_prefix_length s r E).
Qed.

Lemma lstrip_fixed (s : string) : space_prefix s = None -> lstrip s = s.
Proof. intros E. rewrite lstrip_unfold, E. reflexivity. Qed.

Lemma lstrip_length (s : string) : (String.length (lstrip s) <= String.length s)%nat.
Proof.
  induction s as [s IH] using string_length_ind.
  rewrite lstrip_unfold. destruct (space_prefix s) as [r |] eqn:E; [| lia].
  pose proof (space_prefix_length s r E). specialize (IH r ltac:(assumption)). lia.
Qed.

Lemma blank_lstrip (s : string) : blank s = true <-> lstrip s = "".
Proof.
  unfold blank. destruct (lstrip s); split; intros H; try reflexivity; discriminate H.
Qed.

(** White space in front of a text is stripped with it. *)
Lemma lstrip_blank_app (pad t : string) :
  blank pad = true -> lstrip (pad +:+ t) = lstrip t.
Proof.
  induction pad as [pad IH] using string_length_ind. intros Hb.
  apply blank_lstrip in Hb. rewrite lstrip_unfold in Hb.
  destruct (space_prefix pad) as [r |] eqn:E.
  - rewrite (lstrip_unfold (pad +:+ t)), (space_prefix_app pad r t E).
    apply IH; [exact (space_prefix_length pad r E) | apply blank_lstrip; exact Hb].
  - subst pad. reflexivity.
Qed.

Lemma blank_app (a b : string) : blank a = true -> blank b = true -> blank (a +:+ b) = true.
Proof.
  intros Ha Hb. apply blank_lstrip. rewrite (lstrip_blank_app a b Ha).
  apply blank_lstrip. exact Hb.
Qed.

Lemma rstrip_cons (c : ascii) (r : string) :
  rstrip (String c r) = if blank (String c r) then "" else String c (rstrip r).
Proof. reflexivity. Qed.

(** What [rstrip] removes is white space at the end of the text. *)
Lemma rstrip_split (s : string) : exists b, s = rstrip s +:+ b /\ blank b = true.
Proof.
  induction s as [|c r IH]; [exists ""; split; reflexivity |].
  rewrite rstrip_cons. destruct (blank (String c r)) eqn:E.
  - exists (String c r). split; [reflexivity | exact E].
  - destruct IH as (b & Hr & Hb). exists b. split; [| exact Hb].
    rewrite append_cons, <- Hr. reflexivity.
Qed.

Lemma rstrip_length (s : string) : (String.length (rstrip s) <= String.length s)%nat.
Proof.
  induction s as [|c r IH]; [simpl; lia |].
  rewrite rstrip_cons. destruct (blank (String c r)); simpl; lia.
Qed.

Lemma rstrip_idem (s : string) : rstrip (rstrip s) = rstrip s.
Proof.
  induction s as [|c r IH]; [reflexivity |].
  rewrite rstrip_cons. destruct (blank (String c r)) eqn:E; [reflexivity |].
  rewrite rstrip_cons, IH.
  destruct (blank (String c (rstrip r))) eqn:E'; [| reflexivity].
  exfalso. destruct (rstrip_split r) as (b & Hr & Hb).
  assert (Hs : blank (String c (rstrip r) +:+ b) = true) by (apply blank_app; assumption).
  rewrite append_cons, <- Hr in Hs. congruence.
Qed.

(** Stripping the end leaves the start as it is. *)
Lemma rstrip_keeps_head (s : string) :
  space_prefix s = None -> space_prefix (rstrip s) = None.
Proof.
  intros Hs. destruct (space_prefix (rstrip s)) as [r |] eqn:E; [| reflexivity].
  exfalso. destruct (rstrip_split s) as (b & Hsplit & _).
  pose proof (space_prefix_app (rstrip s) r b E) as H.
  rewrite <- Hsplit in H. congruence.
Qed.

Lemma strip_idem (s : string) : strip (strip s) = strip s.
Proof.
  unfold strip.
  rewrite (lstrip_fixed (rstrip (lstrip s)))
    by (apply rstrip_keeps_head; apply lstrip_head).
  apply rstrip_idem.
Qed.

Lemma nonempty_true (s : string) : nonempty s = true -> s <> "".
Proof.
  unfold nonempty. intros H E. subst s. discriminate H.
Qed.

(** C6: the effective watch-list is the concatenation default ++ popular ++
    custom; the custom tickers are the comma-separated tokens of the text,
    each trimmed, the empty ones dropped, the others upper-cased, in the
    order of the text; each token that is kept is non-empty and trimmed
    before it is upper-cased; nothing is deduplicated. This holds for
    every text, whatever [str.upper] returns outside ASCII. *)
Theorem ticker_list_concat (unicode_upper : string -> string)
  (DEFAULT_TICKERS additional_tickers : list string) (manual_input : string) :
  let tokens := List.filter nonempty (map strip (split "," manual_input)) in
  ticker_list unicode_upper DEFAULT_TICKERS additional_tickers manual_input =
    DEFAULT_TICKERS ++ additional_tickers ++ custom_tickers unicode_upper manual_input
  /\ custom_tickers unicode_upper manual_input = map (upper unicode_upper) tokens
  /\ Forall trimmed_token tokens
  /\ ticker_list unicode_upper ["A.NS"; "B.NS"] ["C.NS"] " d.ns, ,E.NS " =
       ["A.NS"; "B.NS"; "C.NS"; "D.NS"; "E.NS"]
  /\ ticker_list unicode_upper ["A.NS"; "B.NS"] ["A.NS"] "b.ns,a.ns" =
       ["A.NS"; "B.NS"; "A.NS"; "B.NS"; "A.NS"].
Proof.
  cbv zeta.
  split; [reflexivity |].
  split; [unfold custom_tickers; rewrite filter_map_swap, map_map; reflexivity |].
  split; [| split; reflexivity].
  apply List.Forall_forall. intros t Ht.
  apply filter_In in Ht. destruct Ht as [Hin Hne].
  apply in_map_iff in Hin. destruct Hin as (w & <- & _).
  split; [exact (nonempty_true _ Hne) | apply strip_idem].
Qed.

(** White space outside ASCII is trimmed too: a no-break space (U+00A0) in
    front of a token and an ideographic space (U+3000) behind it. *)
Example custom_tickers_unicode_space (unicode_upper : string -> string) :
  custom_tickers unicode_upper
    (String "194" (String "160" ("tcs.ns" +:+ String "227" (String "128" (String "128" ",x")))))
  = ["TCS.NS"; "X"].
Proof. reflexivity. Qed.

(** A token outside ASCII is upper-cased by the case tables. *)
Example custom_tickers_unicode_upper (unicode_upper : string -> string) :
  custom_tickers unicode_upper "é.ns, tcs.ns" = [unicode_upper "é.ns"; "TCS.NS"].
Proof. reflexivity. Qed.

(** ** Market status *)

(** Two datetimes of one day compare as their times of day. *)
Lemma dt_compare_same_day (a b : datetime) :
  ordinal a = ordinal b ->
  0 <= minute a < 60 -> 0 <= second a < 60 -> 0 <= microsecond a < 1000000 ->
  0 <= minute b < 60 -> 0 <= second b < 60 -> 0 <= microsecond b < 1000000 ->
  dt_compare a b = (tod_us a ?= tod_us b).
Proof.
  intros Ho Hma Hsa Hua Hmb Hsb Hub.
  unfold dt_compare, tod_us. rewrite Ho, Z.compare_refl.
  destruct (Z.compare_spec (hour a) (hour b));
    destruct (Z.compare_spec (minute a) (minute b));
    destruct (Z.compare_spec (second a) (second b));
    destruct (Z.compare_spec (microsecond a) (microsecond b));
    symmetry;
    first [ apply Z.compare_eq_iff; lia | apply Z.compare_lt_iff; lia
          | apply Z.compare_gt_iff; lia ].
Qed.

Lemma before_opening (now : datetime) :
  wf_datetime now ->
  dt_lt now (replace now 9 15 0 0) = (tod_us now <? open_us).
Proof.
  intros (_ & _ & Hm & Hs & Hu).
  unfold dt_lt. rewrite dt_compare_same_day by (simpl; lia).
  change (tod_us (replace now 9 15 0 0)) with open_us.
  unfold Z.ltb. reflexivity.
Qed.

Lemma after_closing (now : datetime) :
  wf_datetime now ->
  dt_gt now (replace now 15 30 0 0) = (close_us <? tod_us now).
Proof.
  intros (_ & _ & Hm & Hs & Hu).
  unfold dt_gt. rewrite dt_compare_same_day by (simpl; lia).
  change (tod_us (replace now 15 30 0 0)) with close_us.
  rewrite Z.ltb_antisym, Z.leb_compare.
  destruct (tod_us now ?= close_us); reflexivity.
Qed.

(** The [seconds] field of the time left to a boundary [h:m:00] later the
    same day. *)
Lemma seconds_until (now : datetime) (h m : Z) :
  wf_datetime now ->
  0 <= h < 24 -> 0 <= m < 60 ->
  tod_us now <= (h * 60 + m) * 60 * 1000000 ->
  seconds (dt_sub (replace now h m 0 0) now) =
    ((h * 60 + m) * 60 * 1000000 - tod_us now) / 1000000.
Proof.
  intros (_ & Hh & Hm & Hs & Hu) Hh' Hm' Hle.
  unfold dt_sub, timedelta_of, tod_us in *. simpl.
  Z.to_euclidean_division_equations. lia.
Qed.

(** C1, counterexample: on a Monday at 15:30:00.000000 the market is still
    reported open. *)
Lemma market_open_at_1530 :
  wf_datetime (mk_datetime 738998 15 30 0 0)
  /\ weekday (mk_datetime 738998 15 30 0 0) = 0
  /\ tod_us (mk_datetime 738998 15 30 0 0) = close_us
  /\ get_market_status (mk_datetime 738998 15 30 0 0) =
       {| is_open := true; status := "Open (0h 0m left)" |}
  /\ ~ closed_from_1530.
Proof.
  split; [unfold wf_datetime; simpl; lia |].
  split; [reflexivity |]. split; [reflexivity |].
  split; [vm_compute; reflexivity |].
  intros H.
  assert (Hw : wf_datetime (mk_datetime 738998 15 30 0 0)) by (unfold wf_datetime; simpl; lia).
  specialize (H (mk_datetime 738998 15 30 0 0) Hw).
  assert (Hd : get_market_status (mk_datetime 738998 15 30 0 0) =
               {| is_open := false; status := "Closed" |}).
  { apply H; vm_compute; [reflexivity | discriminate]. }
  vm_compute in Hd. discriminate Hd.
Qed.

(** C1, amended: on a weekday [get_market_status] reports open exactly from
    09:15:00 to 15:30:00.000000, both included, with the time left to 15:30 in
    the status; strictly after 15:30:00 it reports closed with status
    "Closed"; before 09:15:00 it reports closed with "Opens in {H}h {M}m",
    the truncated time left to 09:15; on a Saturday or Sunday it reports
    closed with status "Closed (Weekend)" at any time. *)
Theorem get_market_status_boundaries (now : datetime) :
  wf_datetime now ->
  (5 <= weekday now ->
     get_market_status now = {| is_open := false; status := "Closed (Weekend)" |})
  /\ (weekday now < 5 ->
        (is_open (get_market_status now) = true <-> open_us <= tod_us now <= close_us)
        /\ (tod_us now < open_us ->
              get_market_status now =
                {| is_open := false;
                   status := "Opens in " +:+ dec_of_Z (hours_of (open_us - tod_us now)) +:+ "h "
                             +:+ dec_of_Z (minutes_of (open_us - tod_us now)) +:+ "m" |})
        /\ (open_us <= tod_us now <= close_us ->
              get_market_status now =
                {| is_open := true;
                   status := "Open (" +:+ dec_of_Z (hours_of (close_us - tod_us now)) +:+ "h "
                             +:+ dec_of_Z (minutes_of (close_us - tod_us now)) +:+ "m left)" |})
        /\ (close_us < tod_us now ->
              get_market_status now = {| is_open := false; status := "Closed" |})).
Proof.
  intros Hwf. unfold get_market_status.
  rewrite (before_opening now Hwf), (after_closing now Hwf).
  split.
  - intros Hwe. destruct (Z.leb_spec 5 (weekday now)); [reflexivity | lia].
  - intros Hwd. destruct (Z.leb_spec 5 (weekday now)) as [Hge | _]; [lia |].
    destruct (Z.ltb_spec (tod_us now) open_us) as [Hlt | Hge].
    + assert (Hsec : seconds (dt_sub (replace now 9 15 0 0) now) =
                     (open_us - tod_us now) / 1000000).
      { apply (seconds_until now 9 15 Hwf); [lia | lia |].
        change ((9 * 60 + 15) * 60 * 1000000) with open_us. lia. }
      rewrite Hsec. unfold hours_of, minutes_of.
      split; [| split; [| split]].
      * simpl. split; [discriminate | lia].
      * intros _. reflexivity.
      * intros [Ho _]. lia.
      * intros Hc. unfold open_us, close_us in *. lia.
    + destruct (Z.ltb_spec close_us (tod_us now)) as [Hgt | Hle].
      * split; [| split; [| split]].
        -- simpl. split; [discriminate | lia].
        -- intros Ho. lia.
        -- intros [_ Hc]. lia.
        -- intros _. reflexivity.
      * assert (Hsec : seconds (dt_sub (replace now 15 30 0 0) now) =
                       (close_us - tod_us now) / 1000000).
        { apply (seconds_until now 15 30 Hwf); [lia | lia |].
          change ((15 * 60 + 30) * 60 * 1000000) with close_us. lia. }
        rewrite Hsec. unfold hours_of, minutes_of.
        split; [| split; [| split]].
        -- simpl. split; [intros _; lia | reflexivity].
        -- intros Ho. lia.
        -- intros _. reflexivity.
        -- intros Hc. lia.
Qed.

Lemma get_market_status_boundaries_monday_noon :
  wf_datetime (mk_datetime 738998 12 0 0 0)
  /\ weekday (mk_datetime 738998 12 0 0 0) = 0
  /\ get_market_status (mk_datetime 738998 12 0 0 0) =
       {| is_open := true; status := "Open (3h 30m left)" |}.
Proof.
  assert (Hwf : wf_datetime (mk_datetime 738998 12 0 0 0))
    by (unfold wf_datetime; simpl; lia).
  split; [exact Hwf |]. split; [reflexivity |].
  destruct (get_market_status_boundaries (mk_datetime 738998 12 0 0 0) Hwf) as [_ Hwd].
  destruct (Hwd ltac:(vm_compute; reflexivity)) as (_ & _ & Hopen & _).
  rewrite Hopen; [reflexivity | vm_compute; split; discriminate].
Defined.

(** ** The live refresh step *)

Lemma get_live_price_live_snapshot (yf : provider) (ticker : string) :
  get_live_price yf ticker = Returns (live_snapshot yf ticker).
Proof. apply get_live_price_returns. Qed.

(** The loop over the watch-list never raises; it overwrites the entries of
    the symbols that returned a snapshot and leaves every other entry of the
    map it started from. *)
Lemma collect_lookup (yf : provider) (tickers : list string) :
  forall new_data : gmap string cached_price,
  exists m : gmap string cached_price,
    collect yf tickers new_data = Returns m
    /\ forall t,
         (In t tickers ->
            m !! t = match live_snapshot yf t with
                     | Some d => Some (cache_entry d)
                     | None => new_data !! t
                     end)
         /\ (~ In t tickers -> m !! t = new_data !! t).
Proof.
  induction tickers as [|ticker rest IH]; intros new_data.
  - exists new_data. split; [reflexivity |].
    intros t. split; [intros [] | reflexivity].
  - simpl collect. rewrite get_live_price_live_snapshot. simpl bind.
    destruct (live_snapshot yf ticker) as [d |] eqn:Ed.
    + destruct (IH (<[ticker := cache_entry d]> new_data)) as (m & Hm & Hlook).
      exists m. split; [exact Hm |].
      intros t. destruct (Hlook t) as [Hin Hout].
      destruct (in_dec String.string_dec t rest) as [Hr | Hr].
      * split; [| intros Hn; exfalso; apply Hn; right; exact Hr].
        intros _. rewrite (Hin Hr).
        destruct (live_snapshot yf t) as [d' |] eqn:Et; [reflexivity |].
        assert (ticker <> t) by (intros ->; congruence).
        apply lookup_insert_ne. assumption.
      * rewrite (Hout Hr). split.
        -- intros [-> | Hin']; [| contradiction].
           rewrite Ed. apply lookup_insert_eq.
        -- intros Hn. apply lookup_insert_ne.
           intros ->. apply Hn. left. reflexivity.
    + destruct (IH new_data) as (m & Hm & Hlook).
      exists m. split; [exact Hm |].
      intros t. destruct (Hlook t) as [Hin Hout].
      destruct (in_dec String.string_dec t rest) as [Hr | Hr].
      * split; [intros _; exact (Hin Hr) |].
        intros Hn. exfalso. apply Hn. right. exact Hr.
      * rewrite (Hout Hr). split.
        -- intros [-> | Hin']; [| contradiction].
           rewrite Ed. reflexivity.
        -- reflexivity.
Qed.

(** The fresh map of one refresh holds exactly the symbols of the watch-list
    that returned a snapshot. *)
Lemma collect_fresh (yf : provider) (tickers : list string) :
  exists m : gmap string cached_price,
    collect yf tickers ∅ = Returns m
    /\ (forall t, In t tickers -> m !! t = cache_entry <$> live_snapshot yf t)
    /\ (forall t, ~ In t tickers -> m !! t = None)
    /\ (has_live_data yf tickers -> size m <> 0%nat)
    /\ (~ has_live_data yf tickers -> m = ∅).
Proof.
  destruct (collect_lookup yf tickers ∅) as (m & Hm & Hlook).
  exists m. split; [exact Hm |].
  assert (Hin : forall t, In t tickers -> m !! t = cache_entry <$> live_snapshot yf t).
  { intros t Ht. destruct (Hlook t) as [H _]. rewrite (H Ht).
    destruct (live_snapshot yf t); [reflexivity | apply lookup_empty]. }
  assert (Hout : forall t, ~ In t tickers -> m !! t = None).
  { intros t Ht. destruct (Hlook t) as [_ H]. rewrite (H Ht). apply lookup_empty. }
  split; [exact Hin |]. split; [exact Hout |]. split.
  - intros (t & d & Ht & Hd) Hsize.
    apply map_size_empty_iff in Hsize. subst m.
    specialize (Hin t Ht). rewrite Hd, lookup_empty in Hin. discriminate Hin.
  - intros Hno. apply map_eq. intros t. rewrite lookup_empty.
    destruct (in_dec String.string_dec t tickers) as [Ht | Ht]; [| exact (Hout t Ht)].
    rewrite (Hin t Ht).
    destruct (live_snapshot yf t) as [d |] eqn:Ed; [| reflexivity].
    exfalso. apply Hno. exists t, d. split; assumption.
Qed.

(** The three ways a call of [update_live_data] ends. *)
Lemma update_live_data_cases (yf : provider) (tickers : list string) (refresh_rate : Z)
  (now : datetime) (st : session_state) :
  (seconds (dt_sub now (last_update st)) < refresh_rate
   /\ update_live_data yf tickers refresh_rate now st = Returns (st, []))
  \/ (refresh_rate <= seconds (dt_sub now (last_update st))
      /\ ~ has_live_data yf tickers
      /\ update_live_data yf tickers refresh_rate now st = Returns (st, tickers))
  \/ (refresh_rate <= seconds (dt_sub now (last_update st))
      /\ has_live_data yf tickers
      /\ exists m : gmap string cached_price,
           update_live_data yf tickers refresh_rate now st =
             Returns ({| price_data := m; last_update := now |}, tickers)
           /\ (forall t, In t tickers -> m !! t = cache_entry <$> live_snapshot yf t)
           /\ (forall t, ~ In t tickers -> m !! t = None)).
Proof.
  unfold update_live_data.
  destruct (Z.leb_spec refresh_rate (seconds (dt_sub now (last_update st)))) as [Hdue | Hnot].
  - right.
    destruct (collect_fresh yf tickers) as (m & Hm & Hin & Hout & Hsome & Hnone).
    rewrite Hm. simpl bind.
    destruct (size m =? 0)%nat eqn:Esz.
    + left. apply Nat.eqb_eq in Esz.
      split; [exact Hdue |]. split; [| reflexivity].
      intros Hlive. apply (Hsome Hlive). exact Esz.
    + right. apply Nat.eqb_neq in Esz.
      split; [exact Hdue |]. split.
      * assert (Hne : m <> ∅) by (intros ->; rewrite map_size_empty in Esz; contradiction).
        apply map_choose in Hne. destruct Hne as (t & c & Htc).
        destruct (in_dec String.string_dec t tickers) as [Ht | Ht].
        -- specialize (Hin t Ht). rewrite Htc in Hin.
           destruct (live_snapshot yf t) as [d |] eqn:Ed; [| discriminate Hin].
           exists t, d. split; assumption.
        -- rewrite (Hout t Ht) in Htc. discriminate Htc.
      * exists m. split; [reflexivity |]. split; assumption.
  - left. split; [exact Hnot | reflexivity].
Qed.

(** C2, counterexample: "A.NS" is cached, the refresh is due, the fetch of
    "A.NS" returns no snapshot and the fetch of "B.NS" succeeds: after the
    refresh "A.NS" is gone from the price map. *)
Lemma failed_symbol_is_dropped :
  live_snapshot only_B "A.NS" = None
  /\ (exists d, live_snapshot only_B "B.NS" = Some d)
  /\ price_data session_A !! "A.NS" = Some cached_A
  /\ (exists st',
        update_live_data only_B watch_AB 5 (mk_datetime 738998 10 0 10 0) session_A =
          Returns (st', watch_AB)
        /\ price_data st' !! "A.NS" = None)
  /\ ~ failed_symbols_keep_cache.
Proof.
  split; [reflexivity |].
  split; [eexists; reflexivity |].
  split; [apply lookup_singleton_eq |].
  destruct (update_live_data_cases only_B watch_AB 5 (mk_datetime 738998 10 0 10 0) session_A)
    as [[Hlt _] | [(_ & Hno & _) | (Hdue & _ & m & Hm & Hin & _)]].
  - vm_compute in Hlt. discriminate Hlt.
  - exfalso. apply Hno. exists "B.NS". eexists.
    split; [right; left; reflexivity | reflexivity].
  - split.
    { exists {| price_data := m; last_update := mk_datetime 738998 10 0 10 0 |}.
      split; [exact Hm |]. simpl.
      rewrite (Hin "A.NS") by (left; reflexivity). reflexivity. }
    intros H.
    specialize (H only_B watch_AB 5 (mk_datetime 738998 10 0 10 0) session_A _ _
                  "A.NS" cached_A Hm Hdue).
    assert (Hk : price_data {| price_data := m; last_update := mk_datetime 738998 10 0 10 0 |}
                   !! "A.NS" = Some cached_A).
    { apply H.
      - left. reflexivity.
      - reflexivity.
      - exists "B.NS". eexists.
        split; [right; left; reflexivity | split; [discriminate | reflexivity]].
      - apply lookup_singleton_eq. }
    simpl in Hk. rewrite (Hin "A.NS") in Hk by (left; reflexivity).
    discriminate Hk.
Qed.

(** C2, amended: when the refresh is due and at least one symbol returned
    live data, the price map is replaced by the fresh map, which holds
    exactly the watch-list symbols that returned a snapshot: a symbol whose
    fetch returned none is absent from it, whatever was cached for it; the
    cached values are kept when no symbol returned data, and when no
    refresh is due. *)
Theorem update_live_data_replaces_cache (yf : provider) (tickers : list string)
  (refresh_rate : Z) (now : datetime) (st : session_state) :
  (refresh_rate <= seconds (dt_sub now (last_update st)) ->
   has_live_data yf tickers ->
   exists st',
     update_live_data yf tickers refresh_rate now st = Returns (st', tickers)
     /\ last_update st' = now
     /\ (forall t, In t tickers -> price_data st' !! t = cache_entry <$> live_snapshot yf t)
     /\ (forall t, ~ In t tickers -> price_data st' !! t = None)
     /\ (forall t, live_snapshot yf t = None -> price_data st' !! t = None))
  /\ (~ has_live_data yf tickers ->
      exists log, update_live_data yf tickers refresh_rate now st = Returns (st, log))
  /\ (seconds (dt_sub now (last_update st)) < refresh_rate ->
      update_live_data yf tickers refresh_rate now st = Returns (st, [])).
Proof.
  destruct (update_live_data_cases yf tickers refresh_rate now st)
    as [[Hlt Hu] | [(Hdue & Hno & Hu) | (Hdue & Hlive & m & Hu & Hin & Hout)]].
  - split; [intros Hdue; lia |]. split; [| intros _; exact Hu].
    intros _. exists []. exact Hu.
  - split; [intros _ Hlive; contradiction |]. split; [| intros Hlt; lia].
    intros _. exists tickers. exact Hu.
  - split; [| split; [intros Hno; contradiction | intros Hlt; lia]].
    intros _ _. exists {| price_data := m; last_update := now |}.
    split; [exact Hu |]. split; [reflexivity |]. simpl.
    split; [exact Hin |]. split; [exact Hout |].
    intros t Hnone.
    destruct (in_dec String.string_dec t tickers) as [Ht | Ht].
    + rewrite (Hin t Ht), Hnone. reflexivity.
    + exact (Hout t Ht).
Qed.

Lemma update_live_data_replaces_cache_only_B :
  5 <= seconds (dt_sub (mk_datetime 738998 10 0 10 0) (last_update session_A))
  /\ has_live_data only_B watch_AB
  /\ price_data session_A !! "A.NS" = Some cached_A
  /\ exists st',
       update_live_data only_B watch_AB 5 (mk_datetime 738998 10 0 10 0) session_A =
         Returns (st', watch_AB)
       /\ price_data st' !! "A.NS" = None.
Proof.
  assert (Hdue : 5 <= seconds (dt_sub (mk_datetime 738998 10 0 10 0) (last_update session_A)))
    by (vm_compute; discriminate).
  assert (Hlive : has_live_data only_B watch_AB).
  { exists "B.NS". eexists. split; [right; left; reflexivity | reflexivity]. }
  split; [exact Hdue |]. split; [exact Hlive |].
  split; [apply lookup_singleton_eq |].
  destruct (update_live_data_replaces_cache only_B watch_AB 5
              (mk_datetime 738998 10 0 10 0) session_A) as [Hrep _].
  destruct (Hrep Hdue Hlive) as (st' & Hu & _ & _ & _ & Hnone).
  exists st'. split; [exact Hu |].
  apply Hnone. reflexivity.
Defined.

(** ** Refresh throttling *)

(** When the clock did not go back, the [seconds] field of the elapsed time
    is at most the elapsed time. *)
Lemma elapsed_bound (now lu : datetime) (refresh_rate : Z) :
  to_us lu <= to_us now ->
  refresh_rate <= seconds (dt_sub now lu) ->
  refresh_rate * 1000000 <= to_us now - to_us lu.
Proof.
  unfold dt_sub, timedelta_of, to_us. simpl.
  intros Hmono Hdue.
  Z.to_euclidean_division_equations. lia.
Qed.

Lemma clock_from_weaken (t0 t1 : Z) (attempts : list attempt) :
  t1 <= t0 -> clock_from t0 attempts -> clock_from t1 attempts.
Proof.
  destruct attempts as [|a rest]; simpl; [trivial |].
  intros Hle [H0 Hrest]. split; [lia | exact Hrest].
Qed.

(** One attempt made when the clock is not behind [last_update]. *)
Lemma update_live_data_step (a : attempt) (tickers : list string) (refresh_rate : Z)
  (st : session_state) :
  to_us (last_update st) <= to_us (at_time a) ->
  exists st' log,
    update_live_data (at_provider a) tickers refresh_rate (at_time a) st = Returns (st', log)
    /\ step_ok tickers refresh_rate
         {| step_of := a; before := st; after := st'; fetched := log |}
    /\ to_us (last_update st) <= to_us (last_update st') <= to_us (at_time a).
Proof.
  intros Hmono.
  destruct (update_live_data_cases (at_provider a) tickers refresh_rate (at_time a) st)
    as [[Hlt Hu] | [(Hdue & Hno & Hu) | (Hdue & Hlive & m & Hu & _)]].
  - exists st, []. split; [exact Hu |]. split; [| lia].
    unfold step_ok, refreshed, elapsed_us. simpl.
    split; [intros H; contradiction |]. split; intros H; contradiction.
  - exists st, tickers. split; [exact Hu |]. split; [| lia].
    unfold step_ok, refreshed, elapsed_us. simpl.
    split; [intros _; apply elapsed_bound; assumption |].
    split; intros H; contradiction.
  - exists {| price_data := m; last_update := at_time a |}, tickers.
    split; [exact Hu |]. split; [| simpl; lia].
    unfold step_ok, refreshed, elapsed_us. simpl.
    split; [intros _; apply elapsed_bound; assumption |].
    split.
    + intros _. split; [apply elapsed_bound; assumption |].
      split; [reflexivity |]. split; [exact Hlive | reflexivity].
    + intros Hne Heq. apply Hne. rewrite <- Heq. reflexivity.
Qed.





(** With a refresh rate of 5 seconds, an attempt 2 seconds after the last
    update fetches nothing, an attempt 6 seconds after it fetches the
    watch-list, and the attempt 2 seconds after that one fetches nothing. *)
Example refresh_rate_5_attempts :
  match run watch_AB 5 attempts_2_6_8 session_A with
  | Returns steps => map fetched steps = [[]; watch_AB; []]
  | Raises _ => False
  end.
Proof. vm_compute. reflexivity. Qed.

(** The guard reads the [seconds] field of the elapsed time, which starts
    again at 0 every 24 hours: one day and 2 seconds after the last update
    nothing is fetched. *)
Example no_fetch_one_day_later :
  update_live_data only_B watch_AB 5 (mk_datetime 738999 10 0 2 0) session_A =
    Returns (session_A, []).
Proof. vm_compute. reflexivity. Qed.

(** ** Fundamental metrics *)

(** [try_except] with a handler that returns never raises. *)
Lemma try_except_returns {A} (body : outcome A) (a : A) :
  exists r, try_except body (fun _ => Returns a) = Returns r.
Proof. destruct body as [r | e]; simpl; eauto. Qed.

Lemma get_stock_metrics_returns (yf : provider) (ticker : string) :
  exists r, get_stock_metrics yf ticker = Returns r.
Proof. unfold get_stock_metrics. apply try_except_returns. Qed.





(** ** The comparison chart *)

(** *** The order of binary64 numbers *)

Lemma fle_refl (a : float) : is_nan a = false -> fle a a = true.
Proof.
  unfold fle, SFleb. destruct a as [s | s | | s m e]; float_cases; compare_cases.
Qed.

Lemma flt_fle (a b : float) : flt a b = true -> fle a b = true.
Proof.
  unfold flt, fle, SFltb, SFleb.
  destruct (SFcompare a b) as [[] |]; congruence.
Qed.

Lemma fle_total (a b : float) :
  is_nan a = false -> is_nan b = false -> flt a b = false -> fle b a = true.
Proof.
  unfold flt, fle, SFltb, SFleb. intros Ha Hb.
  destruct a as [sa | sa | | sa ma ea]; try discriminate Ha;
    destruct b as [sb | sb | | sb mb eb]; try discriminate Hb;
    float_cases; compare_cases.
Qed.

Lemma fle_trans (a b c : float) :
  fle a b = true -> fle b c = true -> fle a c = true.
Proof.
  unfold fle, SFleb.
  destruct a as [sa | sa | | sa ma ea];
    destruct b as [sb | sb | | sb mb eb];
    destruct c as [sc | sc | | sc mc ec];
    float_cases; compare_cases.
Qed.

(** *** The maximum of a column *)

Lemma series_max_step (acc x : float) (seen : list float) :
  running_max acc seen ->
  running_max (if is_nan x then acc
               else if is_nan acc then x
               else if flt acc x then x else acc) (seen ++ [x]).
Proof.
  intros [[Hacc Hall] | (Hacc & Hin & Hmax)].
  - rewrite Hacc. destruct (is_nan x) eqn:Hx.
    + left. split; [exact Hacc |].
      apply Forall_app. split; [exact Hall | constructor; [exact Hx | constructor]].
    + right. split; [exact Hx |]. split; [apply in_or_app; right; left; reflexivity |].
      intros v Hv Hnan. apply in_app_or in Hv. destruct Hv as [Hv | [<- | []]].
      * rewrite (proj1 (List.Forall_forall _ _) Hall v Hv) in Hnan. discriminate Hnan.
      * apply fle_refl. exact Hx.
  - rewrite Hacc. destruct (is_nan x) eqn:Hx.
    + right. split; [exact Hacc |]. split; [apply in_or_app; left; exact Hin |].
      intros v Hv Hnan. apply in_app_or in Hv. destruct Hv as [Hv | [<- | []]].
      * apply Hmax; assumption.
      * rewrite Hx in Hnan. discriminate Hnan.
    + destruct (flt acc x) eqn:Hlt.
      * right. split; [exact Hx |]. split; [apply in_or_app; right; left; reflexivity |].
        intros v Hv Hnan. apply in_app_or in Hv. destruct Hv as [Hv | [<- | []]].
        -- apply (fle_trans v acc x); [apply Hmax; assumption | apply flt_fle; exact Hlt].
        -- apply fle_refl. exact Hx.
      * right. split; [exact Hacc |]. split; [apply in_or_app; left; exact Hin |].
        intros v Hv Hnan. apply in_app_or in Hv. destruct Hv as [Hv | [<- | []]].
        -- apply Hmax; assumption.
        -- apply fle_total; assumption.
Qed.

Lemma series_max_fold (l : list float) :
  forall acc seen,
    running_max acc seen ->
    running_max
      (fold_left (fun acc x => if is_nan x then acc
                               else if is_nan acc then x
                               else if flt acc x then x else acc) l acc)
      (seen ++ l).
Proof.
  induction l as [|x l IH]; intros acc seen H.
  - rewrite app_nil_r. exact H.
  - simpl fold_left.
    replace (seen ++ x :: l) with ((seen ++ [x]) ++ l)
      by (rewrite <- app_assoc; reflexivity).
    apply IH. apply series_max_step. exact H.
Qed.

Lemma series_max_running (ys : list float) : running_max (series_max ys) ys.
Proof.
  unfold series_max.
  apply (series_max_fold ys S754_nan []).
  left. split; [reflexivity | constructor].
Qed.

(** The maximum of a column is at most [bound] exactly when the column has
    a value that is not NaN and every such value is at most [bound]. *)
Lemma series_max_le (ys : list float) (bound : float) :
  fle (series_max ys) bound = true <->
  (exists v, In v ys /\ is_nan v = false)
  /\ (forall v, In v ys -> is_nan v = false -> fle v bound = true).
Proof.
  destruct (series_max_running ys) as [[Hnan Hall] | (Hnan & Hin & Hmax)].
  - split.
    + intros H. destruct (series_max ys); try discriminate Hnan. discriminate H.
    + intros [(v & Hv & Hvn) _].
      rewrite (proj1 (List.Forall_forall _ _) Hall v Hv) in Hvn. discriminate Hvn.
  - split.
    + intros H. split; [exists (series_max ys); split; assumption |].
      intros v Hv Hvn. apply (fle_trans v (series_max ys) bound); [| exact H].
      apply Hmax; assumption.
    + intros [_ Hle]. apply Hle; assumption.
Qed.

(** C4, counterexample: in the column -5.0, 0.5 a value exceeds 1 in
    magnitude, and the column is multiplied by 100 all the same. *)
Lemma negative_column_is_scaled :
  forallb within_unit minus5_half = false
  /\ bar_y (create_comparison_chart ["A.NS"; "B.NS"] minus5_half) =
       [float_of_Z (-500); float_of_Z 50]
  /\ ~ scaling_by_magnitude.
Proof.
  split; [vm_compute; reflexivity |]. split; [vm_compute; reflexivity |].
  intros H.
  destruct (H ["A.NS"; "B.NS"] minus5_half) as [_ Hkeep].
  assert (Hk : bar_y (create_comparison_chart ["A.NS"; "B.NS"] minus5_half) = minus5_half)
    by (apply Hkeep; vm_compute; reflexivity).
  vm_compute in Hk. discriminate Hk.
Qed.

(** C4, amended: [create_comparison_chart] multiplies every value of the
    value column by 100 if and only if the maximum of the column is at most
    1, that is, the column has a value that is not missing and every such
    value is at most 1 as a signed number; otherwise the column is left as
    it is. *)
Theorem comparison_chart_scaling (xs : list string) (ys : list float) :
  (fle (series_max ys) f_1 = true <->
     (exists v, In v ys /\ is_nan v = false)
     /\ (forall v, In v ys -> is_nan v = false -> fle v f_1 = true))
  /\ (fle (series_max ys) f_1 = true ->
        bar_y (create_comparison_chart xs ys) = map (fun v => fmul v f_100) ys)
  /\ (fle (series_max ys) f_1 = false ->
        bar_y (create_comparison_chart xs ys) = ys).
Proof.
  split; [apply series_max_le |].
  unfold create_comparison_chart, to_percentages. simpl bar_y.
  split; intros H; rewrite H; reflexivity.
Qed.

Lemma comparison_chart_scaling_minus5_half :
  fle (series_max minus5_half) f_1 = true
  /\ forallb within_unit minus5_half = false
  /\ bar_y (create_comparison_chart ["A.NS"; "B.NS"] minus5_half) =
       [float_of_Z (-500); float_of_Z 50]
  /\ text (create_comparison_chart ["A.NS"; "B.NS"] minus5_half) =
       ["-500.00%"; "+50.00%"].
Proof.
  assert (Hmax : fle (series_max minus5_half) f_1 = true) by (vm_compute; reflexivity).
  split; [exact Hmax |]. split; [vm_compute; reflexivity |].
  destruct (comparison_chart_scaling ["A.NS"; "B.NS"] minus5_half) as (_ & Hscale & _).
  split; [rewrite (Hscale Hmax); vm_compute; reflexivity | vm_compute; reflexivity].
Defined.

(** * Further properties *)

Import DataHandlerRest ChartsRest MainRest SpecRest.

(** ** The current quote *)

Lemma iloc_map_last {A B} (f : A -> B) (l : list A) (a : A) :
  iloc (map f (l ++ [a])) (-1) = Returns (f a).
Proof. rewrite map_app. apply iloc_last. Qed.

Lemma iloc_map_before_last {A B} (f : A -> B) (l : list A) (a b : A) :
  iloc (map f (l ++ [a; b])) (-2) = Returns (f a).
Proof. rewrite map_app. apply (iloc_before_last (map f l) (f a) (f b)). Qed.

(** A list of two elements or more ends with two elements. *)
Lemma two_last {A} (l : list A) :
  (2 <= length l)%nat -> exists pre a b, l = pre ++ [a; b].
Proof.
  intros Hlen.
  destruct (rev l) as [|b [|a r]] eqn:E;
    apply (f_equal (@rev A)) in E; rewrite rev_involutive in E; subst l;
    simpl in Hlen; try lia.
  exists (rev r), a, b. simpl. rewrite <- app_assoc. reflexivity.
Qed.

(** The quote computed from the close [c] and the reference [p]. *)
Lemma quote_of_length (hist : list bar) (pre : list bar) (p c : bar) :
  hist = pre ++ [p; c] ->
  negb (length hist =? 0)%nat = true /\ (1 <? length hist)%nat = true.
Proof.
  intros ->. rewrite length_app. simpl length. split.
  - apply negb_true_iff. apply Nat.eqb_neq. lia.
  - apply Nat.ltb_lt. lia.
Qed.

(** The quote read off a minute series that ends with the bars [p], [c]. *)
Lemma quote_of_minute_series (yf : quotes) (ticker : string)
  (pre : list bar) (p c : bar) :
  history_1m yf ticker = Returns (pre ++ [p; c]) ->
  get_current_info yf ticker =
    Returns (VFloat (Close c),
             VFloat (fsub (Close c) (Close p)),
             VFloat (fmul (fdiv (fsub (Close c) (Close p)) (Close p)) f_100)).
Proof.
  intros H1. unfold get_current_info. rewrite H1. simpl bind.
  destruct (quote_of_length (pre ++ [p; c]) pre p c eq_refl) as [Hne Hgt].
  rewrite Hne, Hgt. simpl andb. cbv iota.
  replace (pre ++ [p; c]) with ((pre ++ [p]) ++ [c]) at 1
    by (rewrite <- app_assoc; reflexivity).
  rewrite iloc_map_last. simpl bind.
  rewrite iloc_map_before_last. reflexivity.
Qed.

(** X1: with two minute bars or more, [get_current_info] returns the last
    minute close, its difference to the close before, and that difference
    over the close before times 100; the daily history plays no part,
    whatever it returns. *)
Theorem get_current_info_minute_bars (yf : quotes) (ticker : string)
  (pre : list bar) (p c : bar) :
  history_1m yf ticker = Returns (pre ++ [p; c]) ->
  get_current_info yf ticker =
    Returns (VFloat (Close c),
             VFloat (fsub (Close c) (Close p)),
             VFloat (fmul (fdiv (fsub (Close c) (Close p)) (Close p)) f_100)).
Proof. apply quote_of_minute_series. Qed.

Lemma get_current_info_minute_bars_ex :
  history_1m minute_100_105 "X.NS" = Returns ([] ++ [bar_at 100; bar_at 105])
  /\ get_current_info minute_100_105 "X.NS" =
       Returns (VFloat (float_of_Z 105), VFloat (float_of_Z 5), VFloat (float_of_Z 5)).
Proof.
  split; [reflexivity |].
  rewrite (get_current_info_minute_bars minute_100_105 "X.NS" []
             (bar_at 100) (bar_at 105) eq_refl).
  vm_compute. reflexivity.
Defined.

(** The minute series does not decide: it is empty or has a single bar. *)
Lemma minute_bars_short (hist : list bar) :
  (length hist <= 1)%nat ->
  negb (length hist =? 0)%nat && (1 <? length hist)%nat = false.
Proof.
  intros Hlen. destruct hist as [|b [|b' r]]; simpl in *; try reflexivity; lia.
Qed.

(** The quote read off the daily bars, after a minute series of fewer than
    two bars. *)
Lemma quote_of_daily_series (yf : quotes) (ticker : string) (minute : list bar) :
  history_1m yf ticker = Returns minute ->
  (length minute <= 1)%nat ->
  (forall pre p c, history_2d yf ticker = Returns (pre ++ [p; c]) ->
     get_current_info yf ticker =
       Returns (VFloat (Close c),
                VFloat (fsub (Close c) (Close p)),
                VFloat (fmul (fdiv (fsub (Close c) (Close p)) (Close p)) f_100)))
  /\ (forall b, history_2d yf ticker = Returns [b] ->
        get_current_info yf ticker =
          Returns (VFloat (Close b),
                   VFloat (fsub (Close b) (Open b)),
                   VFloat (fmul (fdiv (fsub (Close b) (Open b)) (Open b)) f_100)))
  /\ (history_2d yf ticker = Returns [] -> get_current_info yf ticker = Returns no_info).
Proof.
  intros H1 Hshort. unfold get_current_info. rewrite H1. simpl bind.
  rewrite (minute_bars_short minute Hshort).
  split; [| split].
  - intros pre p c H2. rewrite H2. simpl bind.
    destruct (quote_of_length (pre ++ [p; c]) pre p c eq_refl) as [Hne Hgt].
    rewrite Hne, Hgt.
    replace (pre ++ [p; c]) with ((pre ++ [p]) ++ [c]) at 1
      by (rewrite <- app_assoc; reflexivity).
    rewrite iloc_map_last. simpl bind.
    rewrite iloc_map_before_last. reflexivity.
  - intros b H2. rewrite H2. reflexivity.
  - intros H2. rewrite H2. reflexivity.
Qed.

(** X2: when the minute series has fewer than two bars, [get_current_info]
    reads the daily bars: with two or more, the last close against the close
    before; with a single one, its close against its own open; with none,
    the result is [None, None, None]. *)
Theorem get_current_info_daily_fallback (yf : quotes) (ticker : string) (minute : list bar) :
  history_1m yf ticker = Returns minute ->
  (length minute <= 1)%nat ->
  (forall pre p c, history_2d yf ticker = Returns (pre ++ [p; c]) ->
     get_current_info yf ticker =
       Returns (VFloat (Close c),
                VFloat (fsub (Close c) (Close p)),
                VFloat (fmul (fdiv (fsub (Close c) (Close p)) (Close p)) f_100)))
  /\ (forall b, history_2d yf ticker = Returns [b] ->
        get_current_info yf ticker =
          Returns (VFloat (Close b),
                   VFloat (fsub (Close b) (Open b)),
                   VFloat (fmul (fdiv (fsub (Close b) (Open b)) (Open b)) f_100)))
  /\ (history_2d yf ticker = Returns [] -> get_current_info yf ticker = Returns no_info).
Proof. apply quote_of_daily_series. Qed.

Lemma get_current_info_daily_fallback_ex :
  (length [bar_at 100] <= 1)%nat
  /\ get_current_info single_day "X.NS" =
       Returns (VFloat (float_of_Z 100), VFloat (float_of_Z 20), VFloat (float_of_Z 25)).
Proof.
  assert (Hlen : (length [bar_at 100] <= 1)%nat) by (simpl; lia).
  split; [exact Hlen |].
  destruct (get_current_info_daily_fallback single_day "X.NS" [bar_at 100] eq_refl Hlen)
    as (_ & Hone & _).
  rewrite (Hone day_80_100 eq_refl). vm_compute. reflexivity.
Defined.

(** X3: [get_current_info] never raises, and its result is all [None] or
    three floats. It is all [None] when the minute request fails: the daily
    bars are then not tried, even if they are there; and when the daily
    request fails after a minute series of fewer than two bars. *)
Theorem get_current_info_failures (yf : quotes) (ticker : string) :
  (exists r, get_current_info yf ticker = Returns r
             /\ (r = no_info \/ exists c d p, r = (VFloat c, VFloat d, VFloat p)))
  /\ (forall e, history_1m yf ticker = Raises e ->
        get_current_info yf ticker = Returns no_info)
  /\ (forall minute e, history_1m yf ticker = Returns minute ->
        (length minute <= 1)%nat -> history_2d yf ticker = Raises e ->
        get_current_info yf ticker = Returns no_info).
Proof.
  split; [| split].
  - destruct (history_1m yf ticker) as [minute | e] eqn:H1.
    + destruct (le_lt_dec (length minute) 1) as [Hshort | Hlong].
      * destruct (history_2d yf ticker) as [daily | e] eqn:H2.
        -- destruct (quote_of_daily_series yf ticker minute H1 Hshort)
             as (Htwo & Hone & Hnone).
           destruct daily as [|b [|b' r]].
           ++ exists no_info. split; [apply Hnone; exact H2 | left; reflexivity].
           ++ eexists. split; [apply Hone; exact H2 |]. right. eauto.
           ++ destruct (two_last (b :: b' :: r)) as (pre & p & c & E); [simpl; lia |].
              eexists. split; [apply (Htwo pre p c); rewrite <- E; exact H2 |].
              right. eauto.
        -- exists no_info. split; [| left; reflexivity].
           unfold get_current_info. rewrite H1. simpl bind.
           rewrite (minute_bars_short minute Hshort), H2. reflexivity.
      * destruct (two_last minute) as (pre & p & c & E); [lia |]. subst minute.
        eexists. split; [apply (quote_of_minute_series yf ticker pre p c H1) |].
        right. eauto.
    + exists no_info. split; [| left; reflexivity].
      unfold get_current_info. rewrite H1. reflexivity.
  - intros e H1. unfold get_current_info. rewrite H1. reflexivity.
  - intros minute e H1 Hshort H2. unfold get_current_info. rewrite H1. simpl bind.
    rewrite (minute_bars_short minute Hshort), H2. reflexivity.
Qed.

Lemma get_current_info_failures_ex :
  history_1m minute_fails "X.NS" = Raises ProviderError
  /\ history_2d minute_fails "X.NS" = Returns [bar_at 100; bar_at 105]
  /\ get_current_info minute_fails "X.NS" = Returns no_info.
Proof.
  split; [reflexivity |]. split; [reflexivity |].
  destruct (get_current_info_failures minute_fails "X.NS") as (_ & Hfail & _).
  exact (Hfail ProviderError eq_refl).
Defined.

(** X4: on one and the same minute series of two bars or more,
    [get_current_info] and [get_live_price] report the same price, change
    and percent change. *)
Theorem get_current_info_agrees_with_live (yf : provider) (q : quotes) (ticker : string)
  (hist : list bar) :
  history_live yf ticker = Returns hist ->
  history_1m q ticker = Returns hist ->
  (2 <= length hist)%nat ->
  exists d,
    get_live_price yf ticker = Returns (Some d)
    /\ get_current_info q ticker =
         Returns (VFloat (lp_price d), lp_change d, lp_pct_change d).
Proof.
  intros Hl H1 Hlen.
  destruct (two_last hist Hlen) as (pre & p & c & E). subst hist.
  rewrite get_live_price_returns, Hl.
  rewrite (quote_of_minute_series q ticker pre p c H1).
  unfold snapshot_of. rewrite rev_app_distr. simpl.
  eexists. split; reflexivity.
Qed.

Lemma get_current_info_agrees_with_live_ex :
  (2 <= length [bar_at 100; bar_at 105])%nat
  /\ exists d,
       get_live_price only_B "B.NS" = Returns (Some d)
       /\ get_current_info minute_as_only_B "B.NS" =
            Returns (VFloat (lp_price d), lp_change d, lp_pct_change d).
Proof.
  assert (Hlen : (2 <= length [bar_at 100; bar_at 105])%nat) by (simpl; lia).
  split; [exact Hlen |].
  exact (get_current_info_agrees_with_live only_B minute_as_only_B
           "B.NS" [bar_at 100; bar_at 105] eq_refl eq_refl Hlen).
Defined.

(** ** Market status, continued *)

(** X5: on a weekday the countdown of [get_market_status] is the truncated
    time left to the boundary: [H] hours and [M] minutes with
    [H * 60 + M] the whole minutes left, [M] below 60, [H] at most 9 before
    the open and at most 6 during the session; in the last minute before
    09:15 the status reads "Opens in 0h 0m". *)
Theorem market_status_countdown (now : datetime) :
  wf_datetime now ->
  weekday now < 5 ->
  (tod_us now < open_us ->
     exists H M,
       status (get_market_status now) =
         "Opens in " +:+ dec_of_Z H +:+ "h " +:+ dec_of_Z M +:+ "m"
       /\ 0 <= H <= 9 /\ 0 <= M <= 59
       /\ H * 60 + M = (open_us - tod_us now) / 60000000)
  /\ (open_us <= tod_us now <= close_us ->
        exists H M,
          status (get_market_status now) =
            "Open (" +:+ dec_of_Z H +:+ "h " +:+ dec_of_Z M +:+ "m left)"
          /\ 0 <= H <= 6 /\ 0 <= M <= 59
          /\ H * 60 + M = (close_us - tod_us now) / 60000000)
  /\ (open_us - 60000000 < tod_us now < open_us ->
        status (get_market_status now) = "Opens in 0h 0m").
Proof.
  intros Hwf Hwd.
  assert (Htod : 0 <= tod_us now).
  { destruct Hwf as (_ & Hh & Hm & Hs & Hu). unfold tod_us. lia. }
  unfold get_market_status.
  rewrite (before_opening now Hwf), (after_closing now Hwf).
  destruct (Z.leb_spec 5 (weekday now)) as [Hge | _]; [lia |].
  assert (Hopen : tod_us now < open_us ->
                  seconds (dt_sub (replace now 9 15 0 0) now) =
                    (open_us - tod_us now) / 1000000).
  { intros Hlt. apply (seconds_until now 9 15 Hwf); [lia | lia |].
    change ((9 * 60 + 15) * 60 * 1000000) with open_us. lia. }
  assert (Hclose : tod_us now <= close_us ->
                   seconds (dt_sub (replace now 15 30 0 0) now) =
                     (close_us - tod_us now) / 1000000).
  { intros Hle. apply (seconds_until now 15 30 Hwf); [lia | lia |].
    change ((15 * 60 + 30) * 60 * 1000000) with close_us. lia. }
  split; [| split].
  - intros Hlt. destruct (Z.ltb_spec (tod_us now) open_us) as [_ | Hc]; [| lia].
    rewrite (Hopen Hlt). cbn [status].
    eexists _, _. split; [reflexivity |].
    unfold open_us in *. Z.to_euclidean_division_equations. lia.
  - intros [Hlo Hhi].
    destruct (Z.ltb_spec (tod_us now) open_us) as [Hc | _]; [lia |].
    destruct (Z.ltb_spec close_us (tod_us now)) as [Hc | _]; [lia |].
    rewrite (Hclose Hhi). cbn [status].
    eexists _, _. split; [reflexivity |].
    unfold open_us, close_us in *. Z.to_euclidean_division_equations. lia.
  - intros [Hlo Hhi].
    destruct (Z.ltb_spec (tod_us now) open_us) as [_ | Hc]; [| lia].
    rewrite (Hopen Hhi). cbn [status].
    replace ((open_us - tod_us now) / 1000000 / 3600) with 0
      by (unfold open_us in *; Z.to_euclidean_division_equations; lia).
    replace (((open_us - tod_us now) / 1000000 / 60) mod 60) with 0
      by (unfold open_us in *; Z.to_euclidean_division_equations; lia).
    reflexivity.
Qed.

Lemma market_status_countdown_0914 :
  wf_datetime (mk_datetime 738998 9 14 59 0)
  /\ weekday (mk_datetime 738998 9 14 59 0) < 5
  /\ status (get_market_status (mk_datetime 738998 9 14 59 0)) = "Opens in 0h 0m".
Proof.
  assert (Hwf : wf_datetime (mk_datetime 738998 9 14 59 0))
    by (unfold wf_datetime; simpl; lia).
  assert (Hwd : weekday (mk_datetime 738998 9 14 59 0) < 5) by (vm_compute; reflexivity).
  split; [exact Hwf |]. split; [exact Hwd |].
  destruct (market_status_countdown (mk_datetime 738998 9 14 59 0) Hwf Hwd)
    as (_ & _ & Hlast).
  apply Hlast. vm_compute. split; reflexivity.
Defined.

(** X6: [get_market_status] depends on the date through the weekday only:
    two instants with the same weekday and the same time of day get the
    same status, whatever the dates; no calendar of holidays is kept. *)
Theorem market_status_same_weekday (a b : datetime) :
  weekday a = weekday b ->
  hour a = hour b -> minute a = minute b -> second a = second b ->
  microsecond a = microsecond b ->
  get_market_status a = get_market_status b.
Proof.
  intros Hw Hh Hm Hs Hu.
  unfold get_market_status. rewrite Hw.
  assert (Hlt : forall h m, dt_lt a (replace a h m 0 0) = dt_lt b (replace b h m 0 0)).
  { intros h m. unfold dt_lt, dt_compare, replace. simpl.
    rewrite !Z.compare_refl, Hh, Hm, Hs, Hu. reflexivity. }
  assert (Hgt : forall h m, dt_gt a (replace a h m 0 0) = dt_gt b (replace b h m 0 0)).
  { intros h m. unfold dt_gt, dt_compare, replace. simpl.
    rewrite !Z.compare_refl, Hh, Hm, Hs, Hu. reflexivity. }
  assert (Hsub : forall h m, dt_sub (replace a h m 0 0) a = dt_sub (replace b h m 0 0) b).
  { intros h m. unfold dt_sub, replace. simpl.
    rewrite !Z.sub_diag, Hh, Hm, Hs, Hu. reflexivity. }
  rewrite (Hlt 9 15), (Hgt 15 30), (Hsub 9 15), (Hsub 15 30). reflexivity.
Qed.

Lemma market_status_same_weekday_ex :
  weekday (mk_datetime 738998 12 0 0 0) = weekday (mk_datetime 739005 12 0 0 0)
  /\ get_market_status (mk_datetime 738998 12 0 0 0) =
       get_market_status (mk_datetime 739005 12 0 0 0).
Proof.
  split; [reflexivity |].
  apply (market_status_same_weekday (mk_datetime 738998 12 0 0 0)
           (mk_datetime 739005 12 0 0 0)); reflexivity.
Defined.

(** ** Fundamental metrics, continued *)

(** A record that was returned, field by field. *)
Lemma get_stock_metrics_fields (yf : provider) (ticker : string)
  (i : gmap string val) (m : metrics) :
  info yf ticker = Returns i ->
  get_stock_metrics yf ticker = Returns (Some m) ->
  exists h,
    history_1y yf ticker = Returns h
    /\ format_market_cap (dict_get i "marketCap" VNone) = Returns (market_cap m)
    /\ format_volume (dict_get i "volume" (dict_get i "averageVolume" NA)) =
         Returns (volume m)
    /\ (if truthy (dict_get i "dividendYield" VNone) then
          y <- mul_100 (dict_get i "dividendYield" (VInt 0)) ;;
          r <- format_val_fixed 2 false y ;;
          Returns (r +:+ "%")
        else Returns "N/A") = Returns (dividend_yield m)
    /\ current_price m = dict_get i "currentPrice" (dict_get i "regularMarketPrice" NA)
    /\ pe_ratio m = dict_get i "trailingPE" (dict_get i "forwardPE" NA)
    /\ beta m = dict_get i "beta" NA
    /\ sector m = dict_get i "sector" NA
    /\ industry m = dict_get i "industry" NA.
Proof.
  intros Hi. unfold get_stock_metrics. rewrite Hi. simpl bind.
  destruct (history_1y yf ticker) as [h | e]; [| simpl; discriminate].
  simpl bind.
  destruct (format_market_cap (dict_get i "marketCap" VNone)) as [cap | e];
    [| simpl; discriminate].
  simpl bind.
  destruct (format_volume (dict_get i "volume" (dict_get i "averageVolume" NA))) as [vol | e];
    [| simpl; discriminate].
  simpl bind.
  match goal with
  | |- try_except (bind ?c _) _ = _ -> _ => destruct c as [dy | e]; [| simpl; discriminate]
  end.
  simpl. intros H. inversion H. simpl.
  exists h. repeat split; reflexivity.
Qed.

Lemma dict_get_missing (i : gmap string val) (k : string) (default : val) :
  i !! k = None -> dict_get i k default = default.
Proof. intros H. unfold dict_get. rewrite H. reflexivity. Qed.

Lemma dict_get_present (i : gmap string val) (k : string) (default v : val) :
  i !! k = Some v -> dict_get i k default = v.
Proof. intros H. unfold dict_get. rewrite H. reflexivity. Qed.

(** X7: when the info record has none of the keys [get_stock_metrics]
    reads and the one-year history is empty, the result is still a record:
    the one in which every field is "N/A". *)
Theorem get_stock_metrics_no_fields (yf : provider) (ticker : string) (i : gmap string val) :
  info yf ticker = Returns i ->
  Forall (fun k => i !! k = None) metric_keys ->
  history_1y yf ticker = Returns [] ->
  get_stock_metrics yf ticker = Returns (Some all_NA).
Proof.
  intros Hi Hkeys Hh.
  assert (Hk : forall k, In k metric_keys -> i !! k = None)
    by (apply List.Forall_forall; exact Hkeys).
  unfold get_stock_metrics. rewrite Hi, Hh. simpl bind.
  rewrite !dict_get_missing by (apply Hk; simpl; tauto).
  reflexivity.
Qed.

Lemma get_stock_metrics_no_fields_ex :
  Forall (fun k => (<[ "shortName" := VStr "X" ]> ∅ : gmap string val) !! k = None) metric_keys
  /\ get_stock_metrics knows_nothing "X.NS" = Returns (Some all_NA).
Proof.
  assert (Hkeys : Forall (fun k => (<[ "shortName" := VStr "X" ]> ∅ : gmap string val) !! k
                                   = None) metric_keys)
    by (repeat constructor).
  split; [exact Hkeys |].
  exact (get_stock_metrics_no_fields knows_nothing "X.NS" _ eq_refl Hkeys eq_refl).
Defined.

(** X8: a market capitalisation or a volume that the provider reports as
    text (other than the empty text and "N/A"), or a dividend yield reported
    as any non-empty text, voids the whole record: [get_stock_metrics]
    returns [None]. *)
Theorem get_stock_metrics_text_field (yf : provider) (ticker : string)
  (i : gmap string val) (s : string) :
  info yf ticker = Returns i ->
  s <> "" ->
  (s <> "N/A" -> i !! "marketCap" = Some (VStr s) ->
     get_stock_metrics yf ticker = Returns None)
  /\ (s <> "N/A" -> i !! "volume" = Some (VStr s) ->
        get_stock_metrics yf ticker = Returns None)
  /\ (i !! "dividendYield" = Some (VStr s) ->
        get_stock_metrics yf ticker = Returns None).
Proof.
  intros Hi Hne.
  assert (Htruthy : truthy (VStr s) = true).
  { simpl. apply negb_true_iff. apply String.eqb_neq. exact Hne. }
  unfold get_stock_metrics. rewrite Hi. simpl bind.
  destruct (history_1y yf ticker) as [h | e]; [| repeat split; reflexivity].
  simpl bind.
  split; [| split].
  - intros Hna Hcap. rewrite (dict_get_present i "marketCap" VNone _ Hcap).
    unfold format_market_cap. rewrite Htruthy. simpl eq_str.
    replace (s =? "N/A")%string with false by (symmetry; apply String.eqb_neq; exact Hna).
    reflexivity.
  - intros Hna Hvol.
    destruct (format_market_cap (dict_get i "marketCap" VNone)) as [cap | e];
      [| reflexivity].
    simpl bind. rewrite (dict_get_present i "volume" _ _ Hvol).
    unfold format_volume. rewrite Htruthy. simpl eq_str.
    replace (s =? "N/A")%string with false by (symmetry; apply String.eqb_neq; exact Hna).
    reflexivity.
  - intros Hdy.
    destruct (format_market_cap (dict_get i "marketCap" VNone)) as [cap | e];
      [| reflexivity].
    simpl bind.
    destruct (format_volume (dict_get i "volume" (dict_get i "averageVolume" NA)))
      as [vol | e]; [| reflexivity].
    simpl bind.
    rewrite !(dict_get_present i "dividendYield" _ _ Hdy), Htruthy.
    reflexivity.
Qed.

Lemma get_stock_metrics_text_field_ex :
  "2.5T" <> "" /\ "2.5T" <> "N/A"
  /\ get_stock_metrics cap_as_text "X.NS" = Returns None.
Proof.
  assert (H1 : "2.5T" <> "") by discriminate.
  assert (H2 : "2.5T" <> "N/A") by discriminate.
  split; [exact H1 |]. split; [exact H2 |].
  destruct (get_stock_metrics_text_field cap_as_text "X.NS" _ "2.5T" eq_refl H1)
    as (Hcap & _ & _).
  apply Hcap; [exact H2 | reflexivity].
Defined.

(** X9: in a returned record a key that is present in the info record wins
    over the fallback, whatever its value: a trailing P/E of [None] is
    reported as [None] and the forward P/E is not used; the forward P/E is
    used only when the key of the trailing one is missing; and a volume of
    0 is rendered "N/A" without a look at the average volume. *)
Theorem get_stock_metrics_present_keys (yf : provider) (ticker : string)
  (i : gmap string val) (m : metrics) :
  info yf ticker = Returns i ->
  get_stock_metrics yf ticker = Returns (Some m) ->
  (forall v, i !! "trailingPE" = Some v -> pe_ratio m = v)
  /\ (i !! "trailingPE" = None -> pe_ratio m = dict_get i "forwardPE" NA)
  /\ (forall v, i !! "currentPrice" = Some v -> current_price m = v)
  /\ (i !! "currentPrice" = None ->
        current_price m = dict_get i "regularMarketPrice" NA)
  /\ (forall v, i !! "volume" = Some v -> truthy v = false -> volume m = "N/A").
Proof.
  intros Hi Hm.
  destruct (get_stock_metrics_fields yf ticker i m Hi Hm)
    as (h & _ & _ & Hvol & _ & Hprice & Hpe & _).
  rewrite Hprice, Hpe.
  split; [| split; [| split; [| split]]].
  - intros v Hv. apply dict_get_present. exact Hv.
  - intros Hv. apply dict_get_missing. exact Hv.
  - intros v Hv. apply dict_get_present. exact Hv.
  - intros Hv. apply dict_get_missing. exact Hv.
  - intros v Hv Hfalsy.
    rewrite (dict_get_present i "volume" _ v Hv) in Hvol.
    unfold format_volume in Hvol. rewrite Hfalsy in Hvol. simpl in Hvol.
    injection Hvol as <-. reflexivity.
Qed.

Lemma get_stock_metrics_present_keys_ex :
  exists m,
    get_stock_metrics none_pe "X.NS" = Returns (Some m)
    /\ pe_ratio m = VNone
    /\ volume m = "N/A"
    /\ dividend_yield m = "1.50%".
Proof.
  assert (Hm : exists m, get_stock_metrics none_pe "X.NS" = Returns (Some m)
                         /\ dividend_yield m = "1.50%").
  { eexists. split; [vm_compute; reflexivity | reflexivity]. }
  destruct Hm as (m & Hm & Hdy).
  exists m. split; [exact Hm |].
  destruct (get_stock_metrics_present_keys none_pe "X.NS" _ m eq_refl Hm)
    as (Hpe & _ & _ & _ & Hvol).
  split; [apply Hpe; reflexivity |].
  split; [apply (Hvol (VInt 0)); reflexivity | exact Hdy].
Defined.

Lemma percent_is_not_NA (r : string) : r +:+ "%" <> "N/A".
Proof.
  destruct r as [|c1 [|c2 [|c3 [|c4 r]]]]; simpl; discriminate.
Qed.

(** X10: in a returned record the dividend yield is "N/A" exactly when the
    info record has no dividend yield or a falsy one (0, 0.0, [None]); a
    yield given as the float [y] is rendered as [y * 100] with two decimals
    and a percent sign. *)
Theorem get_stock_metrics_dividend_yield (yf : provider) (ticker : string)
  (i : gmap string val) (m : metrics) :
  info yf ticker = Returns i ->
  get_stock_metrics yf ticker = Returns (Some m) ->
  (dividend_yield m = "N/A" <-> truthy (dict_get i "dividendYield" VNone) = false)
  /\ (forall y, i !! "dividendYield" = Some (VFloat y) -> is_zero y = false ->
        dividend_yield m = format_fixed 2 false (fmul y f_100) +:+ "%").
Proof.
  intros Hi Hm.
  destruct (get_stock_metrics_fields yf ticker i m Hi Hm)
    as (h & _ & _ & _ & Hdy & _).
  split.
  - destruct (truthy (dict_get i "dividendYield" VNone)).
    + split; [| discriminate]. intros Hna. exfalso.
      destruct (mul_100 (dict_get i "dividendYield" (VInt 0))) as [y | e];
        [| discriminate Hdy].
      simpl bind in Hdy.
      destruct (format_val_fixed 2 false y) as [r | e]; [| discriminate Hdy].
      simpl bind in Hdy. injection Hdy as Hdy. rewrite <- Hdy in Hna.
      exact (percent_is_not_NA r Hna).
    + injection Hdy as <-. split; reflexivity.
  - intros y Hy Hnz.
    rewrite !(dict_get_present i "dividendYield" _ _ Hy) in Hdy.
    assert (Ht : truthy (VFloat y) = true) by (destruct y; simpl in *; congruence).
    rewrite Ht in Hdy. simpl in Hdy. injection Hdy as <-. reflexivity.
Qed.

Lemma get_stock_metrics_dividend_yield_ex :
  exists m,
    get_stock_metrics none_pe "X.NS" = Returns (Some m)
    /\ dividend_yield m =
         format_fixed 2 false (fmul (fdiv (float_of_Z 3) (float_of_Z 200)) f_100) +:+ "%"
    /\ dividend_yield m <> "N/A".
Proof.
  assert (Hm : exists m, get_stock_metrics none_pe "X.NS" = Returns (Some m))
    by (eexists; vm_compute; reflexivity).
  destruct Hm as (m & Hm).
  exists m. split; [exact Hm |].
  destruct (get_stock_metrics_dividend_yield none_pe "X.NS" _ m eq_refl Hm) as (Hiff & Hy).
  split.
  - apply Hy; reflexivity.
  - intros Hna. apply Hiff in Hna. vm_compute in Hna. discriminate Hna.
Defined.


(** ** Number formatting, continued *)

Lemma int_ge_1e12 (z : Z) : int_ge_float z f_1e12 = (1000000000000 <=? z).
Proof.
  unfold int_ge_float. change f_1e12 with (S754_finite false 8192000000000000 (-13)).
  simpl Z_compare_float. change (2 ^ (- -13)) with 8192.
  destruct (Z.compare_spec (z * 8192) 8192000000000000);
    destruct (Z.leb_spec 1000000000000 z); try reflexivity; lia.
Qed.

Lemma int_ge_1e9 (z : Z) : int_ge_float z f_1e9 = (1000000000 <=? z).
Proof.
  unfold int_ge_float. change f_1e9 with (S754_finite false 8388608000000000 (-23)).
  simpl Z_compare_float. change (2 ^ (- -23)) with 8388608.
  destruct (Z.compare_spec (z * 8388608) 8388608000000000);
    destruct (Z.leb_spec 1000000000 z); try reflexivity; lia.
Qed.

Lemma int_ge_1e6 (z : Z) : int_ge_float z f_1e6 = (1000000 <=? z).
Proof.
  unfold int_ge_float. change f_1e6 with (S754_finite false 8589934592000000 (-33)).
  simpl Z_compare_float. change (2 ^ (- -33)) with 8589934592.
  destruct (Z.compare_spec (z * 8589934592) 8589934592000000);
    destruct (Z.leb_spec 1000000 z); try reflexivity; lia.
Qed.

Lemma float_of_int_returns (z : Z) (x : float) :
  float_of_int z = Returns x -> x = float_of_Z z.
Proof.
  unfold float_of_int. destruct (float_of_Z z); intros H; try discriminate H;
    injection H as <-; reflexivity.
Qed.

Lemma rupee_not_NA (r : string) : "₹" +:+ r <> "N/A".
Proof. simpl. discriminate. Qed.

(** X11: for an integer market capitalisation the thresholds are compared
    exactly, without rounding the integer first: from 10^12 on the result is
    the quotient by 1e12 with two decimals and the suffix T, from 10^9 on the
    quotient by 1e9 with B, from 10^6 on the quotient by 1e6 with M, and below
    10^6 (negative values included) the value itself with thousands
    separators; only 0 gives "N/A". *)
Theorem format_market_cap_int_thresholds (z : Z) (s : string) :
  format_market_cap (VInt z) = Returns s ->
  (1000000000000 <= z ->
     s = "₹" +:+ format_fixed 2 false (fdiv (float_of_Z z) f_1e12) +:+ "T")
  /\ (1000000000 <= z < 1000000000000 ->
        s = "₹" +:+ format_fixed 2 false (fdiv (float_of_Z z) f_1e9) +:+ "B")
  /\ (1000000 <= z < 1000000000 ->
        s = "₹" +:+ format_fixed 2 false (fdiv (float_of_Z z) f_1e6) +:+ "M")
  /\ (z < 1000000 -> z <> 0 ->
        s = "₹" +:+ format_fixed 0 true (float_of_Z z))
  /\ (z = 0 <-> s = "N/A").
Proof.
  unfold format_market_cap. simpl truthy. simpl eq_str. rewrite orb_false_r, negb_involutive.
  destruct (Z.eqb_spec z 0) as [-> | Hnz].
  - intros H. injection H as <-.
    repeat split; intros; try lia; reflexivity.
  - simpl ge_float. rewrite int_ge_1e12, int_ge_1e9, int_ge_1e6. simpl bind.
    destruct (Z.leb_spec 1000000000000 z) as [HT | HT].
    + destruct (float_of_int z) as [x |] eqn:E; cbn [bind]; [| discriminate].
      apply float_of_int_returns in E. subst x.
      intros H. injection H as <-.
      repeat split; intros; try lia; try reflexivity.
      exfalso. exact (rupee_not_NA _ H).
    + destruct (Z.leb_spec 1000000000 z) as [HB | HB].
      * destruct (float_of_int z) as [x |] eqn:E; cbn [bind]; [| discriminate].
        apply float_of_int_returns in E. subst x.
        intros H. injection H as <-.
        repeat split; intros; try lia; try reflexivity.
        exfalso. exact (rupee_not_NA _ H).
      * destruct (Z.leb_spec 1000000 z) as [HM | HM].
        -- destruct (float_of_int z) as [x |] eqn:E; cbn [bind]; [| discriminate].
           apply float_of_int_returns in E. subst x.
           intros H. injection H as <-.
           repeat split; intros; try lia; try reflexivity.
           exfalso. exact (rupee_not_NA _ H).
        -- unfold format_val_fixed.
           destruct (float_of_int z) as [x |] eqn:E; cbn [bind]; [| discriminate].
           apply float_of_int_returns in E. subst x.
           intros H. injection H as <-.
           repeat split; intros; try lia; try reflexivity.
           exfalso. exact (rupee_not_NA _ H).
Qed.

Lemma format_market_cap_int_thresholds_ex :
  format_market_cap (VInt 999999) = Returns "₹999,999"
  /\ "₹999,999" = "₹" +:+ format_fixed 0 true (float_of_Z 999999)
  /\ format_market_cap (VInt (-5)) = Returns "₹-5".
Proof.
  assert (H : format_market_cap (VInt 999999) = Returns "₹999,999")
    by (vm_compute; reflexivity).
  split; [exact H |].
  destruct (format_market_cap_int_thresholds 999999 _ H) as (_ & _ & _ & Hlow & _).
  split; [apply Hlow; lia | vm_compute; reflexivity].
Defined.


(** ** The comparison chart, continued *)

Lemma py_max_ge_first (a b : float) :
  is_nan a = false -> is_nan (py_max a b) = false /\ fle a (py_max a b) = true.
Proof.
  intros Ha. unfold py_max, fgt.
  destruct (SFltb a b) eqn:E.
  - split; [| apply flt_fle; exact E].
    unfold SFltb in E. destruct a, b; simpl in *; congruence.
  - split; [exact Ha | apply fle_refl; exact Ha].
Qed.

(** X12: the padding of the y-axis of the comparison chart is never NaN
    and at least 1, whatever the column holds (empty and all-NaN columns
    included); the range is the minimum of the plotted values minus the
    padding and their maximum plus the padding. *)
Theorem comparison_chart_padding (xs : list string) (ys : list float) :
  exists pad,
    is_nan pad = false
    /\ fle f_1 pad = true
    /\ y_range (create_comparison_chart xs ys) =
         (fsub (series_min (bar_y (create_comparison_chart xs ys))) pad,
          fadd (series_max (bar_y (create_comparison_chart xs ys))) pad).
Proof.
  unfold create_comparison_chart. cbn [y_range bar_y].
  eexists. split; [| split; [| reflexivity]].
  - apply py_max_ge_first. reflexivity.
  - apply py_max_ge_first. reflexivity.
Qed.

(** X13: in the comparison chart the bars, the colours and the labels stay
    aligned with the plotted values: there is one of each per value of the
    column; a plotted value that is at least 0 is green and its label starts
    with "+", any other (a negative value, NaN) is red and has no sign added;
    the label is the plotted value with two decimals and "%". *)
Theorem comparison_chart_bars (xs : list string) (ys : list float) :
  bar_x (create_comparison_chart xs ys) = xs
  /\ length (bar_y (create_comparison_chart xs ys)) = length ys
  /\ length (marker_color (create_comparison_chart xs ys)) = length ys
  /\ length (text (create_comparison_chart xs ys)) = length ys
  /\ forall i v,
       nth_error (bar_y (create_comparison_chart xs ys)) i = Some v ->
       (fge v f_0 = true ->
          nth_error (marker_color (create_comparison_chart xs ys)) i = Some "#4CAF50"
          /\ nth_error (text (create_comparison_chart xs ys)) i =
               Some ("+" +:+ format_fixed 2 false v +:+ "%"))
       /\ (fge v f_0 = false ->
             nth_error (marker_color (create_comparison_chart xs ys)) i = Some "#F44336"
             /\ nth_error (text (create_comparison_chart xs ys)) i =
                  Some (format_fixed 2 false v +:+ "%")).
Proof.
  unfold create_comparison_chart. cbn [bar_x bar_y marker_color text].
  split; [reflexivity |].
  assert (Hlen : length (to_percentages ys) = length ys).
  { unfold to_percentages. destruct (fle (series_max ys) f_1); [apply length_map | reflexivity]. }
  split; [exact Hlen |].
  split; [rewrite length_map; exact Hlen |].
  split; [rewrite length_map; exact Hlen |].
  intros i v Hv. rewrite !nth_error_map, Hv. simpl.
  split; intros Hs; rewrite Hs; split; reflexivity.
Qed.

Lemma comparison_chart_bars_ex :
  nth_error (bar_y (create_comparison_chart ["A.NS"; "B.NS"] minus5_half)) 0 =
    Some (float_of_Z (-500))
  /\ fge (float_of_Z (-500)) f_0 = false
  /\ nth_error (marker_color (create_comparison_chart ["A.NS"; "B.NS"] minus5_half)) 0 =
       Some "#F44336"
  /\ nth_error (text (create_comparison_chart ["A.NS"; "B.NS"] minus5_half)) 0 =
       Some "-500.00%".
Proof.
  assert (Hv : nth_error (bar_y (create_comparison_chart ["A.NS"; "B.NS"] minus5_half)) 0 =
               Some (float_of_Z (-500))) by (vm_compute; reflexivity).
  assert (Hs : fge (float_of_Z (-500)) f_0 = false) by (vm_compute; reflexivity).
  split; [exact Hv |]. split; [exact Hs |].
  destruct (comparison_chart_bars ["A.NS"; "B.NS"] minus5_half) as (_ & _ & _ & _ & Hbars).
  destruct (Hbars 0%nat _ Hv) as [_ Hneg].
  destruct (Hneg Hs) as [Hcol Htxt].
  split; [exact Hcol |]. rewrite Htxt. vm_compute. reflexivity.
Defined.

(** ** The live chart *)

Lemma contains_In (indicators : list string) (k : string) :
  contains indicators k = true <-> In k indicators.
Proof.
  unfold contains. rewrite existsb_exists. split.
  - intros (s & Hs & Heq). apply String.eqb_eq in Heq. subst s. exact Hs.
  - intros H. exists k. split; [exact H | apply String.eqb_refl].
Qed.

(** The figure, by the two gates. *)
Lemma create_live_chart_gates (pandas : window_kernels) (data : list live_row)
  (indicators : list string) :
  create_live_chart pandas data (Some indicators) =
    price_line data
    :: (if contains indicators "sma" && (20 <? length data)%nat
        then [sma_line pandas data] else [])
    ++ (if contains indicators "ema" && (50 <? length data)%nat
        then [ema_line pandas data] else []).
Proof.
  unfold create_live_chart, price_line, sma_line, ema_line, rolling_mean, ewm_mean.
  rewrite length_map. reflexivity.
Qed.

Lemma gate_true (indicators : list string) (k : string) (n rows : nat) :
  In k indicators -> (S n <= rows)%nat ->
  contains indicators k && (n <? rows)%nat = true.
Proof.
  intros Hin Hrows. apply andb_true_iff. split.
  - apply contains_In. exact Hin.
  - apply Nat.ltb_lt. lia.
Qed.

Lemma gate_false (indicators : list string) (k : string) (n rows : nat) :
  ~ In k indicators \/ (rows < S n)%nat ->
  contains indicators k && (n <? rows)%nat = false.
Proof.
  intros [Hno | Hrows]; apply andb_false_iff.
  - left. destruct (contains indicators k) eqn:E; [| reflexivity].
    exfalso. apply Hno. apply contains_In. exact E.
  - right. apply Nat.ltb_ge. lia.
Qed.

(** X14: the overlays of the live chart. The figure is the price line,
    then the SMA 20 traces, then the EMA 50 traces. With "sma" among the
    indicators and 21 rows or more there is exactly one SMA 20 trace: in
    orange, on the time axis of the data, its value at each row what
    [rolling(window=20).mean()] returns there for the price column; without
    "sma", or with fewer than 21 rows, there is none. Likewise for "ema"
    with 51 rows, in blue, with [ewm(span=50, adjust=False).mean()]. *)
Theorem live_chart_overlay_gates (pandas : window_kernels) (data : list live_row)
  (indicators : list string) :
  let fig := create_live_chart pandas data (Some indicators) in
  fig = price_line data :: traces_named "SMA 20" fig ++ traces_named "EMA 50" fig
  /\ (In "sma" indicators -> (21 <= length data)%nat ->
      traces_named "SMA 20" fig = [sma_line pandas data])
  /\ (~ In "sma" indicators \/ (length data < 21)%nat -> traces_named "SMA 20" fig = [])
  /\ (In "ema" indicators -> (51 <= length data)%nat ->
      traces_named "EMA 50" fig = [ema_line pandas data])
  /\ (~ In "ema" indicators \/ (length data < 51)%nat -> traces_named "EMA 50" fig = []).
Proof.
  cbv zeta. rewrite create_live_chart_gates. unfold traces_named.
  split; [| split; [| split; [| split]]].
  - destruct (contains indicators "sma" && (20 <? length data)%nat);
      destruct (contains indicators "ema" && (50 <? length data)%nat); reflexivity.
  - intros Hin Hrows. rewrite (gate_true indicators "sma" 20 _ Hin Hrows).
    destruct (contains indicators "ema" && (50 <? length data)%nat); reflexivity.
  - intros Hno. rewrite (gate_false indicators "sma" 20 _ Hno).
    destruct (contains indicators "ema" && (50 <? length data)%nat); reflexivity.
  - intros Hin Hrows. rewrite (gate_true indicators "ema" 50 _ Hin Hrows).
    destruct (contains indicators "sma" && (20 <? length data)%nat); reflexivity.
  - intros Hno. rewrite (gate_false indicators "ema" 50 _ Hno).
    destruct (contains indicators "sma" && (20 <? length data)%nat); reflexivity.
Qed.

Lemma live_chart_overlay_gates_ramp :
  In "sma" ["sma"; "ema"]
  /\ (21 <= length (ramp 21))%nat
  /\ (length (ramp 21) < 51)%nat
  /\ create_live_chart sum_kernels (ramp 21) (Some ["sma"; "ema"]) =
       [price_line (ramp 21); sma_line sum_kernels (ramp 21)].
Proof.
  assert (Hin : In "sma" ["sma"; "ema"]) by (left; reflexivity).
  assert (Hlen : (21 <= length (ramp 21))%nat) by (vm_compute; lia).
  assert (Hshort : (length (ramp 21) < 51)%nat) by (vm_compute; lia).
  split; [exact Hin |]. split; [exact Hlen |]. split; [exact Hshort |].
  destruct (live_chart_overlay_gates sum_kernels (ramp 21) ["sma"; "ema"])
    as (Hfig & Hsma & _ & _ & Hema).
  rewrite Hfig, (Hsma Hin Hlen), (Hema (or_intror Hshort)). reflexivity.
Defined.

(** X15: the live chart always starts with the price line; it has at most
    three traces, with different names, even when an indicator is listed
    more than once; every trace has the time axis of the data and one value
    per row; without indicators, and with indicators other than "sma" and
    "ema", the price line is the only trace. *)
Theorem live_chart_traces (pandas : window_kernels) (data : list live_row)
  (indicators : option (list string)) :
  (exists rest, create_live_chart pandas data indicators = price_line data :: rest)
  /\ (length (create_live_chart pandas data indicators) <= 3)%nat
  /\ NoDup (map name (create_live_chart pandas data indicators))
  /\ Forall (fun tr => x tr = map time data /\ length (y tr) = length data)
            (create_live_chart pandas data indicators)
  /\ (indicators = None -> create_live_chart pandas data indicators = [price_line data])
  /\ (forall l, indicators = Some l -> ~ In "sma" l -> ~ In "ema" l ->
        create_live_chart pandas data indicators = [price_line data]).
Proof.
  assert (Hsma : length (rolling_mean pandas 20 (map price data)) = length data)
    by (unfold rolling_mean; rewrite length_map, length_seq, length_map; reflexivity).
  assert (Hema : length (ewm_mean pandas 50 false (map price data)) = length data)
    by (unfold ewm_mean; rewrite length_map, length_seq, length_map; reflexivity).
  assert (Hprice : length (map price data) = length data) by apply length_map.
  split; [eexists; reflexivity |].
  split; [| split; [| split; [| split]]].
  - unfold create_live_chart.
    destruct (_ && _); destruct (_ && _); simpl; lia.
  - unfold create_live_chart.
    destruct (_ && _); destruct (_ && _); simpl; compute_done.
  - unfold create_live_chart.
    destruct (_ && _); destruct (_ && _); simpl;
      repeat (constructor; [simpl; split; [reflexivity | assumption] |]); constructor.
  - intros ->. reflexivity.
  - intros l -> Hs He. unfold create_live_chart.
    pose proof (contains_In l "sma") as Hcs. pose proof (contains_In l "ema") as Hce.
    destruct (contains l "sma"); [exfalso; apply Hs, Hcs; reflexivity |].
    destruct (contains l "ema"); [exfalso; apply He, Hce; reflexivity |].
    reflexivity.
Qed.

Lemma live_chart_traces_twice :
  map name (create_live_chart sum_kernels (ramp 60) (Some ["sma"; "sma"; "ema"; "rsi"])) =
    ["Price"; "SMA 20"; "EMA 50"]
  /\ create_live_chart sum_kernels (ramp 60) (Some ["rsi"]) = [price_line (ramp 60)].
Proof.
  split; [vm_compute; reflexivity |].
  destruct (live_chart_traces sum_kernels (ramp 60) (Some ["rsi"]))
    as (_ & _ & _ & _ & _ & Hnone).
  apply (Hnone ["rsi"] eq_refl); simpl; intuition discriminate.
Defined.

(** ** The price history chart *)

(** X16: [create_price_chart] draws the line chart for every chart type
    other than "candlestick" and "area", and also for "candlestick" when one
    of the columns Open, High, Low, Close is missing; a missing OHLC column
    therefore never raises: the only columns whose absence raises [KeyError]
    are Date and, for the line and area charts, Price; a figure that is
    returned has exactly one trace, height 350 and the given title. *)
Theorem create_price_chart_kind {cell : Type} (data : gmap string (list cell))
  (title chart_type : string) (live : bool) :
  (chart_type <> "area" ->
   chart_type <> "candlestick" \/ forallb (has_column data) ohlc = false ->
   create_price_chart data title chart_type live = create_price_chart data title "line" live)
  /\ (forall column, create_price_chart data title chart_type live = KeyError column ->
        column = "Date" \/ column = "Price")
  /\ (forall fig, create_price_chart data title chart_type live = Found fig ->
        length (traces fig) = 1%nat /\ height fig = 350 /\ title_text fig = title)
  /\ (is_Some (data !! "Date") -> is_Some (data !! "Price") ->
        exists fig, create_price_chart data title chart_type live = Found fig).
Proof.
  unfold create_price_chart, ohlc.
  split; [| split; [| split]].
  - intros Harea Hkind.
    replace (chart_type =? "area")%string with false
      by (symmetry; apply String.eqb_neq; exact Harea).
    destruct Hkind as [Hc | Hcols].
    + replace (chart_type =? "candlestick")%string with false
        by (symmetry; apply String.eqb_neq; exact Hc).
      reflexivity.
    + rewrite Hcols, andb_false_r. reflexivity.
  - intros column.
    destruct ((chart_type =? "candlestick")%string
              && forallb (has_column data) ["Open"; "High"; "Low"; "Close"]) eqn:Ek.
    + apply andb_true_iff in Ek. destruct Ek as [_ Hcols].
      simpl in Hcols. unfold has_column in Hcols. unfold getitem.
      destruct (data !! "Open"); [| discriminate Hcols].
      destruct (data !! "High"); [| discriminate Hcols].
      destruct (data !! "Low"); [| discriminate Hcols].
      destruct (data !! "Close"); [| discriminate Hcols].
      destruct (data !! "Date"); simpl; intros H; [discriminate H |].
      injection H as <-. left. reflexivity.
    + unfold getitem.
      destruct (chart_type =? "area")%string;
        destruct (data !! "Date"); destruct (data !! "Price"); simpl; intros H;
        try discriminate H; injection H as <-; auto.
  - intros fig.
    destruct ((chart_type =? "candlestick")%string
              && forallb (has_column data) ["Open"; "High"; "Low"; "Close"]).
    + unfold getitem.
      destruct (data !! "Date"); destruct (data !! "Open"); destruct (data !! "High");
        destruct (data !! "Low"); destruct (data !! "Close"); simpl; intros H;
        try discriminate H; injection H as <-; auto.
    + unfold getitem.
      destruct (chart_type =? "area")%string;
        destruct (data !! "Date"); destruct (data !! "Price"); simpl; intros H;
        try discriminate H; injection H as <-; auto.
  - intros [d Hd] [p Hp].
    destruct ((chart_type =? "candlestick")%string
              && forallb (has_column data) ["Open"; "High"; "Low"; "Close"]) eqn:Ek.
    + apply andb_true_iff in Ek. destruct Ek as [_ Hcols].
      simpl in Hcols. unfold has_column in Hcols. unfold getitem. rewrite Hd.
      destruct (data !! "Open"); [| discriminate Hcols].
      destruct (data !! "High"); [| discriminate Hcols].
      destruct (data !! "Low"); [| discriminate Hcols].
      destruct (data !! "Close"); [| discriminate Hcols].
      simpl. eexists. reflexivity.
    + unfold getitem. rewrite Hd, Hp.
      destruct (chart_type =? "area")%string; simpl; eexists; reflexivity.
Qed.

Lemma create_price_chart_kind_ex :
  "candlestick" <> "area"
  /\ forallb (has_column date_price_frame) ohlc = false
  /\ create_price_chart date_price_frame "X.NS Price History" "candlestick" true =
       Found {| traces := [Scatter [1; 2; 3] [10; 11; 12] None (Some 2)];
                title_text := "X.NS Price History";
                height := 350;
                transition_duration := Some 300;
                rangeslider_visible := Some false |}.
Proof.
  assert (H1 : "candlestick" <> "area") by discriminate.
  assert (H2 : forallb (has_column date_price_frame) ohlc = false) by reflexivity.
  split; [exact H1 |]. split; [exact H2 |].
  destruct (create_price_chart_kind date_price_frame "X.NS Price History" "candlestick" true)
    as (Hline & _).
  rewrite (Hline H1 (or_intror H2)). reflexivity.
Defined.

(** ** The watch-list, continued *)

Lemma not_in_existsb (t : string) (l : list string) :
  negb (existsb (String.eqb t) l) = true <-> ~ In t l.
Proof.
  rewrite negb_true_iff. split.
  - intros Hf Hin. assert (Ht : existsb (String.eqb t) l = true).
    { apply existsb_exists. exists t. split; [exact Hin | apply String.eqb_refl]. }
    congruence.
  - intros Hn. destruct (existsb (String.eqb t) l) eqn:E; [| reflexivity].
    exfalso. apply Hn. apply existsb_exists in E. destruct E as (u & Hu & Heq).
    apply String.eqb_eq in Heq. subst u. exact Hu.
Qed.

(** X17: the options of the multi-select are the symbols of [ALL_TICKERS]
    that are not defaults, each once; so when the defaults hold no symbol
    twice and the selection is made of distinct options, the default and the
    popular part of the watch-list share no symbol: a duplicate in the
    watch-list can only come from the custom text. *)
Theorem popular_options_disjoint (unicode_upper : string -> string)
  (DEFAULT_TICKERS additional_tickers : list string) :
  (forall t, In t (popular_options DEFAULT_TICKERS) <->
             In t ALL_TICKERS /\ ~ In t DEFAULT_TICKERS)
  /\ List.NoDup (popular_options DEFAULT_TICKERS)
  /\ (List.NoDup DEFAULT_TICKERS -> List.NoDup additional_tickers ->
      incl additional_tickers (popular_options DEFAULT_TICKERS) ->
      List.NoDup (ticker_list unicode_upper DEFAULT_TICKERS additional_tickers "")).
Proof.
  assert (Hin : forall t, In t (popular_options DEFAULT_TICKERS) <->
                          In t ALL_TICKERS /\ ~ In t DEFAULT_TICKERS).
  { intros t. unfold popular_options. rewrite filter_In, not_in_existsb. reflexivity. }
  split; [exact Hin |]. split.
  - unfold popular_options. apply List.NoDup_filter.
    unfold ALL_TICKERS.
    repeat (constructor; [simpl; intuition discriminate |]). constructor.
  - intros Hd Ha Hincl. unfold ticker_list.
    change (custom_tickers unicode_upper "") with (@nil string). rewrite app_nil_r.
    apply List.NoDup_app; [exact Hd | exact Ha |].
    intros t Ht Hta. apply Hincl in Hta. apply Hin in Hta. destruct Hta as [_ Hn].
    exact (Hn Ht).
Qed.

Lemma popular_options_disjoint_ex :
  List.NoDup ["TCS.NS"; "INFY.NS"]
  /\ incl ["LT.NS"; "ITC.NS"] (popular_options ["TCS.NS"; "INFY.NS"])
  /\ List.NoDup (ticker_list ascii_upper ["TCS.NS"; "INFY.NS"] ["LT.NS"; "ITC.NS"] "").
Proof.
  assert (Hd : List.NoDup ["TCS.NS"; "INFY.NS"])
    by (repeat (constructor; [simpl; intuition discriminate |]); constructor).
  assert (Ha : List.NoDup ["LT.NS"; "ITC.NS"])
    by (repeat (constructor; [simpl; intuition discriminate |]); constructor).
  assert (Hincl : incl ["LT.NS"; "ITC.NS"] (popular_options ["TCS.NS"; "INFY.NS"])).
  { intros t [<- | [<- | []]]; vm_compute; tauto. }
  split; [exact Hd |]. split; [exact Hincl |].
  destruct (popular_options_disjoint ascii_upper ["TCS.NS"; "INFY.NS"] ["LT.NS"; "ITC.NS"])
    as (_ & _ & Hnodup).
  exact (Hnodup Hd Ha Hincl).
Defined.

Lemma all_chars_app (p : ascii -> bool) (a b : string) :
  all_chars p (a +:+ b) = all_chars p a && all_chars p b.
Proof.
  induction a as [|x a IH]; [reflexivity |].
  rewrite append_cons. simpl. rewrite IH, andb_assoc. reflexivity.
Qed.

(** A white-space character, encoded, is a leading white-space character
    of any text it starts. *)
Lemma white_space_prefix (cp : N) (s : string) :
  In cp White_Space -> space_prefix (utf8 cp +:+ s) = Some s.
Proof.
  unfold White_Space. intros H.
  repeat (destruct H as [<- | H]; [reflexivity |]). destruct H.
Qed.

Lemma white_space_no_comma (cp : N) :
  In cp White_Space -> all_chars not_comma (utf8 cp) = true.
Proof.
  unfold White_Space. intros H.
  repeat (destruct H as [<- | H]; [reflexivity |]). destruct H.
Qed.

(** A text of white-space characters is blank and holds no comma. *)
Lemma white_space_text (ws : list N) :
  Forall (fun cp => In cp White_Space) ws ->
  blank (utf8_text ws) = true /\ all_chars not_comma (utf8_text ws) = true.
Proof.
  induction 1 as [|cp rest Hcp _ [IHb IHc]]; [split; reflexivity |].
  cbn [utf8_text]. split.
  - apply blank_lstrip. rewrite lstrip_unfold, (white_space_prefix cp _ Hcp).
    apply blank_lstrip. exact IHb.
  - rewrite all_chars_app, (white_space_no_comma cp Hcp), IHc. reflexivity.
Qed.

Lemma strip_blank (s : string) : blank s = true -> strip s = "".
Proof. intros H. apply blank_lstrip in H. unfold strip. rewrite H. reflexivity. Qed.

(** The bytes of a white-space character are not commas. *)
Lemma byte_not_comma (c : ascii) (lo hi : nat) :
  byte_in c lo hi = true -> (44 < lo)%nat \/ (hi < 44)%nat -> not_comma c = true.
Proof.
  unfold byte_in, not_comma. intros H Hrange.
  destruct (Ascii.eqb_spec c ",") as [-> | _]; [| reflexivity].
  exfalso. apply andb_true_iff in H. destruct H as [H1 H2].
  apply Nat.leb_le in H1, H2.
  change (nat_of_ascii ",") with 44%nat in H1, H2. lia.
Qed.

Ltac split_bytes :=
  repeat match goal with
         | H : (_ && _) = true |- _ => apply andb_true_iff in H; destruct H
         | H : (_ || _) = true |- _ => apply orb_true_iff in H; destruct H
         end.

Ltac not_comma_byte :=
  match goal with
  | H : byte_in ?c _ _ = true |- not_comma ?c = true =>
      apply (byte_not_comma c _ _ H); lia
  end.

Lemma is_space_not_comma (c : ascii) : is_space c = true -> not_comma c = true.
Proof. unfold is_space. intros H. split_bytes; not_comma_byte. Qed.

Lemma is_space2_not_comma (c1 c2 : ascii) :
  is_space2 c1 c2 = true -> not_comma c1 = true /\ not_comma c2 = true.
Proof. unfold is_space2. intros H. split_bytes; split; not_comma_byte. Qed.

Lemma is_space3_not_comma (c1 c2 c3 : ascii) :
  is_space3 c1 c2 c3 = true ->
  not_comma c1 = true /\ not_comma c2 = true /\ not_comma c3 = true.
Proof. unfold is_space3. intros H. split_bytes; repeat split; not_comma_byte. Qed.

(** A byte pinned to a single value. *)
Lemma byte_is (c : ascii) (n : nat) : byte_in c n n = true -> c = ascii_of_nat n.
Proof.
  unfold byte_in. intros H. apply andb_true_iff in H. destruct H as [H1 H2].
  apply Nat.leb_le in H1, H2.
  rewrite <- (ascii_nat_embedding c). f_equal. lia.
Qed.

Ltac pin_bytes :=
  repeat match goal with
         | H : byte_in ?c ?n ?n = true |- _ => is_var c; apply byte_is in H; subst c
         end;
  repeat match goal with
         | H : byte_in ?c _ _ = true |- _ =>
             is_var c; destruct c as [[] [] [] [] [] [] [] []]; try discriminate H; clear H
         end.

(** The leading white-space characters that [space_prefix] recognises are
    the encodings of the code points of [White_Space], and no others. *)
Lemma space_prefix_white_space (s r : string) :
  space_prefix s = Some r <-> exists cp, In cp White_Space /\ s = utf8 cp +:+ r.
Proof.
  split; [| intros (cp & Hcp & ->); apply white_space_prefix; exact Hcp].
  destruct s as [|c1 r1]; cbn [space_prefix]; [discriminate |].
  destruct (is_space c1) eqn:E1.
  { intros [= <-]. exists (N_of_ascii c1). unfold is_space in E1.
    split_bytes; pin_bytes; (split; [vm_compute; tauto | reflexivity]). }
  destruct r1 as [|c2 r2]; [discriminate |].
  destruct (is_space2 c1 c2) eqn:E2.
  { intros [= <-]. exists ((N_of_ascii c1 - 192) * 64 + (N_of_ascii c2 - 128))%N.
    clear E1. unfold is_space2 in E2.
    split_bytes; pin_bytes; (split; [vm_compute; tauto | reflexivity]). }
  destruct r2 as [|c3 r3]; [discriminate |].
  destruct (is_space3 c1 c2 c3) eqn:E3; [| discriminate].
  intros [= <-].
  exists ((N_of_ascii c1 - 224) * 4096 + (N_of_ascii c2 - 128) * 64 + (N_of_ascii c3 - 128))%N.
  clear E1 E2. unfold is_space3 in E3.
  split_bytes; pin_bytes; (split; [vm_compute; tauto | reflexivity]).
Qed.

Lemma blank_no_comma (s : string) : blank s = true -> all_chars not_comma s = true.
Proof.
  induction s as [s IH] using string_length_ind. intros Hb.
  apply blank_lstrip in Hb. rewrite lstrip_unfold in Hb.
  destruct s as [|c1 r1]; [reflexivity |].
  destruct (space_prefix (String c1 r1)) as [r |] eqn:E; [| discriminate Hb].
  pose proof (space_prefix_length _ _ E) as Hlen.
  assert (Hr : all_chars not_comma r = true)
    by (apply IH; [exact Hlen | apply blank_lstrip; exact Hb]).
  clear IH Hb Hlen. cbn [space_prefix] in E.
  destruct (is_space c1) eqn:E1.
  { injection E as <-. simpl. rewrite Hr, (is_space_not_comma c1 E1). reflexivity. }
  destruct r1 as [|c2 r2]; [discriminate E |].
  destruct (is_space2 c1 c2) eqn:E2.
  { injection E as <-. destruct (is_space2_not_comma c1 c2 E2) as [H1 H2].
    simpl. rewrite Hr, H1, H2. reflexivity. }
  destruct r2 as [|c3 r3]; [discriminate E |].
  destruct (is_space3 c1 c2 c3) eqn:E3; [| discriminate E].
  injection E as <-. destruct (is_space3_not_comma c1 c2 c3 E3) as (H1 & H2 & H3).
  simpl. rewrite Hr, H1, H2, H3. reflexivity.
Qed.

(** Splitting at the first comma. *)
Lemma split_at_comma (a b : string) :
  all_chars not_comma a = true ->
  split "," (a +:+ "," +:+ b) = a :: split "," b.
Proof.
  induction a as [|c a IH]; intros Ha.
  - reflexivity.
  - simpl in Ha. apply andb_true_iff in Ha. destruct Ha as [Hc Ha].
    rewrite append_cons. simpl. unfold not_comma in Hc. apply negb_true_iff in Hc.
    rewrite Hc, (IH Ha). reflexivity.
Qed.

Lemma split_no_comma (a : string) :
  all_chars not_comma a = true -> split "," a = [a].
Proof.
  induction a as [|c a IH]; intros Ha; [reflexivity |].
  simpl in Ha. apply andb_true_iff in Ha. destruct Ha as [Hc Ha].
  simpl. unfold not_comma in Hc. apply negb_true_iff in Hc. rewrite Hc.
  rewrite (IH Ha). reflexivity.
Qed.

(** A text without comma in front of a text lengthens its first piece. *)
Lemma split_app_no_comma (a b h : string) (t : list string) :
  all_chars not_comma a = true ->
  split "," b = h :: t ->
  split "," (a +:+ b) = (a +:+ h) :: t.
Proof.
  intros Ha Hb. induction a as [|c a IH]; [exact Hb |].
  simpl in Ha. apply andb_true_iff in Ha. destruct Ha as [Hc Ha].
  rewrite append_cons. simpl. unfold not_comma in Hc. apply negb_true_iff in Hc.
  rewrite Hc, (IH Ha). reflexivity.
Qed.

Lemma strip_padded (pad t : string) :
  blank pad = true -> strip t = t -> strip (pad +:+ t) = t.
Proof.
  intros Hp Ht. unfold strip. rewrite (lstrip_blank_app pad t Hp).
  exact Ht.
Qed.

Section CustomText.
Variable unicode_upper : string -> string.

(** The custom tickers of a text that starts with a piece free of commas. *)
Lemma custom_tickers_piece (a b : string) :
  all_chars not_comma a = true ->
  custom_tickers unicode_upper (a +:+ "," +:+ b) =
    (if nonempty (strip a) then [upper unicode_upper (strip a)] else [])
    ++ custom_tickers unicode_upper b.
Proof.
  intros Ha. unfold custom_tickers. rewrite (split_at_comma a b Ha).
  simpl. destruct (nonempty (strip a)); reflexivity.
Qed.

Lemma custom_tickers_last (a : string) :
  all_chars not_comma a = true ->
  custom_tickers unicode_upper a =
    if nonempty (strip a) then [upper unicode_upper (strip a)] else [].
Proof.
  intros Ha. unfold custom_tickers. rewrite (split_no_comma a Ha).
  simpl. destruct (nonempty (strip a)); reflexivity.
Qed.

Lemma clean_nonempty (t : string) : t <> "" -> nonempty t = true.
Proof.
  intros H. unfold nonempty. apply negb_true_iff. apply String.eqb_neq. exact H.
Qed.

(** The tickers come back from their joined text, behind any padding. *)
Lemma custom_tickers_join_from (pad : string) (l : list string) :
  blank pad = true ->
  Forall (fun t => clean_ticker unicode_upper t /\ all_chars not_comma t = true) l ->
  l <> [] ->
  forall pre, blank pre = true ->
    custom_tickers unicode_upper (pre +:+ join ("," +:+ pad) l) = l.
Proof.
  intros Hpad Hall. induction Hall as [|t rest [(Hne & Hstrip & Hupper) Hcomma] Hrest IH];
    intros Hnil pre Hpre; [contradiction |].
  assert (Hpt : all_chars not_comma (pre +:+ t) = true)
    by (rewrite all_chars_app, (blank_no_comma pre Hpre), Hcomma; reflexivity).
  assert (Hs : strip (pre +:+ t) = t) by (apply strip_padded; assumption).
  destruct rest as [|t2 rest'].
  - simpl join. rewrite (custom_tickers_last _ Hpt), Hs, (clean_nonempty t Hne), Hupper.
    reflexivity.
  - change (join ("," +:+ pad) (t :: t2 :: rest'))
      with (t +:+ ("," +:+ pad) +:+ join ("," +:+ pad) (t2 :: rest')).
    replace (pre +:+ t +:+ ("," +:+ pad) +:+ join ("," +:+ pad) (t2 :: rest'))
      with ((pre +:+ t) +:+ "," +:+ (pad +:+ join ("," +:+ pad) (t2 :: rest')))
      by (rewrite !string_app_assoc; reflexivity).
    rewrite (custom_tickers_piece _ _ Hpt), Hs, (clean_nonempty t Hne), Hupper.
    rewrite (IH ltac:(discriminate) pad Hpad). reflexivity.
Qed.

(** The pieces of a text of white space and commas are blank. *)
Lemma split_blank_pieces (cps : list N) :
  Forall (fun cp => In cp White_Space \/ cp = comma) cps ->
  Forall (fun piece => blank piece = true) (split "," (utf8_text cps)).
Proof.
  induction 1 as [|cp rest [Hcp | ->] _ IH]; [repeat constructor | |].
  - cbn [utf8_text].
    destruct (split "," (utf8_text rest)) as [|h t] eqn:E; [inversion IH; subst |].
    + assert (Hs : exists h t, split "," (utf8_text rest) = h :: t).
      { destruct (utf8_text rest) as [|c r]; simpl; [eauto |].
        destruct (Ascii.eqb c ","); [eauto |]. destruct (split "," r); eauto. }
      destruct Hs as (h & t & Hs). congruence.
    + rewrite (split_app_no_comma _ _ h t (white_space_no_comma cp Hcp) E).
      inversion IH as [| ? ? Hh Ht]; subst. constructor; [| exact Ht].
      apply blank_app; [| exact Hh].
      destruct (white_space_text [cp]) as [Hb _]; [constructor; [exact Hcp | constructor] |].
      cbn [utf8_text] in Hb. rewrite string_app_nil in Hb. exact Hb.
  - cbn [utf8_text]. change (utf8 comma) with ",".
    change ("," +:+ utf8_text rest) with (String "," (utf8_text rest)).
    simpl split. constructor; [reflexivity | exact IH].
Qed.

End CustomText.

(** X18: the custom text round-trips: symbols that are non-empty, trimmed,
    upper-cased and free of commas, written one after the other with a comma
    and any white space between them, are read back by [custom_tickers]
    exactly as they were, in the same order and with their repetitions. *)
Theorem custom_tickers_join (unicode_upper : string -> string) (ws : list N)
  (l : list string) :
  Forall (fun cp => In cp White_Space) ws ->
  Forall (fun t => clean_ticker unicode_upper t /\ all_chars not_comma t = true) l ->
  custom_tickers unicode_upper (join ("," +:+ utf8_text ws) l) = l.
Proof.
  intros Hws Hall. destruct l as [|t rest]; [reflexivity |].
  destruct (white_space_text ws Hws) as [Hpad _].
  apply (custom_tickers_join_from unicode_upper (utf8_text ws) (t :: rest) Hpad Hall
           ltac:(discriminate) "" eq_refl).
Qed.

Lemma custom_tickers_join_ex :
  Forall (fun cp => In cp White_Space) [160%N; 32%N]
  /\ custom_tickers ascii_upper
       (join ("," +:+ utf8_text [160%N; 32%N]) ["BHEL.NS"; "ADANIENT.NS"; "BHEL.NS"]) =
       ["BHEL.NS"; "ADANIENT.NS"; "BHEL.NS"].
Proof.
  assert (Hws : Forall (fun cp => In cp White_Space) [160%N; 32%N])
    by (repeat (apply List.Forall_cons; [vm_compute; tauto |]); apply List.Forall_nil).
  split; [exact Hws |].
  apply (custom_tickers_join ascii_upper [160%N; 32%N]
           ["BHEL.NS"; "ADANIENT.NS"; "BHEL.NS"] Hws).
  repeat constructor; try discriminate; reflexivity.
Defined.

(** X19: a custom text made of white-space characters and commas only (the
    empty text included) adds no symbol to the watch-list. *)
Theorem custom_tickers_blank (unicode_upper : string -> string) (cps : list N) :
  Forall (fun cp => In cp White_Space \/ cp = comma) cps ->
  custom_tickers unicode_upper (utf8_text cps) = [].
Proof.
  intros H. pose proof (split_blank_pieces cps H) as Hpieces.
  unfold custom_tickers.
  induction Hpieces as [|t rest Ht Hrest IH]; [reflexivity |].
  simpl. rewrite (strip_blank t Ht). simpl. exact IH.
Qed.

Lemma custom_tickers_blank_ex :
  Forall (fun cp => In cp White_Space \/ cp = comma) [32; 44; 160; 12288; 44; 44; 9]%N
  /\ custom_tickers ascii_upper (utf8_text [32; 44; 160; 12288; 44; 44; 9]%N) = []
  /\ custom_tickers ascii_upper "" = [].
Proof.
  assert (H : Forall (fun cp => In cp White_Space \/ cp = comma)
                [32; 44; 160; 12288; 44; 44; 9]%N)
    by (repeat (apply List.Forall_cons; [vm_compute; tauto |]); apply List.Forall_nil).
  split; [exact H |].
  split; [exact (custom_tickers_blank ascii_upper _ H) |].
  exact (custom_tickers_blank ascii_upper [] (List.Forall_nil _)).
Defined.

(** ** The live refresh step, continued *)

Lemma seconds_of_elapsed (a b : datetime) :
  seconds (dt_sub a b) = seconds_in_day a b.
Proof.
  unfold seconds_in_day, dt_sub, timedelta_of, to_us. simpl.
  Z.to_euclidean_division_equations. lia.
Qed.

(** X20: [update_live_data] issues the fetches exactly when the refresh
    rate is at most the whole seconds elapsed since [last_update] taken
    within the day (the seconds field of the difference, which starts again
    at 0 every 24 hours); otherwise it fetches nothing and leaves the
    session as it is. In particular every attempt made at least
    [refresh_rate] seconds and less than a day after [last_update]
    fetches. *)
Theorem update_live_data_fetch_condition (yf : provider) (tickers : list string)
  (refresh_rate : Z) (now : datetime) (st : session_state) :
  (refresh_rate <= seconds_in_day now (last_update st) ->
     exists st', update_live_data yf tickers refresh_rate now st = Returns (st', tickers))
  /\ (seconds_in_day now (last_update st) < refresh_rate ->
        update_live_data yf tickers refresh_rate now st = Returns (st, []))
  /\ (refresh_rate * 1000000 <= to_us now - to_us (last_update st) < 86400000000 ->
        exists st', update_live_data yf tickers refresh_rate now st = Returns (st', tickers)).
Proof.
  assert (Hdue : refresh_rate <= seconds_in_day now (last_update st) ->
                 exists st', update_live_data yf tickers refresh_rate now st
                             = Returns (st', tickers)).
  { intros H. rewrite <- seconds_of_elapsed in H.
    destruct (update_live_data_cases yf tickers refresh_rate now st)
      as [[Hlt _] | [(_ & _ & Hu) | (_ & _ & m & Hu & _)]]; [lia | eauto | eauto]. }
  split; [exact Hdue |]. split.
  - intros H. rewrite <- seconds_of_elapsed in H.
    destruct (update_live_data_cases yf tickers refresh_rate now st)
      as [[_ Hu] | [(Hge & _) | (Hge & _)]]; [exact Hu | lia | lia].
  - intros [Hlo Hhi]. apply Hdue. unfold seconds_in_day.
    destruct (Z.le_gt_cases 0 refresh_rate) as [Hr | Hr].
    + Z.to_euclidean_division_equations. lia.
    + Z.to_euclidean_division_equations. lia.
Qed.

Lemma update_live_data_fetch_condition_ex :
  seconds_in_day (mk_datetime 738999 10 0 2 0) (last_update session_A) < 5
  /\ 5 * 1000000 <= to_us (mk_datetime 738999 10 0 2 0) - to_us (last_update session_A)
  /\ update_live_data only_B watch_AB 5 (mk_datetime 738999 10 0 2 0) session_A =
       Returns (session_A, []).
Proof.
  assert (H : seconds_in_day (mk_datetime 738999 10 0 2 0) (last_update session_A) < 5)
    by (vm_compute; reflexivity).
  split; [exact H |]. split; [vm_compute; discriminate |].
  destruct (update_live_data_fetch_condition only_B watch_AB 5
              (mk_datetime 738999 10 0 2 0) session_A) as (_ & Hskip & _).
  exact (Hskip H).
Defined.

(** A run, one attempt after the other. *)
Lemma run_cons (tickers : list string) (refresh_rate : Z) (a : attempt)
  (rest : list attempt) (st : session_state) (steps : list step) :
  run tickers refresh_rate (a :: rest) st = Returns steps ->
  exists st' log steps',
    update_live_data (at_provider a) tickers refresh_rate (at_time a) st = Returns (st', log)
    /\ run tickers refresh_rate rest st' = Returns steps'
    /\ steps = {| step_of := a; before := st; after := st'; fetched := log |} :: steps'.
Proof.
  simpl run.
  destruct (update_live_data (at_provider a) tickers refresh_rate (at_time a) st)
    as [[st' log] | e] eqn:Hu; [| simpl; discriminate].
  simpl bind.
  destruct (run tickers refresh_rate rest st') as [steps' | e] eqn:Hr; [| simpl; discriminate].
  simpl. intros H. injection H as <-.
  exists st', log, steps'. split; [reflexivity |]. split; [exact Hr | reflexivity].
Qed.

(** X21: along a run on a clock that never goes back, [last_update] never
    goes back either and is never ahead of the clock: each attempt leaves it
    between its value before the attempt and the time of the attempt. *)
Theorem run_last_update_monotone (tickers : list string) (refresh_rate : Z)
  (attempts : list attempt) :
  forall st steps,
    clock_from (to_us (last_update st)) attempts ->
    run tickers refresh_rate attempts st = Returns steps ->
    Forall (fun s => to_us (last_update (before s)) <= to_us (last_update (after s))
                     /\ to_us (last_update (after s)) <= to_us (at_time (step_of s))) steps.
Proof.
  induction attempts as [|a rest IH]; intros st steps Hclock Hrun.
  - simpl in Hrun. injection Hrun as <-. constructor.
  - destruct Hclock as [H0 Hrest].
    destruct (run_cons _ _ _ _ _ _ Hrun) as (st' & log & steps' & Hu & Hrun' & ->).
    destruct (update_live_data_step a tickers refresh_rate st H0)
      as (st2 & log2 & Hu2 & _ & Hlu).
    rewrite Hu in Hu2. injection Hu2 as <- <-.
    constructor; [simpl; exact Hlu |].
    apply (IH st' steps'); [| exact Hrun'].
    apply (clock_from_weaken _ _ _ (proj2 Hlu) Hrest).
Qed.

Lemma run_last_update_monotone_ex :
  clock_from (to_us (last_update session_A)) attempts_2_6_8
  /\ exists steps,
       run watch_AB 5 attempts_2_6_8 session_A = Returns steps
       /\ Forall (fun s => to_us (last_update (before s)) <= to_us (last_update (after s))
                           /\ to_us (last_update (after s)) <= to_us (at_time (step_of s)))
                 steps.
Proof.
  assert (Hclock : clock_from (to_us (last_update session_A)) attempts_2_6_8)
    by (vm_compute; repeat split; discriminate).
  split; [exact Hclock |].
  destruct (run watch_AB 5 attempts_2_6_8 session_A) as [steps | e] eqn:Hrun.
  - exists steps. split; [reflexivity |].
    exact (run_last_update_monotone watch_AB 5 attempts_2_6_8 session_A steps Hclock Hrun).
  - exfalso. vm_compute in Hrun. discriminate Hrun.
Defined.

Lemma snapshot_numeric (hist : list bar) (d : live_price) :
  snapshot_of hist = Some d -> numeric_entry (cache_entry d).
Proof.
  unfold snapshot_of. destruct (rev hist) as [|c [|p r]]; intros H; [discriminate H | |];
    injection H as <-; unfold numeric_entry; simpl; eauto.
Qed.

Lemma update_live_data_cache_ok (yf : provider) (tickers : list string) (refresh_rate : Z)
  (now : datetime) (st st' : session_state) (log : list string) :
  update_live_data yf tickers refresh_rate now st = Returns (st', log) ->
  cache_ok tickers (price_data st) ->
  cache_ok tickers (price_data st').
Proof.
  intros Hu Hok.
  destruct (update_live_data_cases yf tickers refresh_rate now st)
    as [[_ Hu'] | [(_ & _ & Hu') | (_ & _ & m & Hu' & Hin & Hout)]];
    rewrite Hu in Hu'; injection Hu' as -> _; try exact Hok.
  intros t e Hte. simpl in Hte.
  destruct (in_dec String.string_dec t tickers) as [Ht | Ht].
  - split; [exact Ht |]. rewrite (Hin t Ht) in Hte.
    unfold live_snapshot in Hte.
    destruct (history_live yf t) as [hist | err]; [| discriminate Hte].
    destruct (snapshot_of hist) as [d |] eqn:Ed; [| discriminate Hte].
    injection Hte as <-. exact (snapshot_numeric hist d Ed).
  - rewrite (Hout t Ht) in Hte. discriminate Hte.
Qed.

(** X22: the session cache keeps its shape along every run: starting from
    a price map that holds only symbols of the watch-list with numeric
    entries (the empty map of a fresh session is one), every attempt leaves
    such a map: its keys are symbols of the watch-list, and the change and
    percent change of an entry are both the integer 0 or both floats. *)
Theorem run_cache_ok (tickers : list string) (refresh_rate : Z) (attempts : list attempt) :
  forall st steps,
    cache_ok tickers (price_data st) ->
    run tickers refresh_rate attempts st = Returns steps ->
    Forall (fun s => cache_ok tickers (price_data (after s))) steps.
Proof.
  induction attempts as [|a rest IH]; intros st steps Hok Hrun.
  - simpl in Hrun. injection Hrun as <-. constructor.
  - destruct (run_cons _ _ _ _ _ _ Hrun) as (st' & log & steps' & Hu & Hrun' & ->).
    pose proof (update_live_data_cache_ok _ _ _ _ _ _ _ Hu Hok) as Hok'.
    constructor; [exact Hok' |].
    exact (IH st' steps' Hok' Hrun').
Qed.

Lemma run_cache_ok_fresh :
  cache_ok watch_AB (price_data (fresh_session (mk_datetime 738998 10 0 0 0)))
  /\ exists steps,
       run watch_AB 5 attempts_2_6_8 (fresh_session (mk_datetime 738998 10 0 0 0)) =
         Returns steps
       /\ Forall (fun s => cache_ok watch_AB (price_data (after s))) steps.
Proof.
  assert (Hok : cache_ok watch_AB (price_data (fresh_session (mk_datetime 738998 10 0 0 0)))).
  { intros t e H. simpl in H. rewrite lookup_empty in H. discriminate H. }
  split; [exact Hok |].
  destruct (run watch_AB 5 attempts_2_6_8 (fresh_session (mk_datetime 738998 10 0 0 0)))
    as [steps | e] eqn:Hrun.
  - exists steps. split; [reflexivity |].
    exact (run_cache_ok watch_AB 5 attempts_2_6_8 _ steps Hok Hrun).
  - exfalso. vm_compute in Hrun. discriminate Hrun.
Defined.

(** ** The live cards and the comparison section *)

(** The loop of [comparison_data] never raises and only appends. *)
Lemma comparison_data_from (yf : provider) (price_data : gmap string cached_price)
  (tickers : list string) :
  forall rows0,
  exists rows,
    comparison_data yf price_data tickers rows0 = Returns (rows0 ++ rows)
    /\ map row_symbol rows = List.filter (eligible yf price_data) tickers
    /\ Forall (row_from yf price_data) rows.
Proof.
  induction tickers as [|ticker rest IH]; intros rows0.
  - exists []. rewrite app_nil_r. split; [reflexivity |]. split; [reflexivity | constructor].
  - destruct (get_stock_metrics_returns yf ticker) as [om Hm].
    assert (Hel : eligible yf price_data ticker =
                  match price_data !! ticker, om with
                  | Some _, Some _ => true
                  | _, _ => false
                  end).
    { unfold eligible. rewrite Hm. reflexivity. }
    cbn [comparison_data List.filter]. rewrite Hm, Hel. cbn [bind].
    destruct (price_data !! ticker) as [p |] eqn:Hp; destruct om as [m |];
      cbn [try_except bind].
    + destruct (IH (rows0 ++ [ {| row_symbol := ticker; row_price := cp_price p;
                                  row_change := cp_pct_change p;
                                  row_market_cap := market_cap m;
                                  row_pe_ratio := pe_ratio m;
                                  row_volume := volume m |} ]))
        as (rows & Hrows & Hsym & Hall).
      eexists (_ :: rows). rewrite Hrows, <- app_assoc. simpl.
      split; [reflexivity |]. split; [rewrite Hsym; reflexivity |].
      constructor; [| exact Hall].
      exists p, m. simpl. repeat split; assumption.
    + destruct (IH rows0) as (rows & Hrows & Hsym & Hall). exists rows. auto.
    + destruct (IH rows0) as (rows & Hrows & Hsym & Hall). exists rows. auto.
    + destruct (IH rows0) as (rows & Hrows & Hsym & Hall). exists rows. auto.
Qed.

(** X23: the comparison rows are built without ever raising, one row per
    entry of the watch-list that has both a cached snapshot and metrics, in
    the order of the watch-list; a symbol that lacks either gets no row, a
    symbol listed twice gets two rows; each row holds the cached price and
    percent change and the market cap, P/E and volume of the metrics. *)
Theorem comparison_data_rows (yf : provider) (price_data : gmap string cached_price)
  (tickers : list string) :
  exists rows,
    comparison_data yf price_data tickers [] = Returns rows
    /\ map row_symbol rows = List.filter (eligible yf price_data) tickers
    /\ Forall (row_from yf price_data) rows.
Proof. exact (comparison_data_from yf price_data tickers []). Qed.

Lemma comparison_data_rows_twice :
  List.filter (eligible quiet_B quiet_cache) ["A.NS"; "B.NS"; "B.NS"] = ["B.NS"; "B.NS"]
  /\ exists rows,
       comparison_data quiet_B quiet_cache ["A.NS"; "B.NS"; "B.NS"] [] = Returns rows
       /\ map row_symbol rows = ["B.NS"; "B.NS"].
Proof.
  assert (Hf : List.filter (eligible quiet_B quiet_cache) ["A.NS"; "B.NS"; "B.NS"]
               = ["B.NS"; "B.NS"]) by (vm_compute; reflexivity).
  split; [exact Hf |].
  destruct (comparison_data_rows quiet_B quiet_cache ["A.NS"; "B.NS"; "B.NS"])
    as (rows & Hrows & Hsym & _).
  exists rows. split; [exact Hrows |]. rewrite Hsym. exact Hf.
Defined.

Lemma live_cards_of_snapshots (yf : provider) (m : gmap string cached_price)
  (tickers : list string) :
  (forall t, In t tickers -> m !! t = cache_entry <$> live_snapshot yf t) ->
  forall i0, live_cards_from i0 tickers m = snapshot_cards_from i0 yf tickers.
Proof.
  induction tickers as [|t rest IH]; intros Hin i0; [reflexivity |].
  simpl. rewrite (Hin t (or_introl eq_refl)).
  assert (Hrest : forall u, In u rest -> m !! u = cache_entry <$> live_snapshot yf u)
    by (intros u Hu; apply Hin; right; exact Hu).
  destruct (live_snapshot yf t); simpl; rewrite (IH Hrest); reflexivity.
Qed.

(** X24: after a refresh that is due and in which at least one symbol
    returned live data, the live summary shows a card for exactly the
    entries of the watch-list whose fetch returned a snapshot in this
    refresh, in the order of the watch-list, each in the column of its
    position and with the values of that snapshot; a symbol whose fetch
    failed gets no card, whatever was cached for it. *)
Theorem live_cards_after_refresh (yf : provider) (tickers : list string)
  (refresh_rate : Z) (now : datetime) (st : session_state) :
  refresh_rate <= seconds (dt_sub now (last_update st)) ->
  has_live_data yf tickers ->
  exists st',
    update_live_data yf tickers refresh_rate now st = Returns (st', tickers)
    /\ live_cards tickers (price_data st') = snapshot_cards_from 0 yf tickers.
Proof.
  intros Hdue Hlive.
  destruct (update_live_data_cases yf tickers refresh_rate now st)
    as [[Hlt _] | [(_ & Hno & _) | (_ & _ & m & Hu & Hin & _)]];
    [lia | contradiction |].
  eexists. split; [exact Hu |]. simpl.
  apply live_cards_of_snapshots. exact Hin.
Qed.

Lemma live_cards_after_refresh_only_B :
  5 <= seconds (dt_sub (mk_datetime 738998 10 0 10 0) (last_update session_A))
  /\ has_live_data only_B watch_AB
  /\ exists st',
       update_live_data only_B watch_AB 5 (mk_datetime 738998 10 0 10 0) session_A =
         Returns (st', watch_AB)
       /\ map (fun c => (fst (fst c), snd (fst c))) (live_cards watch_AB (price_data st')) =
            [(1%nat, "B.NS")].
Proof.
  assert (Hdue : 5 <= seconds (dt_sub (mk_datetime 738998 10 0 10 0) (last_update session_A)))
    by (vm_compute; discriminate).
  assert (Hlive : has_live_data only_B watch_AB).
  { exists "B.NS". eexists. split; [right; left; reflexivity | reflexivity]. }
  split; [exact Hdue |]. split; [exact Hlive |].
  destruct (live_cards_after_refresh only_B watch_AB 5 (mk_datetime 738998 10 0 10 0)
              session_A Hdue Hlive) as (st' & Hu & Hcards).
  exists st'. split; [exact Hu |]. rewrite Hcards. reflexivity.
Defined.

(** X25: the comparison section, when it is shown, has at least one row,
    a table of height [min(40 + 30 * rows, 500)] and one bar per row, named
    by the symbol of the row. On a quiet day (some cached percent change is
    a number and none of these is above 1, rows without a number aside) the
    chart plots and labels one hundred times the cached values, although
    they are percentages already; on any other day it plots and labels them
    as they are. *)
Theorem comparison_section_quiet_day (yf : provider) (tickers : list string)
  (price_data : gmap string cached_price) (rows : list comparison_row) (h : Z)
  (chart : bar_chart) :
  comparison_section yf tickers price_data = Returns (ComparisonShown rows h chart) ->
  rows <> []
  /\ h = Z.min (40 + 30 * Z.of_nat (length rows)) 500
  /\ bar_x chart = map row_symbol rows
  /\ (quiet_day rows ->
      bar_y chart = map (fun r => fmul (change_of r) f_100) rows
      /\ text chart = map (fun r => percent_label (fmul (change_of r) f_100)) rows)
  /\ (~ quiet_day rows ->
      bar_y chart = map change_of rows
      /\ text chart = map (fun r => percent_label (change_of r)) rows).
Proof.
  unfold comparison_section. intros Hsec.
  destruct (comparison_data yf price_data tickers []) as [rows' | e]; [| discriminate Hsec].
  cbn [bind] in Hsec.
  destruct (length rows' =? 0)%nat eqn:Elen; cbn [negb] in Hsec; [discriminate Hsec |].
  injection Hsec as Hrows Hh Hchart. subst rows' h chart.
  split; [intros ->; discriminate Elen |]. split; [reflexivity |]. split; [reflexivity |].
  assert (Hquiet : fle (series_max (map (fun r => as_float (row_change r)) rows)) f_1 = true
                   <-> quiet_day rows).
  { rewrite series_max_le. unfold quiet_day, change_of. split.
    - intros [(v & Hv & Hn) Hall]. split.
      + apply in_map_iff in Hv. destruct Hv as (r & <- & Hr). exists r. auto.
      + intros r Hr Hnan. apply Hall; [| exact Hnan].
        apply in_map_iff. exists r. auto.
    - intros [(r & Hr & Hn) Hall]. split.
      + exists (as_float (row_change r)). split; [| exact Hn].
        apply in_map_iff. exists r. auto.
      + intros v Hv Hnan. apply in_map_iff in Hv. destruct Hv as (r' & <- & Hr').
        apply Hall; assumption. }
  unfold create_comparison_chart. cbn [bar_y text]. unfold to_percentages.
  destruct (fle (series_max (map (fun r => as_float (row_change r)) rows)) f_1) eqn:E.
  - split; [| intros Hno; exfalso; apply Hno, Hquiet; reflexivity].
    intros _. rewrite !map_map. split; reflexivity.
  - split; [intros Hq; apply Hquiet in Hq; discriminate Hq |].
    intros _. rewrite !map_map. split; reflexivity.
Qed.

Lemma comparison_section_quiet_day_ex :
  exists rows h chart,
    comparison_section quiet_B ["B.NS"] quiet_cache = Returns (ComparisonShown rows h chart)
    /\ quiet_day rows
    /\ map row_change rows = [VFloat (fdiv (float_of_Z 1) (float_of_Z 2))]
    /\ bar_y chart = [float_of_Z 50]
    /\ text chart = ["+50.00%"].
Proof.
  assert (Hsec : exists rows h chart,
             comparison_section quiet_B ["B.NS"] quiet_cache
             = Returns (ComparisonShown rows h chart)
             /\ map row_change rows = [VFloat (fdiv (float_of_Z 1) (float_of_Z 2))]).
  { eexists _, _, _. split; vm_compute; reflexivity. }
  destruct Hsec as (rows & h & chart & Hsec & Hch).
  assert (Hrow : forall r, In r rows -> change_of r = fdiv (float_of_Z 1) (float_of_Z 2)).
  { intros r Hr. unfold change_of.
    assert (Hc : In (row_change r) (map row_change rows)) by (apply in_map; exact Hr).
    rewrite Hch in Hc. destruct Hc as [<- | []]. reflexivity. }
  destruct (comparison_section_quiet_day quiet_B ["B.NS"] quiet_cache rows h chart Hsec)
    as (Hne & _ & _ & Hquiet & _).
  assert (Hq : quiet_day rows).
  { split.
    - destruct rows as [|r0 rest]; [contradiction |].
      exists r0. split; [left; reflexivity |].
      rewrite (Hrow r0 (or_introl eq_refl)). vm_compute. reflexivity.
    - intros r Hr _. rewrite (Hrow r Hr). vm_compute. reflexivity. }
  exists rows, h, chart. split; [exact Hsec |]. split; [exact Hq |]. split; [exact Hch |].
  destruct (Hquiet Hq) as [Hy Ht]. rewrite Hy, Ht.
  assert (Hmap : forall f : float -> float,
             map (fun r => f (change_of r)) rows =
             map (fun v => f (as_float v)) (map row_change rows))
    by (intros f; rewrite map_map; reflexivity).
  split.
  - rewrite (Hmap (fun v => fmul v f_100)), Hch. vm_compute. reflexivity.
  - rewrite <- (map_map (fun r => fmul (change_of r) f_100) percent_label).
    rewrite (Hmap (fun v => fmul v f_100)), Hch. vm_compute. reflexivity.
Defined.

(** ** The main content *)

Lemma comparison_section_returns (yf : provider) (tickers : list string)
  (price_data : gmap string cached_price) :
  exists view, comparison_section yf tickers price_data = Returns view.
Proof.
  unfold comparison_section.
  destruct (comparison_data_from yf price_data tickers []) as (rows & Hrows & _).
  rewrite Hrows. cbn [bind app].
  destruct (negb (length rows =? 0)%nat); eexists; reflexivity.
Qed.

(** X26: [display_main_content] never raises, whatever [display_metrics]
    does. It draws nothing exactly when [get_stock_data] returned [None].
    Otherwise the metrics column shows "No metrics available." exactly when
    [get_stock_metrics] returned [None], the panel exactly when it returned
    metrics and [display_metrics] drew them, and "Error loading metrics"
    exactly when it returned metrics and [display_metrics] raised:
    [get_stock_metrics] itself never brings up the error notice. The
    comparison is the one of the comparison section. The chart column shows
    the error notice exactly when the selection of the columns failed or the
    frame lacks Date or Price; a chart that is shown is the live line chart
    of these two columns, titled with the selected symbol. *)
Theorem display_main_content_returns {cell : Type}
  (display_metrics : metrics -> outcome unit)
  (stock_data : option (option (gmap string (list cell))))
  (yf : provider) (tickers : list string) (selected_ticker : string)
  (price_data : gmap string cached_price) :
  exists r,
    display_main_content display_metrics stock_data yf tickers selected_ticker price_data
      = Returns r
    /\ (r = None <-> stock_data = None)
    /\ forall c, r = Some c ->
         (panel c = NoMetrics <-> get_stock_metrics yf selected_ticker = Returns None)
         /\ (forall m, panel c = MetricsShown m <->
               get_stock_metrics yf selected_ticker = Returns (Some m)
               /\ exists u, display_metrics m = Returns u)
         /\ (panel c = MetricsError <->
               exists m e, get_stock_metrics yf selected_ticker = Returns (Some m)
                           /\ display_metrics m = Raises e)
         /\ comparison_section yf tickers price_data = Returns (comparison c)
         /\ (chart c = ChartError <->
             forall df, stock_data = Some (Some df) ->
                        df !! "Date" = None \/ df !! "Price" = None)
         /\ (forall fig, chart c = ChartShown fig ->
             exists df dates prices,
               stock_data = Some (Some df)
               /\ df !! "Date" = Some dates /\ df !! "Price" = Some prices
               /\ fig = {| traces := [Scatter dates prices None (Some 2)];
                           title_text := selected_ticker +:+ " Price History";
                           height := 350;
                           transition_duration := Some 300;
                           rangeslider_visible := Some false |}).
Proof.
  unfold display_main_content.
  destruct stock_data as [selection |].
  2:{ exists None. split; [reflexivity |]. split; [tauto |]. intros c H. discriminate H. }
  destruct (get_stock_metrics_returns yf selected_ticker) as [om Hm].
  destruct (comparison_section_returns yf tickers price_data) as [view Hview].
  rewrite Hm, Hview.
  set (ch := match selection with
             | Some df =>
                 match create_price_chart df (selected_ticker +:+ " Price History")
                         "line" true with
                 | Found fig => ChartShown fig
                 | KeyError _ => ChartError
                 end
             | None => ChartError
             end).
  exists (Some {| chart := ch;
                  panel := match om with
                           | Some m => match display_metrics m with
                                       | Returns _ => MetricsShown m
                                       | Raises _ => MetricsError
                                       end
                           | None => NoMetrics
                           end;
                  comparison := view |}).
  split.
  { destruct om as [m |]; cbn [bind]; [destruct (display_metrics m) |]; reflexivity. }
  split; [split; intros H; discriminate H |].
  intros c Hc. injection Hc as <-. cbn [panel comparison chart].
  split.
  { destruct om as [m |]; [destruct (display_metrics m) |];
      split; intros H; try discriminate H; reflexivity. }
  split.
  { intros m'. destruct om as [m |]; [destruct (display_metrics m) as [u | e] eqn:Ed |].
    - split.
      + intros [= <-]. split; [reflexivity | exists u; exact Ed].
      + intros [[= <-] _]. reflexivity.
    - split; [intros H; discriminate H |].
      intros [[= <-] [u Hu]]. congruence.
    - split; [intros H; discriminate H | intros [H _]; discriminate H]. }
  split.
  { destruct om as [m |]; [destruct (display_metrics m) as [u | e] eqn:Ed |].
    - split; [intros H; discriminate H |].
      intros (m' & e & [= <-] & He). congruence.
    - split; [intros _; exists m, e; split; [reflexivity | exact Ed] | reflexivity].
    - split; [intros H; discriminate H | intros (m' & e & H & _); discriminate H]. }
  split; [reflexivity |].
  subst ch.
  destruct selection as [df |].
  2:{ split; [split; [intros _ df H; discriminate H | reflexivity] |].
      intros fig H. discriminate H. }
  unfold create_price_chart, getitem. cbn [String.eqb Ascii.eqb Bool.eqb andb lookup_bind].
  destruct (df !! "Date") as [dates |] eqn:Hd; destruct (df !! "Price") as [prices |] eqn:Hp;
    cbn [lookup_bind].
  - split.
    + split; [intros H; discriminate H |].
      intros H. destruct (H df eq_refl) as [H' | H']; rewrite H' in *; discriminate.
    + intros fig H. injection H as <-. exists df, dates, prices. auto.
  - split.
    + split; [| reflexivity]. intros _ df' H. injection H as <-. right. exact Hp.
    + intros fig H. discriminate H.
  - split.
    + split; [| reflexivity]. intros _ df' H. injection H as <-. left. exact Hd.
    + intros fig H. discriminate H.
  - split.
    + split; [| reflexivity]. intros _ df' H. injection H as <-. left. exact Hd.
    + intros fig H. discriminate H.
Qed.

Lemma display_main_content_returns_ex :
  (exists c,
     display_main_content panel_drawn (Some (Some date_price_frame)) knows_nothing
       ["X.NS"] "X.NS" ∅ = Returns (Some c)
     /\ panel c = MetricsShown all_NA
     /\ comparison_section knows_nothing ["X.NS"] ∅ = Returns NoComparisonData
     /\ chart c = ChartShown {| traces := [Scatter [1; 2; 3] [10; 11; 12] None (Some 2)];
                                title_text := "X.NS Price History";
                                height := 350;
                                transition_duration := Some 300;
                                rangeslider_visible := Some false |})
  /\ (exists c,
        display_main_content panel_fails (Some (Some date_price_frame)) knows_nothing
          ["X.NS"] "X.NS" ∅ = Returns (Some c)
        /\ panel c = MetricsError).
Proof.
  split.
  - destruct (display_main_content_returns panel_drawn (Some (Some date_price_frame))
                knows_nothing ["X.NS"] "X.NS" ∅) as (r & Hr & _ & Hsome).
    assert (Hc : display_main_content panel_drawn (Some (Some date_price_frame))
                   knows_nothing ["X.NS"] "X.NS" ∅
                 = Returns (Some {| chart := ChartShown
                                      {| traces := [Scatter [1; 2; 3] [10; 11; 12] None (Some 2)];
                                         title_text := "X.NS Price History";
                                         height := 350;
                                         transition_duration := Some 300;
                                         rangeslider_visible := Some false |};
                                    panel := MetricsShown all_NA;
                                    comparison := NoComparisonData |}))
      by (vm_compute; reflexivity).
    rewrite Hc in Hr. injection Hr as <-.
    destruct (Hsome _ eq_refl) as (_ & _ & _ & Hcmp & _).
    eexists. split; [exact Hc |]. split; [reflexivity |]. split; [exact Hcmp | reflexivity].
  - destruct (display_main_content_returns panel_fails (Some (Some date_price_frame))
                knows_nothing ["X.NS"] "X.NS" ∅) as (r & Hr & Hnone & Hsome).
    destruct r as [c |].
    + exists c. split; [exact Hr |].
      destruct (Hsome c eq_refl) as (_ & _ & Herr & _). apply Herr.
      exists all_NA, ValueError. split; [vm_compute; reflexivity | reflexivity].
    + exfalso. destruct Hnone as [Hnone _]. discriminate (Hnone eq_refl).
Defined.
